(** * Project file storage of gisquick-server: a model of
    [internal/infrastructure/project/disk_storage.go]

    The development embeds the file index, the checksum provider, the index
    loader, the JSON snapshot of the index and the synchronisation operations
    ([UpdateFiles], [RemoveFiles], [ListProjectFiles], [UpdateMeta],
    [UpdateSettings]) as executable Rocq functions over an explicit state of
    one project, and proves properties of them.

    Conventions.
    - Go's [int64] is a [Z]; additions that Go performs on [int64] are written
      with [add64], which wraps around.
    - Go's [map[string]V] is a [gmap string V].  A [for ... range m] loop is a
      fold over [range m]; Go leaves the order of the visit unspecified, the
      model takes the order of [map_to_list].
    - [filepath.Separator] is ["/"] (the server runs on a POSIX system, and
      [createFilesMap] itself tests for the prefix [".gisquick/"]).
    - The model follows one project.  Its content files are kept by their
      location below the project's directory; [filepath.Join] of the projects'
      root, the project's name and a path, which cleans the path, is a
      parameter [Join] of the development: the location that a path names.
    - The operating system, the SHA-1 function, the [dbhash] tool and the clock
      are parameters or parts of the state; the concurrency of the server is
      not modelled: a call runs from its start to its end. *)

From Stdlib Require Import ZArith String Ascii List Lia.
From stdpp Require Import base option list sorting gmap strings.

Local Open Scope string_scope.
Local Open Scope Z_scope.

#[local] Set Warnings "-register-all".

(** ** Strings: the functions of Go's [strings] and [path/filepath] the code calls *)

Definition Separator : string := "/".

(** [strings.HasPrefix(s, prefix)] *)
Definition HasPrefix (s prefix : string) : bool := String.prefix prefix s.

(** [strings.HasSuffix(s, suffix)] *)
Definition HasSuffix (s suffix : string) : bool :=
  let n := String.length s in
  let k := String.length suffix in
  (k <=? n)%nat && String.eqb (substring (n - k) k s) suffix.

(** [strings.TrimSuffix(s, suffix)] *)
Definition TrimSuffix (s suffix : string) : string :=
  if HasSuffix s suffix then substring 0 (String.length s - String.length suffix) s
  else s.

(** [filepath.Ext(path)]: the loop runs [i] from [len(path)-1] down to [0] and
    stops at a separator; [n] is [i+1]. *)
Fixpoint ext_loop (path : string) (n : nat) : string :=
  match n with
  | O => ""
  | S i =>
      match String.get i path with
      | Some c =>
          if Ascii.eqb c "/" then ""
          else if Ascii.eqb c "." then substring i (String.length path - i) path
          else ext_loop path i
      | None => ""
      end
  end.

Definition Ext (path : string) : string := ext_loop path (String.length path).

(** [strings.ToLower] on the letters [A]..[Z]; other bytes are kept (the
    lower-casing of code points outside ASCII is not modelled). *)
Definition lower_ascii (c : ascii) : ascii :=
  let n := nat_of_ascii c in
  if ((65 <=? n) && (n <=? 90))%nat then ascii_of_nat (n + 32) else c.

Fixpoint ToLower (s : string) : string :=
  match s with
  | EmptyString => EmptyString
  | String c r => String (lower_ascii c) (ToLower r)
  end.

(** [strings.Split(s, " ")[0]]: the bytes of [s] before its first space, all of
    [s] when it has none. *)
Fixpoint split_first (s : string) : string :=
  match s with
  | EmptyString => EmptyString
  | String c r => if Ascii.eqb c " " then EmptyString else String c (split_first r)
  end.

(** ** 64-bit integers *)

Definition int64_min : Z := - 2 ^ 63.
Definition int64_max : Z := 2 ^ 63 - 1.

Definition in_int64 (z : Z) : Prop := int64_min <= z <= int64_max.

Definition in_int64b (z : Z) : bool := (int64_min <=? z) && (z <=? int64_max).

(** The value an [int64] holds after an operation whose exact result is [z]. *)
Definition wrap64 (z : Z) : Z := (z + 2 ^ 63) mod 2 ^ 64 - 2 ^ 63.

Definition add64 (a b : Z) : Z := wrap64 (a + b).

(** ** The file index *)

Module FileInfo.
(** [type FileInfo struct { Hash string; Size int64; Mtime int64 }] *)
Record t : Type := mk { Hash : string; Size : Z; Mtime : Z }.

(** The zero value of the struct. *)
Definition zero : t := {| Hash := ""; Size := 0; Mtime := 0 |}.

Definition wf (f : t) : Prop := in_int64 (Size f) /\ in_int64 (Mtime f).
End FileInfo.

Global Instance FileInfo_eq_dec : EqDecision FileInfo.t.
Proof. solve_decision. Defined.

(** [type FilesIndex struct { sync.RWMutex; Index map[string]FileInfo }]
    (lines 25-28).  The lock has no content; one operation of the index is one
    step of the model. *)
Record FilesIndex : Type := mkFilesIndex { Index : gmap string FileInfo.t }.

(** The entries a [for k, v := range m] loop visits. *)
Definition range {A : Type} (m : gmap string A) : list (string * A) := map_to_list m.

(** [Get], [Set], [Delete] (lines 30-47); [Set] is a reserved word. *)
Definition Get (path : string) (fi : FilesIndex) : FileInfo.t * bool :=
  match Index fi !! path with
  | Some val => (val, true)
  | None => (FileInfo.zero, false)
  end.

Definition Set_ (path : string) (info : FileInfo.t) (fi : FilesIndex) : FilesIndex :=
  {| Index := <[path := info]> (Index fi) |}.

Definition Delete (path : string) (fi : FilesIndex) : FilesIndex :=
  {| Index := delete path (Index fi) |}.

(** [DeleteDir] (lines 49-59): the body of its loop, for one visited key,
    and the function. *)
Definition DeleteDir_step (dirPrefix : string) (idx : gmap string FileInfo.t)
    (e : string * FileInfo.t) : gmap string FileInfo.t :=
  if HasPrefix (fst e) dirPrefix then delete (fst e) idx else idx.

Definition DeleteDir (dirPath : string) (fi : FilesIndex) : FilesIndex :=
  let dirPrefix := TrimSuffix dirPath Separator +:+ Separator in
  {| Index := foldl (DeleteDir_step dirPrefix) (Index fi) (range (Index fi)) |}.

(** [TotalSize] (lines 61-69) *)
Definition TotalSize (fi : FilesIndex) : Z :=
  foldl (fun size e => add64 size (FileInfo.Size (snd e))) 0 (range (Index fi)).

(** The entries the claim about [DeleteDir] speaks of: those whose path has
    [d] followed by the separator as a prefix. *)
Definition under_dir (d p : string) : bool := HasPrefix p (d +:+ Separator).

(** ** JSON documents

    A document is modelled after parsing: the model starts where
    [encoding/json] has read the text of a document.  What it prints is
    modelled by the document that is read back from the printed text: the
    escapes it writes are undone by the reader, and a byte of a string at
    which no UTF-8 encoding starts comes back as U+FFFD ([json_string]). *)

Inductive json : Type :=
| JNull
| JBool (b : bool)
| JInt (n : Z)                        (* a number literal without fraction or exponent *)
| JFloat                              (* any other number literal *)
| JString (s : string)
| JArray (l : list json)
| JObject (kvs : list (string * json)).

(** [json.Unmarshal] into a [string]: a string literal is stored, [null] leaves
    the value as it is, anything else is an [UnmarshalTypeError]; the decoder
    records the error and goes on.  The [bool] says that no error occurred. *)
Definition decode_string (j : json) (cur : string) : string * bool :=
  match j with
  | JString s => (s, true)
  | JNull => (cur, true)
  | _ => (cur, false)
  end.

(** [json.Unmarshal] into an [int64]. *)
Definition decode_int64 (j : json) (cur : Z) : Z * bool :=
  match j with
  | JInt n => if in_int64b n then (n, true) else (cur, false)
  | JNull => (cur, true)
  | _ => (cur, false)
  end.

(** The field of [FileInfo] a key of a JSON object is stored in, if any.  The
    names are those of the struct tags: [json:"hash"], [json:"size"],
    [json:"mtime"]; [encoding/json] matches them without regard to the case of
    ASCII letters (the two letters outside ASCII that it also folds onto [s]
    and [k] are not modelled). *)
Inductive FileInfo_field : Type := FHash | FSize | FMtime.

Definition FileInfo_field_of_key (k : string) : option FileInfo_field :=
  let k' := ToLower k in
  if String.eqb k' "hash" then Some FHash
  else if String.eqb k' "size" then Some FSize
  else if String.eqb k' "mtime" then Some FMtime
  else None.

Definition decode_FileInfo_member (acc : FileInfo.t * bool) (kv : string * json)
    : FileInfo.t * bool :=
  let '(f, ok) := acc in
  match FileInfo_field_of_key (fst kv) with
  | Some FHash =>
      let '(h, ok') := decode_string (snd kv) (FileInfo.Hash f) in
      (FileInfo.mk h (FileInfo.Size f) (FileInfo.Mtime f), ok && ok')
  | Some FSize =>
      let '(n, ok') := decode_int64 (snd kv) (FileInfo.Size f) in
      (FileInfo.mk (FileInfo.Hash f) n (FileInfo.Mtime f), ok && ok')
  | Some FMtime =>
      let '(n, ok') := decode_int64 (snd kv) (FileInfo.Mtime f) in
      (FileInfo.mk (FileInfo.Hash f) (FileInfo.Size f) n, ok && ok')
  | None => (f, ok)                   (* an unknown key is skipped *)
  end.

(** [json.Unmarshal] into a [FileInfo] that holds [cur]. *)
Definition decode_FileInfo (j : json) (cur : FileInfo.t) : FileInfo.t * bool :=
  match j with
  | JObject kvs => foldl decode_FileInfo_member (cur, true) kvs
  | JNull => (cur, true)
  | _ => (cur, false)
  end.

(** One member of the object, decoded into a map: the element starts from the
    zero value and is stored under the key, whether or not it decoded without
    error. *)
Definition decode_index_member (acc : gmap string FileInfo.t * bool)
    (kv : string * json) : gmap string FileInfo.t * bool :=
  let '(m, ok) := acc in
  let '(f, ok') := decode_FileInfo (snd kv) FileInfo.zero in
  (<[fst kv := f]> m, ok && ok').

(** [decoder.Decode(&index)] for [var index map[string]FileInfo].  ([null]
    leaves the map nil; the model does not tell a nil map from an empty one.) *)
Definition decode_index (j : json) : gmap string FileInfo.t * bool :=
  match j with
  | JObject kvs => foldl decode_index_member (∅, true) kvs
  | JNull => (∅, true)
  | _ => (∅, false)
  end.

(** *** Strings as [encoding/json] prints them

    [utf8.DecodeRuneInString] at a byte [c] that is not ASCII, followed by
    [r]: the number of bytes that follow [c] in the encoding that starts
    there, or [None] when none starts there (the function then gives
    [RuneError] and the width 1).  The ranges are those of the tables of
    [unicode/utf8]: no overlong encoding, no surrogate, nothing above
    U+10FFFF. *)
Definition byte_in (lo hi : nat) (c : ascii) : bool :=
  (lo <=? nat_of_ascii c)%nat && (nat_of_ascii c <=? hi)%nat.

Definition utf8_tail (c : ascii) (r : string) : option nat :=
  let b := nat_of_ascii c in
  if (b <? 194)%nat then None                              (* 80..C1 *)
  else if (b <=? 223)%nat then                               (* C2..DF *)
    match r with
    | String c1 _ => if byte_in 128 191 c1 then Some 1%nat else None
    | _ => None
    end
  else if (b <=? 239)%nat then                               (* E0..EF *)
    let lo := if (b =? 224)%nat then 160%nat else 128%nat in
    let hi := if (b =? 237)%nat then 159%nat else 191%nat in
    match r with
    | String c1 (String c2 _) =>
        if byte_in lo hi c1 && byte_in 128 191 c2 then Some 2%nat else None
    | _ => None
    end
  else if (b <=? 244)%nat then                               (* F0..F4 *)
    let lo := if (b =? 240)%nat then 144%nat else 128%nat in
    let hi := if (b =? 244)%nat then 143%nat else 191%nat in
    match r with
    | String c1 (String c2 (String c3 _)) =>
        if byte_in lo hi c1 && byte_in 128 191 c2 && byte_in 128 191 c3
        then Some 3%nat else None
    | _ => None
    end
  else None.                                                 (* F5..FF *)

(** U+FFFD in UTF-8: the bytes EF BF BD. *)
Definition replacement_char : string :=
  String (ascii_of_nat 239) (String (ascii_of_nat 191) (String (ascii_of_nat 189) "")).

(** The string that is read back from the text that [encoding/json] prints
    for a string: the bytes of the string, with U+FFFD in the place of every
    byte at which no UTF-8 encoding starts.  [n] counts the bytes that are
    left of an encoding whose first byte was seen. *)
Fixpoint json_string_from (n : nat) (s : string) : string :=
  match s with
  | EmptyString => EmptyString
  | String c r =>
      match n with
      | S n' => String c (json_string_from n' r)
      | O =>
          if (nat_of_ascii c <? 128)%nat then String c (json_string_from 0 r)
          else match utf8_tail c r with
               | Some k => String c (json_string_from k r)
               | None => replacement_char +:+ json_string_from 0 r
               end
      end
  end.

Definition json_string (s : string) : string := json_string_from 0 s.

(** The strings that are printed as they are. *)
Definition valid_utf8 (s : string) : Prop := json_string s = s.

(** [encoder.Encode] of a [FileInfo], of a [map[string]FileInfo] and of a
    [*FilesIndex].  The struct [FilesIndex] has one exported field without a
    tag, [Index]; the embedded lock has no exported field.  Go prints the
    entries of a map in the order of their keys, compared byte by byte, and
    prints the keys as it prints strings: two keys that are printed alike
    are two members with one name, of which the reader keeps the later. *)
Definition encode_FileInfo (f : FileInfo.t) : json :=
  JObject [("hash", JString (json_string (FileInfo.Hash f)));
           ("size", JInt (FileInfo.Size f));
           ("mtime", JInt (FileInfo.Mtime f))].

Definition key_le (e1 e2 : string * FileInfo.t) : Prop :=
  String.leb (fst e1) (fst e2) = true.

Global Instance key_le_dec (e1 e2 : string * FileInfo.t) : Decision (key_le e1 e2).
Proof. unfold key_le. apply _. Defined.

Definition sorted_by_key (l : list (string * FileInfo.t)) : list (string * FileInfo.t) :=
  merge_sort key_le l.

Definition encode_index (m : gmap string FileInfo.t) : json :=
  JObject (map (fun e => (json_string (fst e), encode_FileInfo (snd e)))
               (sorted_by_key (map_to_list m))).

Definition encode_FilesIndex (fi : FilesIndex) : json :=
  JObject [("Index", encode_index (Index fi))].

(** ** Checksum tokens *)

Definition hex_digit (n : nat) : ascii :=
  nth n (list_ascii_of_string "0123456789abcdef") "0"%char.

(** [fmt.Sprintf("%x", b)] for a byte slice [b]: two lower-case digits a byte. *)
Fixpoint hex (b : string) : string :=
  match b with
  | EmptyString => EmptyString
  | String c r =>
      let n := nat_of_ascii c in
      String (hex_digit (n / 16)) (String (hex_digit (n mod 16)) (hex r))
  end.

(** What the spec calls the first whitespace-delimited token of an output:
    the first field of [strings.Fields]. *)
Definition is_space (c : ascii) : bool :=
  let n := nat_of_ascii c in
  ((n =? 32) || ((9 <=? n) && (n <=? 13)))%nat.

Fixpoint take_token (s : string) : string :=
  match s with
  | EmptyString => EmptyString
  | String c r => if is_space c then EmptyString else String c (take_token r)
  end.

Fixpoint first_token (s : string) : string :=
  match s with
  | EmptyString => EmptyString
  | String c r => if is_space c then first_token r else take_token s
  end.

(** ** Errors *)

Inductive error : Type :=
| ErrProjectNotExists                 (* domain.ErrProjectNotExists *)
| ErrProjectAlreadyExists             (* domain.ErrProjectAlreadyExists *)
| ErrProjectSize                      (* domain.ErrProjectSize *)
| ErrInvalidQgisMeta                  (* domain.ErrInvalidQgisMeta *)
| ErrNotExist                         (* os.ErrNotExist *)
| ErrIO                               (* another error of the operating system or of a reader *)
| ErrJSON                             (* an error of encoding/json *)
| ErrEOF                              (* io.EOF *)
| ErrExec                             (* the subprocess failed *)
| Errorf (msg : string)               (* fmt.Errorf(msg) *)
| Wrapf (msg : string) (cause : error).   (* fmt.Errorf(msg: %w, cause) *)

(** [errors.Is(err, os.ErrNotExist)] *)
Fixpoint is_not_exist (e : error) : bool :=
  match e with
  | ErrNotExist => true
  | Wrapf _ c => is_not_exist c
  | _ => false
  end.

(** What a call returns: a value and an error as Go returns them (either may
    be nil), or a run-time panic. *)
Inductive ret (A : Type) : Type :=
| Return (val : option A) (err : option error)
| Panic.
Arguments Return {A} val err.
Arguments Panic {A}.

(** ** The records of the domain package

    Modelled from the spec: the declarations of [domain.ProjectFile],
    [domain.FilesChanges] and [domain.ProjectInfo] are not part of the source
    file; the fields are those the code reads and writes, and those the
    specification lists for the metadata record.  A [time.Time] is the number
    of seconds since the epoch, so [time.Unix(t, 0)] and [t.Unix()] are the
    identity. *)

Module ProjectFile.
Record t : Type := mk { Path : string; Hash : string; Size : Z; Mtime : Z }.
End ProjectFile.

Record FilesChanges : Type := mkFilesChanges
  { Updates : list ProjectFile.t; Removes : list string }.

Module ProjectInfo.
Record t : Type := mk
  { Title : string; QgisFile : string; Projection : string; State : string;
    Size : Z; Created : Z; LastUpdate : Z; Thumbnail : bool;
    Authentication : string }.

Definition zero : t := mk "" "" "" "" 0 0 0 false "".

Definition set_Size (n : Z) (p : t) : t :=
  mk (Title p) (QgisFile p) (Projection p) (State p) n (Created p)
     (LastUpdate p) (Thumbnail p) (Authentication p).
Definition set_State (st : string) (p : t) : t :=
  mk (Title p) (QgisFile p) (Projection p) st (Size p) (Created p)
     (LastUpdate p) (Thumbnail p) (Authentication p).
Definition set_LastUpdate (n : Z) (p : t) : t :=
  mk (Title p) (QgisFile p) (Projection p) (State p) (Size p) (Created p)
     n (Thumbnail p) (Authentication p).
Definition set_Title (x : string) (p : t) : t :=
  mk x (QgisFile p) (Projection p) (State p) (Size p) (Created p)
     (LastUpdate p) (Thumbnail p) (Authentication p).
Definition set_QgisFile (x : string) (p : t) : t :=
  mk (Title p) x (Projection p) (State p) (Size p) (Created p)
     (LastUpdate p) (Thumbnail p) (Authentication p).
Definition set_Projection (x : string) (p : t) : t :=
  mk (Title p) (QgisFile p) x (State p) (Size p) (Created p)
     (LastUpdate p) (Thumbnail p) (Authentication p).
Definition set_Authentication (x : string) (p : t) : t :=
  mk (Title p) (QgisFile p) (Projection p) (State p) (Size p) (Created p)
     (LastUpdate p) (Thumbnail p) x.
End ProjectInfo.


(** [type Info struct], read from the QGIS metadata of a project. *)
Record Info : Type := mkInfo
  { iTitle : string; iFile : string; iProjectHash : string; iProjection : string }.

Definition decode_Info_member (acc : Info * bool) (kv : string * json) : Info * bool :=
  let '(i, ok) := acc in
  let k := ToLower (fst kv) in
  if String.eqb k "title" then
    let '(x, ok') := decode_string (snd kv) (iTitle i) in
    (mkInfo x (iFile i) (iProjectHash i) (iProjection i), ok && ok')
  else if String.eqb k "file" then
    let '(x, ok') := decode_string (snd kv) (iFile i) in
    (mkInfo (iTitle i) x (iProjectHash i) (iProjection i), ok && ok')
  else if String.eqb k "project_hash" then
    let '(x, ok') := decode_string (snd kv) (iProjectHash i) in
    (mkInfo (iTitle i) (iFile i) x (iProjection i), ok && ok')
  else if String.eqb k "projection" then
    let '(x, ok') := decode_string (snd kv) (iProjection i) in
    (mkInfo (iTitle i) (iFile i) (iProjectHash i) x, ok && ok')
  else (i, ok).

(** [json.Unmarshal(meta, &i)] for [var i Info]; [None] is a text that is not
    a JSON document. *)
Definition decode_Info (meta : option json) : Info * bool :=
  match meta with
  | Some (JObject kvs) => foldl decode_Info_member (mkInfo "" "" "" "", true) kvs
  | Some JNull => (mkInfo "" "" "" "", true)
  | _ => (mkInfo "" "" "" "", false)
  end.

(** [type SettingsInfo struct { Title string; Auth struct { Type string } }] *)
Record SettingsInfo : Type := mkSettingsInfo { sTitle : string; sAuthType : string }.

Definition decode_Auth_member (acc : string * bool) (kv : string * json) : string * bool :=
  let '(ty, ok) := acc in
  if String.eqb (ToLower (fst kv)) "type" then
    let '(x, ok') := decode_string (snd kv) ty in (x, ok && ok')
  else (ty, ok).

Definition decode_SettingsInfo_member (acc : SettingsInfo * bool) (kv : string * json)
    : SettingsInfo * bool :=
  let '(i, ok) := acc in
  let k := ToLower (fst kv) in
  if String.eqb k "title" then
    let '(x, ok') := decode_string (snd kv) (sTitle i) in
    (mkSettingsInfo x (sAuthType i), ok && ok')
  else if String.eqb k "auth" then
    match snd kv with
    | JObject kvs =>
        let '(x, ok') := foldl decode_Auth_member (sAuthType i, true) kvs in
        (mkSettingsInfo (sTitle i) x, ok && ok')
    | JNull => (i, ok)
    | _ => (i, false)
    end
  else (i, ok).

Definition decode_SettingsInfo (data : option json) : SettingsInfo * bool :=
  match data with
  | Some (JObject kvs) => foldl decode_SettingsInfo_member (mkSettingsInfo "" "", true) kvs
  | Some JNull => (mkSettingsInfo "" "", true)
  | _ => (mkSettingsInfo "" "", false)
  end.

(** ** The state of one project

    The project's content files are kept by their location below the project's
    directory; a directory exists when a file lies below it.  The files of the
    control directory [.gisquick] are kept apart, each with what the code can
    observe of it. *)

Record DiskFile : Type := mkDiskFile { data : string; modTime : Z }.

Definition fileSize (f : DiskFile) : Z := Z.of_nat (String.length (data f)).

(** [.gisquick/project.json] *)
Inductive meta_file : Type :=
| MetaAbsent
| MetaUnreadable                      (* reading it fails *)
| MetaCorrupt (partial : ProjectInfo.t)   (* parsing it fails; [partial] is what was filled in *)
| MetaOk (p : ProjectInfo.t).

(** [.gisquick/filesmap.json]; [Content None] is a text that is not a JSON
    document. *)
Inductive snapshot_file : Type :=
| SnapAbsent
| SnapUnreadable                      (* opening it fails for another reason *)
| Content (doc : option json).

Record World : Type := mkWorld
  { disk : gmap string DiskFile;
    project_json : meta_file;
    filesmap_json : snapshot_file;
    qgis_json : option json;
    settings_json : option json;
    indexCache : option FilesIndex;   (* the entry of the project in the cache *)
    now : Z;                          (* the clock *)
    checksum_calls : list string }.   (* every path [Checksum] was called on, latest first *)

Definition set_disk (d : gmap string DiskFile) (w : World) : World :=
  mkWorld d (project_json w) (filesmap_json w) (qgis_json w) (settings_json w)
          (indexCache w) (now w) (checksum_calls w).
Definition set_project_json (m : meta_file) (w : World) : World :=
  mkWorld (disk w) m (filesmap_json w) (qgis_json w) (settings_json w)
          (indexCache w) (now w) (checksum_calls w).
Definition set_filesmap_json (f : snapshot_file) (w : World) : World :=
  mkWorld (disk w) (project_json w) f (qgis_json w) (settings_json w)
          (indexCache w) (now w) (checksum_calls w).
Definition set_qgis_json (j : option json) (w : World) : World :=
  mkWorld (disk w) (project_json w) (filesmap_json w) j (settings_json w)
          (indexCache w) (now w) (checksum_calls w).
Definition set_settings_json (j : option json) (w : World) : World :=
  mkWorld (disk w) (project_json w) (filesmap_json w) (qgis_json w) j
          (indexCache w) (now w) (checksum_calls w).
Definition set_indexCache (c : option FilesIndex) (w : World) : World :=
  mkWorld (disk w) (project_json w) (filesmap_json w) (qgis_json w) (settings_json w)
          c (now w) (checksum_calls w).
Definition log_checksum_call (path : string) (w : World) : World :=
  mkWorld (disk w) (project_json w) (filesmap_json w) (qgis_json w) (settings_json w)
          (indexCache w) (now w) (path :: checksum_calls w).

(** The calls to the operating system that the model lets fail. *)
Inductive io_op : Type :=
| OpWalk                              (* filepath.WalkDir of the project *)
| OpOpen (path : string)              (* os.Open and the reads that follow *)
| OpCreate (path : string)            (* os.MkdirAll and os.Create *)
| OpStat (path : string)
| OpLstat (path : string)
| OpRemove (path : string)
| OpRemoveAll (path : string)
| OpSave (file : string)              (* saveJsonFile of a file of the control directory *)
| OpCut (file : string).              (* a write of that file that fails stops inside the text *)

(** How a call of [saveJsonFile] that returns an error leaves the file: the
    error is that of [os.Create], and the file is as it was; or it is that of
    [encoder.Encode], which writes the text in one piece, after [os.Create]
    emptied the file: what is left is a part of the text that is no JSON
    document, or all of the text but the newline that ends it. *)
Inductive save_failure : Type :=
| NotCreated
| CutShort
| NewlineMissing.

(** What the upload source yields, call after call: an error, or a path and a
    reader; the reader either delivers [content] or fails while it is read. *)
Inductive reader : Type :=
| Reads (content : string)
| ReadFails.

Inductive upload : Type :=
| NextErr (e : error)
| NextFile (path : string) (r : reader).

Inductive lstat_result : Type :=
| IsFile
| IsDir
| LstatErr (e : error).

Record DiskStorage : Type := mkDiskStorage { MaxProjectSize : Z }.

(** The sizes a batch leaves, in the words of the specification: the sizes of
    the entries of the index, without the entries named in [Removes], with the
    sizes declared in [Updates] written over them; and their exact sum. *)
Definition projected_sizes (index : FilesIndex) (info : FilesChanges) : gmap string Z :=
  foldl (fun m f => <[ProjectFile.Path f := ProjectFile.Size f]> m)
        (foldl (fun m path => delete path m) (FileInfo.Size <$> Index index)
               (Removes info))
        (Updates info).

Definition projected_size (index : FilesIndex) (info : FilesChanges) : Z :=
  foldl (fun sum e => sum + snd e) 0 (map_to_list (projected_sizes index info)).

(** ** Example data *)

Definition example_info : FileInfo.t := FileInfo.mk "H1" 10 100.

Definition example_index : FilesIndex :=
  mkFilesIndex (<["a/b/c.txt" := example_info]>
               (<["a/bx" := example_info]>
               (<["a/b-extra" := example_info]> ∅))).

(** An output of the tool whose first space comes after a tab. *)
Definition example_dbhash_output : string :=
  "0f4c" +:+ String (ascii_of_nat 9) "data.gpkg extra".

Definition example_dbhash_cmd (path : string) (d : gmap string DiskFile)
    : option string :=
  Some example_dbhash_output.

Definition example_sha1_sum (content : string) : string := "AZ".

Definition no_io_fail (op : io_op) : bool := false.

Definition example_disk : gmap string DiskFile :=
  <["a.txt" := mkDiskFile "hello" 100]> ∅.

Definition example_project : ProjectInfo.t :=
  ProjectInfo.mk "Title" "map.qgs" "EPSG:4326" "empty" 0 50 50 false "".

(** A project with one file, no snapshot of the index and nothing cached. *)
Definition example_world : World :=
  mkWorld example_disk (MetaOk example_project) SnapAbsent None None None 1000 [].

Definition example_meta : option json :=
  Some (JObject [("title", JString "Roads"); ("file", JString "roads.qgs");
                 ("projection", JString "EPSG:3857"); ("layers", JArray [])]).

Definition example_Join (path : string) : string := path.

(** A storage with a limit of 100 bytes a project. *)
Definition example_storage : DiskStorage := mkDiskStorage 100.

(** One declared update, and the source that delivers it. *)
Definition example_batch : FilesChanges :=
  mkFilesChanges [ProjectFile.mk "b.txt" "" 3 0] [].

Definition example_uploads : list upload := [NextFile "b.txt" (Reads "xyz")].

(** Two declared updates, and a source whose second path is another one. *)
Definition mismatch_batch : FilesChanges :=
  mkFilesChanges [ProjectFile.mk "b.txt" "" 3 0; ProjectFile.mk "c.txt" "" 2 0] [].

Definition mismatch_uploads : list upload :=
  [NextFile "b.txt" (Reads "xyz"); NextFile "d.txt" (Reads "zz")].

(** A batch whose update does not fit, and a batch of removals only. *)
Definition big_batch : FilesChanges :=
  mkFilesChanges [ProjectFile.mk "big.bin" "" 500 0] [].


(** The example project with a snapshot of the index that is not JSON. *)
Definition world_bad_snapshot : World :=
  mkWorld example_disk (MetaOk example_project) (Content None) None None None 1000 [].

(** The scenario of the specification: the index holds [a.txt] with the hash
    [H1], the size 10 and the time 100, and the file on the disk has that
    time. *)
Definition world_cached : World :=
  mkWorld (<["a.txt" := mkDiskFile "0123456789" 100]> ∅) (MetaOk example_project)
          SnapAbsent None None
          (Some (mkFilesIndex (<["a.txt" := example_info]> ∅))) 1000 [].

(** The same, after the file was deleted from the disk. *)
Definition world_deleted : World :=
  mkWorld ∅ (MetaOk example_project) SnapAbsent None None
          (Some (mkFilesIndex (<["a.txt" := example_info]> ∅))) 1000 [].

(** The index of the example project as [filesIndex] loads it, and the state
    after it was loaded. *)
Definition example_loaded : World :=
  set_indexCache (Some (mkFilesIndex ∅)) example_world.

(** A project whose file [a.txt] changed after it was indexed, and whose
    index still holds a file that is gone. *)
Definition world_stale : World :=
  mkWorld (<["a.txt" := mkDiskFile "0123456789" 200]> ∅) (MetaOk example_project)
          SnapAbsent None None
          (Some (mkFilesIndex (<["a.txt" := example_info]>
                              (<["gone.txt" := example_info]> ∅)))) 1000 [].

(** Content files of which the scan takes the first only. *)
Definition scan_disk : gmap string DiskFile :=
  <["a.txt" := mkDiskFile "hello" 100]>
  (<["notes.txt~" := mkDiskFile "old" 100]>
  (<["data.GPKG-WAL" := mkDiskFile "wal" 100]>
  (<[".gisquick/cache.bin" := mkDiskFile "c" 100]> ∅))).

Definition scan_world : World :=
  mkWorld scan_disk (MetaOk example_project) SnapAbsent None None None 1000 [].

(** A project without content files whose metadata file does not parse after
    its title, and whose index holds a file that is gone. *)
Definition world_damaged : World :=
  mkWorld ∅ (MetaCorrupt (ProjectInfo.set_Title "Title" ProjectInfo.zero))
          SnapAbsent None None
          (Some (mkFilesIndex (<["gone.txt" := example_info]> ∅))) 1000 [].

(** No content file can be opened. *)
Definition open_fails (op : io_op) : bool :=
  match op with
  | OpOpen _ => true
  | _ => false
  end.

(** A name under which no project exists. *)
Definition world_new : World :=
  mkWorld ∅ MetaAbsent SnapAbsent None None None 1000 [].

(** Settings without a title. *)
Definition example_settings : option json :=
  Some (JObject [("auth", JObject [("type", JString "owner")]); ("layers", JArray [])]).

(** The snapshot of the index cannot be created. *)
Definition snapshot_fails (op : io_op) : bool :=
  match op with
  | OpSave file => String.eqb file "filesmap.json"
  | OpCreate path => String.eqb path ".gisquick/filesmap.json"
  | _ => false
  end.

(** The write of the metadata file stops inside the text. *)
Definition metadata_write_fails (op : io_op) : bool :=
  match op with
  | OpSave file => String.eqb file "project.json"
  | OpCut file => String.eqb file "project.json"
  | _ => false
  end.

(** A published project. *)
Definition world_published : World :=
  mkWorld example_disk
          (MetaOk (ProjectInfo.mk "Title" "map.qgs" "EPSG:4326" "published" 5 50 60 false ""))
          SnapAbsent None None (Some (mkFilesIndex ∅)) 1000 [].

(** A project whose one file has a name that is not valid UTF-8: the byte E9
    and [.txt]. *)
Definition world_latin1 : World :=
  mkWorld ∅ (MetaOk example_project) SnapAbsent None None
          (Some (mkFilesIndex (<[String (ascii_of_nat 233) ".txt" := example_info]> ∅)))
          1000 [].

(** Two declared sizes whose sum does not fit in 64 bits. *)
Definition overflow_batch : FilesChanges :=
  mkFilesChanges [ProjectFile.mk "a.bin" "" (2 ^ 62) 0;
                  ProjectFile.mk "b.bin" "" (2 ^ 62) 0] [].

(** A storage without a limit, and a choice of the names of temporary files. *)
Definition unlimited_storage : DiskStorage := mkDiskStorage 0.

Definition example_CreateTemp (pattern : string) (d : gmap string DiskFile) : string :=
  ".temp/" +:+ pattern +:+ "1".

(** A project with two files below the directory [a/b] and one beside it,
    all of them in the index. *)
Definition world_tree : World :=
  mkWorld (<["a/b/c.txt" := mkDiskFile "0123456789" 100]>
          (<["a/bx" := mkDiskFile "0123456789" 100]>
          (<["a/b-extra" := mkDiskFile "0123456789" 100]> ∅)))
          (MetaOk example_project) SnapAbsent None None (Some example_index) 1000 [].

Section Storage.

(** [filepath.Join(s.ProjectsRoot, projectName, path)]: the location of a
    path below the project's directory. *)
Variable Join : string -> string.
(** [sha1.New()], [Write] of the whole content and [Sum(nil)]: the digest. *)
Variable sha1_sum : string -> string.
(** [exec.Command("dbhash", path).Output()]: the output of the tool for a
    path and the files that are on the disk, or [None] when the command
    fails. *)
Variable dbhash_cmd : string -> gmap string DiskFile -> option string.
(** Which calls to the operating system fail. *)
Variable io_fail : io_op -> bool.
Variable s : DiskStorage.

(** *** Checksums: [DBHash], [Sha1], [Checksum] (lines 99-128) *)

Definition DBHash (path : string) (w : World) : string * option error :=
  match dbhash_cmd path (disk w) with
  | None => ("", Some (Wrapf "executing dbhash command" ErrExec))
  | Some cmdOut => (split_first cmdOut, None)
  end.

Definition Sha1 (path : string) (w : World) : string * option error :=
  if io_fail (OpOpen path) then ("", Some ErrIO)
  else match disk w !! path with
       | None => ("", Some ErrNotExist)
       | Some f => (hex (sha1_sum (data f)), None)
       end.

Definition Checksum (path : string) (w : World) : string * option error :=
  if String.eqb (ToLower (Ext path)) ".gpkg" then
    let '(dbhash, err) := DBHash path w in
    ("dbhash:" +:+ dbhash, err)
  else Sha1 path w.

(** A call of [Checksum], counted. *)
Definition call_Checksum (path : string) (w : World)
    : string * option error * World :=
  (Checksum path w, log_checksum_call path w).

(** *** Files of the control directory *)

(** [CheckProjectExists] (lines 263-266) and [fileExists] (lines 85-88): the
    file is there unless looking at it says that it does not exist. *)
Definition CheckProjectExists (w : World) : bool :=
  match project_json w with
  | MetaAbsent => false
  | _ => true
  end.

(** [GetProjectInfo] (lines 268-301) *)
Definition GetProjectInfo (w : World) : ProjectInfo.t * option error :=
  match project_json w with
  | MetaAbsent => (ProjectInfo.zero, Some ErrProjectNotExists)
  | MetaUnreadable => (ProjectInfo.zero, Some (Wrapf "reading project file" ErrIO))
  | MetaCorrupt partial => (partial, Some (Wrapf "reading project file" ErrJSON))
  | MetaOk p => (p, None)
  end.

(** [saveJsonFile] (lines 190-201) on a file of the control directory:
    [io_fail (OpSave file)] says that the call returns an error, and
    [saveJsonFile_failure] at which of its steps. *)
Definition saveJsonFile_failure (file : string) : save_failure :=
  if io_fail (OpCreate (".gisquick/" +:+ file)) then NotCreated
  else if io_fail (OpCut file) then CutShort
  else NewlineMissing.

(** [s.saveConfigFile(projectName, "project.json", info)] (lines 203-209).  A
    text that is cut short is read as no record at all: [json.Unmarshal]
    checks the text before it stores anything. *)
Definition save_project_json (info : ProjectInfo.t) (w : World) : option error * World :=
  if io_fail (OpSave "project.json")
  then (Some (Wrapf "creating project file" ErrIO),
        match saveJsonFile_failure "project.json" with
        | NotCreated => w
        | CutShort => set_project_json (MetaCorrupt ProjectInfo.zero) w
        | NewlineMissing => set_project_json (MetaOk info) w
        end)
  else (None, set_project_json (MetaOk info) w).

(** [saveJsonFile(".../.gisquick/filesmap.json", data)] (lines 190-201), after
    [data] was encoded. *)
Definition save_filesmap_json (doc : json) (w : World) : option error * World :=
  if io_fail (OpSave "filesmap.json")
  then (Some ErrIO,
        match saveJsonFile_failure "filesmap.json" with
        | NotCreated => w
        | CutShort => set_filesmap_json (Content None) w
        | NewlineMissing => set_filesmap_json (Content (Some doc)) w
        end)
  else (None, set_filesmap_json (Content (Some doc)) w).

Definition save_qgis_json (meta : option json) (w : World) : option error * World :=
  if io_fail (OpSave "qgis.json")
  then (Some (Wrapf "creating project file" ErrIO),
        match saveJsonFile_failure "qgis.json" with
        | NotCreated => w
        | CutShort => set_qgis_json None w
        | NewlineMissing => set_qgis_json meta w
        end)
  else (None, set_qgis_json meta w).

Definition save_settings_json (doc : option json) (w : World) : option error * World :=
  if io_fail (OpSave "settings.json")
  then (Some (Wrapf "creating project file" ErrIO),
        match saveJsonFile_failure "settings.json" with
        | NotCreated => w
        | CutShort => set_settings_json None w
        | NewlineMissing => set_settings_json doc w
        end)
  else (None, set_settings_json doc w).

(** [loadFilesIndex] (lines 647-666) *)
Definition loadFilesIndex (w : World) : gmap string FileInfo.t * option error :=
  match filesmap_json w with
  | SnapAbsent => (∅, None)
  | SnapUnreadable => (∅, Some (Wrapf "reading index file" ErrIO))
  | Content None => (∅, Some (Wrapf "parsing index file" ErrJSON))
  | Content (Some doc) =>
      let '(index, ok) := decode_index doc in
      if ok then (index, None) else (∅, Some (Wrapf "parsing index file" ErrJSON))
  end.

(** *** The scan of the project's directory: [createFilesMap] (lines 309-335) *)

(** [excludeExtRegex.Match]: the pattern is [(?i).*\.(gpkg-wal|gpkg-shm)$]. *)
Definition excludeExtRegex_Match (relPath : string) : bool :=
  HasSuffix (ToLower relPath) ".gpkg-wal" || HasSuffix (ToLower relPath) ".gpkg-shm".

Definition scanned (relPath : string) : bool :=
  negb (HasPrefix relPath ".gisquick/") && negb (HasSuffix relPath "~")
  && negb (excludeExtRegex_Match relPath).

Definition createFilesMap (w : World) : gmap string FileInfo.t * option error :=
  if io_fail OpWalk then (∅, Some (Wrapf "listing project files" ErrIO))
  else
    (fmap (fun f => FileInfo.mk "" (fileSize f) (modTime f))
          (filter (fun e => scanned (fst e) = true) (disk w)),
     None).

(** *** The loader of the cache and [filesIndex] *)

(** The loop of the loader over the scanned files (lines 152-162). *)
Fixpoint loader_hash_loop (l : list (string * FileInfo.t))
    (files : gmap string FileInfo.t) (w : World)
    : option (gmap string FileInfo.t) * World :=
  match l with
  | [] => (Some files, w)
  | (path, info) :: l' =>
      let absPath := Join path in
      let '(hash, err, w1) := call_Checksum absPath w in
      match err with
      | Some _ => (None, w1)
      | None =>
          loader_hash_loop l'
            (<[path := FileInfo.mk hash (FileInfo.Size info) (FileInfo.Mtime info)]> files)
            w1
      end
  end.

(** The [ttlcache.LoaderFunc] of [NewDiskStorage] (lines 137-170): the item it
    returns, [None] for [nil]. *)
Definition loader (w : World) : option FilesIndex * World :=
  let '(indexData, err) := loadFilesIndex w in
  match err with
  | Some _ =>
      let '(files, err) := createFilesMap w in
      match err with
      | Some _ => (None, w)
      | None =>
          match loader_hash_loop (range files) files w with
          | (None, w1) => (None, w1)
          | (Some files', w1) =>
              let index := mkFilesIndex files' in
              (Some index, set_indexCache (Some index) w1)
          end
      end
  | None =>
      let index := mkFilesIndex indexData in
      (Some index, set_indexCache (Some index) w)
  end.

(** [s.indexCache.Get(projectName)]: the live entry, loaded first when there
    is none. *)
Definition indexCache_Get (w : World) : option FilesIndex * World :=
  match indexCache w with
  | Some index => (Some index, w)
  | None => loader w
  end.

(** [filesIndex] (lines 668-679) *)
Definition filesIndex (w : World) : option FilesIndex * option error * World :=
  if negb (CheckProjectExists w) then (None, Some ErrProjectNotExists, w)
  else
    match indexCache_Get w with
    | (None, w1) => (None, Some (Errorf "loading project files index"), w1)
    | (Some index, w1) => (Some index, None, w1)
    end.

(** The callback of [indexCache.OnEviction] (lines 178-185): the index of an
    expired entry is saved, and the entry is gone. *)
Definition OnEviction (w : World) : World :=
  match indexCache w with
  | None => w
  | Some index =>
      set_indexCache None (snd (save_filesmap_json (encode_index (Index index)) w))
  end.

(** *** The calls to the operating system on content files *)

Definition is_dir (path : string) (w : World) : bool :=
  existsb (fun e => HasPrefix (fst e) (path +:+ Separator)) (map_to_list (disk w)).

Definition Lstat (path : string) (w : World) : lstat_result :=
  if io_fail (OpLstat path) then LstatErr ErrIO
  else match disk w !! path with
       | Some _ => IsFile
       | None => if is_dir path w then IsDir else LstatErr ErrNotExist
       end.

Definition Stat (path : string) (w : World) : DiskFile + error :=
  if io_fail (OpStat path) then inr ErrIO
  else match disk w !! path with
       | Some f => inl f
       | None => inr ErrNotExist
       end.

(** [os.RemoveAll]; a call that fails is taken to have removed nothing. *)
Definition RemoveAll (path : string) (w : World) : option error * World :=
  if io_fail (OpRemoveAll path) then (Some ErrIO, w)
  else (None,
        set_disk (filter (fun e => HasPrefix (fst e) (path +:+ Separator) = false)
                         (delete path (disk w))) w).

Definition Remove (path : string) (w : World) : option error * World :=
  if io_fail (OpRemove path) then (Some ErrIO, w)
  else match disk w !! path with
       | None => (Some ErrNotExist, w)
       | Some _ => (None, set_disk (delete path (disk w)) w)
       end.

(** [saveToFile2] (lines 487-515): the content is written and hashed in one
    pass; when the copy fails the file that was created is removed. *)
Definition saveToFile2 (src : reader) (filename : string) (w : World)
    : string * option error * World :=
  if io_fail (OpCreate filename) then ("", Some ErrIO, w)
  else match src with
       | ReadFails => ("", Some ErrIO, set_disk (delete filename (disk w)) w)
       | Reads content =>
           (hex (sha1_sum content), None,
            set_disk (<[filename := mkDiskFile content (now w)]> (disk w)) w)
       end.

(** *** [UpdateFiles] (lines 731-829)

    [calcNewSize] (lines 696-717) and [indexProjectFilesList] (lines 719-729)
    first. *)

Definition calcNewSize (index : FilesIndex) (info : FilesChanges) : Z :=
  let sizeMap : gmap string Z :=
    foldl (fun m e => <[fst e := FileInfo.Size (snd e)]> m) ∅ (range (Index index)) in
  let sizeMap := foldl (fun m path => delete path m) sizeMap (Removes info) in
  let sizeMap :=
    foldl (fun m f => <[ProjectFile.Path f := ProjectFile.Size f]> m) sizeMap
          (Updates info) in
  foldl (fun sum e => add64 sum (snd e)) 0 (range sizeMap).

Definition indexProjectFilesList (index : FilesIndex) : list ProjectFile.t :=
  map (fun e => ProjectFile.mk (fst e) (FileInfo.Hash (snd e))
                               (FileInfo.Size (snd e)) (FileInfo.Mtime (snd e)))
      (range (Index index)).

(** The loop over the declared updates (lines 762-792).  The first component
    is what the function returns from inside the loop, [None] when the loop
    ends.  An upload source that has nothing left answers with [io.EOF]. *)
Fixpoint update_loop (files : list ProjectFile.t) (next : list upload)
    (index : FilesIndex) (w : World)
    : option (ret (list ProjectFile.t)) * FilesIndex * World :=
  match files with
  | [] => (None, index, w)
  | declaredInfo :: files' =>
      match next with
      | [] =>
          (Some (Return None (Some (Wrapf "reading upload files stream" ErrEOF))),
           index, w)
      | NextErr e :: _ =>
          (Some (Return None (Some (Wrapf "reading upload files stream" e))),
           index, w)
      | NextFile path reader :: next' =>
          if negb (String.eqb (ProjectFile.Path declaredInfo) path) then
            (* [return nil, err], where [err] is nil at this point *)
            (Some (Return None None), index, w)
          else
            let absPath := Join path in
            let '(calcHash, err, w1) := saveToFile2 reader absPath w in
            match err with
            | Some e => (Some (Return None (Some e)), index, w1)
            | None =>
                match Stat absPath w1 with
                | inr e => (Some (Return None (Some e)), index, w1)
                | inl fStat =>
                    if negb (ProjectFile.Size declaredInfo =? fileSize fStat) then
                      (Some (Return None
                               (Some (Errorf ("declared file info doesn't match: " +:+ path)))),
                       index, w1)
                    else
                      update_loop files' next'
                        (Set_ path (FileInfo.mk calcHash (ProjectFile.Size declaredInfo)
                                                (modTime fStat)) index)
                        w1
                end
            end
      end
  end.

(** The loop of [UpdateFiles] over the paths to remove (lines 793-814). *)
Fixpoint remove_loop (paths : list string) (index : FilesIndex) (w : World)
    : option (ret (list ProjectFile.t)) * FilesIndex * World :=
  match paths with
  | [] => (None, index, w)
  | path :: paths' =>
      let absPath := Join path in
      match Lstat absPath w with
      | LstatErr err =>
          if is_not_exist err then remove_loop paths' (Delete path index) w
          else (Some (Return None (Some (Wrapf ("removing file/directory " +:+ path) err))), index, w)
      | IsDir =>
          match RemoveAll absPath w with
          | (Some err, w1) =>
              (Some (Return None (Some (Wrapf ("removing project directory " +:+ path) err))),
               index, w1)
          | (None, w1) => remove_loop paths' (DeleteDir path index) w1
          end
      | IsFile =>
          match Remove absPath w with
          | (Some err, w1) =>
              if negb (is_not_exist err) then
                (Some (Return None (Some (Wrapf ("removing project file " +:+ path) err))), index, w1)
              else remove_loop paths' (Delete path index) w1
          | (None, w1) => remove_loop paths' (Delete path index) w1
          end
      end
  end.

(** The index is the object the cache holds: what an operation did to it
    stays in the cache, also when the operation returns early. *)
Definition keep_index (index : FilesIndex) (w : World) : World :=
  set_indexCache (Some index) w.

(** The end of [UpdateFiles], after the two loops (lines 815-828). *)
Definition UpdateFiles_finish (project : ProjectInfo.t) (index : FilesIndex) (w : World)
    : ret (list ProjectFile.t) * World :=
  match save_filesmap_json (encode_FilesIndex index) w with
  | (Some err, w1) => (Return None (Some (Wrapf "saving files index" err)), w1)
  | (None, w1) =>
      let size := TotalSize index in
      let project := ProjectInfo.set_Size size project in
      let project :=
        if String.eqb (ProjectInfo.State project) "empty"
        then ProjectInfo.set_State "staged" project else project in
      let project := ProjectInfo.set_LastUpdate (now w1) project in
      match save_project_json project w1 with
      | (Some err, w2) => (Return None (Some (Wrapf "updating project file" err)), w2)
      | (None, w2) => (Return (Some (indexProjectFilesList index)) None, w2)
      end
  end.

(** [next] is [None] when the caller passes no function; the loop calls it
    only when there is a declared update. *)
Definition UpdateFiles (info : FilesChanges) (next : option (list upload)) (w : World)
    : ret (list ProjectFile.t) * World :=
  let '(project, err) := GetProjectInfo w in
  match err with
  | Some e => (Return None (Some e), w)
  | None =>
      match filesIndex w with
      | (None, err, w0) => (Return None err, w0)
      | (Some index, _, w0) =>
          let expectedSize := calcNewSize index info in
          if (0 <? length (Updates info))%nat && (0 <? MaxProjectSize s)
             && (MaxProjectSize s <? expectedSize)
          then (Return None (Some ErrProjectSize), w0)
          else
            let files := Updates info in
            if (0 <? length files)%nat && bool_decide (next = None) then
              (Return None
                 (Some (Errorf "required function for reading uploaded files")), w0)
            else
              match update_loop files (default [] next) index w0 with
              | (Some r, index1, w1) => (r, keep_index index1 w1)
              | (None, index1, w1) =>
                  match remove_loop (Removes info) index1 w1 with
                  | (Some r, index2, w2) => (r, keep_index index2 w2)
                  | (None, index2, w2) =>
                      UpdateFiles_finish project index2 (keep_index index2 w2)
                  end
              end
      end
  end.

(** *** [RemoveFiles] (lines 831-867) *)

Fixpoint RemoveFiles_loop (files : list string) (index : FilesIndex) (w : World)
    : option (ret (list ProjectFile.t)) * FilesIndex * World :=
  match files with
  | [] => (None, index, w)
  | path :: files' =>
      let absPath := Join path in
      match Lstat absPath w with
      | LstatErr err =>
          (Some (Return None (Some (Wrapf ("removing file/directory " +:+ path) err))), index, w)
      | IsDir =>
          match RemoveAll absPath w with
          | (Some err, w1) =>
              (Some (Return None (Some (Wrapf ("removing project directory " +:+ path) err))),
               index, w1)
          | (None, w1) => RemoveFiles_loop files' (DeleteDir path index) w1
          end
      | IsFile =>
          match Remove absPath w with
          | (Some err, w1) =>
              (Some (Return None (Some (Wrapf ("removing project file " +:+ path) err))), index, w1)
          | (None, w1) => RemoveFiles_loop files' (Delete path index) w1
          end
      end
  end.

Definition RemoveFiles (files : list string) (w : World)
    : ret (list ProjectFile.t) * World :=
  let '(project, err) := GetProjectInfo w in
  match err with
  | Some e => (Return None (Some e), w)
  | None =>
      match filesIndex w with
      | (None, err, w0) => (Return None err, w0)
      | (Some index, _, w0) =>
          match RemoveFiles_loop files index w0 with
          | (Some r, index1, w1) => (r, keep_index index1 w1)
          | (None, index1, w1) =>
              match save_filesmap_json (encode_FilesIndex index1) (keep_index index1 w1) with
              | (Some err, w2) => (Return None (Some (Wrapf "saving files index" err)), w2)
              | (None, w2) =>
                  let project := ProjectInfo.set_Size (TotalSize index1) project in
                  let project := ProjectInfo.set_LastUpdate (now w2) project in
                  match save_project_json project w2 with
                  | (Some err, w3) =>
                      (Return None (Some (Wrapf "updating project file" err)), w3)
                  | (None, w3) => (Return (Some (indexProjectFilesList index1)) None, w3)
                  end
              end
          end
      end
  end.

(** *** [ListProjectFiles] (lines 391-453) *)

(** The loop over the scanned files; [files] holds the entries written so
    far.  The first component is the error the function returns from inside
    the loop, if any. *)
Fixpoint list_loop (l : list (string * FileInfo.t)) (checksum : bool)
    (index : FilesIndex) (indexUpdated : bool) (files : list ProjectFile.t) (w : World)
    : option error * FilesIndex * bool * list ProjectFile.t * World :=
  match l with
  | [] => (None, index, indexUpdated, files, w)
  | (path, info) :: l' =>
      if checksum then
        let '(cachedInfo, hasCachedInfo) := Get path index in
        if hasCachedInfo && (FileInfo.Mtime cachedInfo =? FileInfo.Mtime info) then
          let f := ProjectFile.mk path (FileInfo.Hash cachedInfo)
                                  (FileInfo.Size info) (FileInfo.Mtime info) in
          list_loop l' checksum index indexUpdated (files ++ [f]) w
        else
          let absPath := Join path in
          let '(hash, err, w1) := call_Checksum absPath w in
          match err with
          | Some e =>
              (Some (Wrapf "computing checksum" e), index, indexUpdated, files, w1)
          | None =>
              let f := ProjectFile.mk path hash (FileInfo.Size info) (FileInfo.Mtime info) in
              list_loop l' checksum
                (Set_ path (FileInfo.mk hash (FileInfo.Size info) (FileInfo.Mtime info)) index)
                true (files ++ [f]) w1
          end
      else
        let f := ProjectFile.mk path "" (FileInfo.Size info) (FileInfo.Mtime info) in
        list_loop l' checksum index indexUpdated (files ++ [f]) w
  end.

(** The body of the loop that cleans the index, for one visited entry. *)
Definition purge_step (filesMap : gmap string FileInfo.t) (acc : FilesIndex * bool)
    (e : string * FileInfo.t) : FilesIndex * bool :=
  match filesMap !! fst e with
  | None => (Delete (fst e) (fst acc), true)
  | Some _ => acc
  end.

Definition ListProjectFiles (checksum : bool) (w : World)
    : ret (list ProjectFile.t) * World :=
  if negb (CheckProjectExists w) then (Return None (Some ErrProjectNotExists), w)
  else
    let '(filesMap, err) := createFilesMap w in
    match err with
    | Some e => (Return None (Some (Wrapf "listing project files" e)), w)
    | None =>
        match filesIndex w with
        | (None, _, w0) =>
            (* the error is logged, and the nil index is used *)
            (Panic, w0)
        | (Some index, _, w0) =>
            match list_loop (range filesMap) checksum index false [] w0 with
            | (Some e, index1, _, _, w1) => (Return None (Some e), keep_index index1 w1)
            | (None, index1, indexUpdated, files, w1) =>
                let '(index2, indexUpdated) :=
                  foldl (purge_step filesMap) (index1, indexUpdated) (range (Index index1)) in
                let w2 := keep_index index2 w1 in
                if indexUpdated then
                  let '(projectInfo, _) := GetProjectInfo w2 in
                  let projectInfo := ProjectInfo.set_Size (TotalSize index2) projectInfo in
                  (Return (Some files) None, snd (save_project_json projectInfo w2))
                else (Return (Some files) None, w2)
            end
        end
    end.

(** *** The operations on the metadata: [Create] (lines 211-239),
    [SaveThumbnail] (lines 609-623), [UpdateSettings] (lines 876-896),
    [UpdateMeta] (lines 920-940) *)

Definition Create (meta : option json) (w : World)
    : option ProjectInfo.t * option error * World :=
  if CheckProjectExists w then (None, Some ErrProjectAlreadyExists, w)
  else if io_fail (OpCreate ".gisquick") then (None, Some ErrIO, w)
  else
    let '(i, ok) := decode_Info meta in
    if negb ok then (None, Some ErrInvalidQgisMeta, w)
    else
      match save_qgis_json meta w with
      | (Some err, w1) => (None, Some (Wrapf "creating qgis meta file" err), w1)
      | (None, w1) =>
          let info := ProjectInfo.mk (iTitle i) (iFile i) (iProjection i) "empty"
                                     0 (now w1) 0 false "" in
          let '(err, w2) := save_project_json info w1 in
          (Some info, err, w2)
      end.

(** The image itself is not part of the state: [saveToFile] either fails or
    does not. *)
Definition SaveThumbnail (r : reader) (w : World) : option error * World :=
  let '(project, err) := GetProjectInfo w in
  match err with
  | Some e => (Some e, w)
  | None =>
      if io_fail (OpCreate ".gisquick/thumbnail")
         || match r with ReadFails => true | Reads _ => false end
      then (Some (Wrapf "saving thumbnail file" ErrIO), w)
      else
        let project :=
          ProjectInfo.mk (ProjectInfo.Title project) (ProjectInfo.QgisFile project)
            (ProjectInfo.Projection project) (ProjectInfo.State project)
            (ProjectInfo.Size project) (ProjectInfo.Created project) (now w)
            true (ProjectInfo.Authentication project) in
        match save_project_json project w with
        | (Some err, w1) => (Some (Wrapf "updating project file" err), w1)
        | (None, w1) => (None, w1)
        end
  end.

Definition UpdateMeta (meta : option json) (w : World) : option error * World :=
  let '(pInfo, err) := GetProjectInfo w in
  match err with
  | Some e => (Some e, w)
  | None =>
      let '(i, ok) := decode_Info meta in
      if negb ok then (Some ErrInvalidQgisMeta, w)
      else
        match save_qgis_json meta w with
        | (Some err, w1) => (Some (Wrapf "creating qgis meta file" err), w1)
        | (None, w1) =>
            let pInfo := ProjectInfo.set_QgisFile (iFile i) pInfo in
            let pInfo := ProjectInfo.set_Projection (iProjection i) pInfo in
            let pInfo := ProjectInfo.set_Title (iTitle i) pInfo in
            let pInfo := ProjectInfo.set_LastUpdate (now w1) pInfo in
            save_project_json pInfo w1
        end
  end.

Definition UpdateSettings (data : option json) (w : World) : option error * World :=
  let '(project, err) := GetProjectInfo w in
  match err with
  | Some e => (Some e, w)
  | None =>
      let '(sInfo, ok) := decode_SettingsInfo data in
      if negb ok then (Some (Wrapf "extracting authentication settings" ErrJSON), w)
      else
        match save_settings_json data w with
        | (Some err, w1) => (Some (Wrapf "saving settings file" err), w1)
        | (None, w1) =>
            let project := ProjectInfo.set_State "published" project in
            let project := ProjectInfo.set_LastUpdate (now w1) project in
            let project := ProjectInfo.set_Authentication (sAuthType sInfo) project in
            let project := ProjectInfo.set_Title (sTitle sInfo) project in
            match save_project_json project w1 with
            | (Some err, w2) => (Some (Wrapf "updating project file" err), w2)
            | (None, w2) => (None, w2)
            end
        end
  end.



(** *** [Delete] (lines 455-462)

    [os.RemoveAll] of the project's directory takes the content files and the
    control directory with it; a call that fails is taken to have removed
    nothing.  The entry of the project in the cache is not touched. *)
Definition DiskStorage_Delete (w : World) : option error * World :=
  if io_fail (OpRemoveAll (Join "")) then (Some ErrIO, w)
  else (None,
        mkWorld ∅ MetaAbsent SnapAbsent None None (indexCache w) (now w)
                (checksum_calls w)).

(** *** [CreateFile] (lines 518-574) and [SaveFile] (lines 576-595) *)

(** [os.CreateTemp(destDir, pattern)]: the location of the new file below
    [.temp], for a pattern and the files that are on the disk. *)
Variable CreateTemp : string -> gmap string DiskFile -> string.

(** The result [finfo] is the zero value until the last step; [f.Chmod] and
    [f.Close] are taken to succeed.  When a step after the creation of the
    file fails, the file is removed. *)
Definition CreateFile (pattern : string) (r : reader) (size : Z) (w : World)
    : ProjectFile.t * option error * World :=
  let finfo := ProjectFile.mk "" "" 0 0 in
  if negb (CheckProjectExists w) then (finfo, Some ErrProjectNotExists, w)
  else
    match filesIndex w with
    | (None, err, w0) => (finfo, option_map (Wrapf "reading files index") err, w0)
    | (Some index, _, w0) =>
        let projectSize := TotalSize index in
        if MaxProjectSize s <? add64 projectSize size
        then (finfo, Some ErrProjectSize, w0)
        else if io_fail (OpCreate (Join ".temp"))
        then (finfo, Some (Wrapf "creating .temp directory" ErrIO), w0)
        else
          let name := CreateTemp pattern (disk w0) in
          if io_fail (OpCreate name)
          then (finfo, Some (Wrapf "creating temp file" ErrIO), w0)
          else
            match r with
            | ReadFails => (finfo, Some ErrIO, set_disk (delete name (disk w0)) w0)
            | Reads content =>
                let w1 := set_disk (<[name := mkDiskFile content (now w0)]> (disk w0)) w0 in
                match Stat name w1 with
                | inr e => (finfo, Some e, set_disk (delete name (disk w1)) w1)
                | inl fStat =>
                    (ProjectFile.mk name (hex (sha1_sum content)) (fileSize fStat)
                                    (modTime fStat),
                     None, w1)
                end
            end
    end.

(** [os.Rename]: the file moves to the new location, with its content and its
    time, over a file that is there; the call is taken to fail only when
    there is no file at the old location. *)
Definition Rename (oldpath newpath : string) (w : World) : option error * World :=
  match disk w !! oldpath with
  | None => (Some ErrNotExist, w)
  | Some f => (None, set_disk (<[newpath := f]> (delete oldpath (disk w))) w)
  end.

(** An error of [filesIndex] is logged, and [SaveFile] returns nil. *)
Definition SaveFile (finfo : ProjectFile.t) (path : string) (w : World)
    : option error * World :=
  let absPath := Join path in
  if io_fail (OpCreate absPath) then (Some ErrIO, w)
  else
    match Rename (ProjectFile.Path finfo) absPath w with
    | (Some err, w1) => (Some (Wrapf "saving project file" err), w1)
    | (None, w1) =>
        match filesIndex w1 with
        | (None, _, w2) => (None, w2)
        | (Some index, _, w2) =>
            (None,
             keep_index (Set_ path (FileInfo.mk (ProjectFile.Hash finfo)
                                                (ProjectFile.Size finfo)
                                                (ProjectFile.Mtime finfo)) index) w2)
        end
    end.

(** *** Definitions used in the statements *)

(** The keys that [encoding/json] stores in no field of a [FileInfo]. *)
Definition no_field (k : string) : bool :=
  match FileInfo_field_of_key k with
  | None => true
  | Some _ => false
  end.

(** The metadata record that [UpdateFiles] writes at its end. *)
Definition finished_project (project : ProjectInfo.t) (index : FilesIndex) (t : Z)
    : ProjectInfo.t :=
  ProjectInfo.mk (ProjectInfo.Title project) (ProjectInfo.QgisFile project)
    (ProjectInfo.Projection project)
    (if String.eqb (ProjectInfo.State project) "empty" then "staged"
     else ProjectInfo.State project)
    (TotalSize index) (ProjectInfo.Created project) t
    (ProjectInfo.Thumbnail project) (ProjectInfo.Authentication project).

(** The state after [Checksum] was called on the paths of [ps], in order. *)
Definition log_calls (ps : list string) (w : World) : World :=
  foldl (fun w p => log_checksum_call p w) w ps.

(** The entry the loader stores for a scanned file. *)
Definition hashed (w : World) (path : string) (info : FileInfo.t) : FileInfo.t :=
  FileInfo.mk (fst (Checksum (Join path) w)) (FileInfo.Size info) (FileInfo.Mtime info).

(** [w'] differs from [w] in the cache and in the count of the calls to
    [Checksum] at most. *)
Definition only_cache_changed (w w' : World) : Prop :=
  disk w' = disk w /\ project_json w' = project_json w
  /\ filesmap_json w' = filesmap_json w /\ qgis_json w' = qgis_json w
  /\ settings_json w' = settings_json w /\ now w' = now w.

(** [w'] differs from [w] in the content files at most. *)
Definition only_disk_changed (w w' : World) : Prop :=
  project_json w' = project_json w
  /\ filesmap_json w' = filesmap_json w /\ qgis_json w' = qgis_json w
  /\ settings_json w' = settings_json w /\ indexCache w' = indexCache w
  /\ now w' = now w /\ checksum_calls w' = checksum_calls w.


(** The test of the loop: the index has an entry for the path, with the time
    of modification that the scan found. *)
Definition cache_hit (index : FilesIndex) (path : string) (info : FileInfo.t) : bool :=
  let '(cachedInfo, hasCachedInfo) := Get path index in
  hasCachedInfo && (FileInfo.Mtime cachedInfo =? FileInfo.Mtime info).

(** The entry of the listing for a scanned file, from the index and the state
    at the start of the loop. *)
Definition reconciled_file (index : FilesIndex) (w : World) (e : string * FileInfo.t)
    : ProjectFile.t :=
  ProjectFile.mk (fst e)
    (if cache_hit index (fst e) (snd e) then FileInfo.Hash (fst (Get (fst e) index))
     else fst (Checksum (Join (fst e)) w))
    (FileInfo.Size (snd e)) (FileInfo.Mtime (snd e)).

Definition reconcile_step (index0 : FilesIndex) (w : World) (idx : FilesIndex)
    (e : string * FileInfo.t) : FilesIndex :=
  if cache_hit index0 (fst e) (snd e) then idx
  else Set_ (fst e) (hashed w (fst e) (snd e)) idx.

(** The scanned files for which [Checksum] is called. *)
Definition misses (index : FilesIndex) (l : list (string * FileInfo.t)) : list string :=
  (filter (fun e => cache_hit index (fst e) (snd e) = false) l).*1.

(** The exact sum of the sizes of the entries of an index. *)
Definition sum_of_sizes (fi : FilesIndex) : Z :=
  foldl (fun sum e => sum + FileInfo.Size (snd e)) 0 (map_to_list (Index fi)).

(** The entry of the listing for a scanned file when no checksum is asked
    for. *)
Definition listed_without_hash (e : string * FileInfo.t) : ProjectFile.t :=
  ProjectFile.mk (fst e) "" (FileInfo.Size (snd e)) (FileInfo.Mtime (snd e)).

(** The content that an item of the upload source delivers. *)
Definition upload_content (u : upload) : string :=
  match u with
  | NextFile _ (Reads content) => content
  | _ => ""
  end.

(** The item of the upload source that a declared update asks for: it has
    the declared path, and its content, which can be read, has the declared
    size. *)
Definition delivers (f : ProjectFile.t) (u : upload) : Prop :=
  u = NextFile (ProjectFile.Path f) (Reads (upload_content u))
  /\ ProjectFile.Size f = Z.of_nat (String.length (upload_content u)).

(** The entry of the index and the content file that [UpdateFiles] stores at
    the time [t] for a declared update and the item that came for it. *)
Definition stored_entry (t : Z) (fu : ProjectFile.t * upload) : FileInfo.t :=
  FileInfo.mk (hex (sha1_sum (upload_content (snd fu)))) (ProjectFile.Size (fst fu)) t.

Definition stored_file (t : Z) (fu : ProjectFile.t * upload) : DiskFile :=
  mkDiskFile (upload_content (snd fu)) t.

(** An entry of the index as it is read back from a snapshot: the key and
    the checksum as [encoding/json] prints strings. *)
Definition read_back_entry (e : string * FileInfo.t) : string * FileInfo.t :=
  (json_string (fst e),
   FileInfo.mk (json_string (FileInfo.Hash (snd e))) (FileInfo.Size (snd e))
               (FileInfo.Mtime (snd e))).

(** The map that is read back from the snapshot of a map: the entries are
    stored in the order in which they were printed. *)
Definition read_back_index (m : gmap string FileInfo.t) : gmap string FileInfo.t :=
  foldl (fun acc e => <[fst e := snd e]> acc) ∅
        (read_back_entry <$> sorted_by_key (map_to_list m)).

(** The key and the checksum of an entry are valid UTF-8. *)
Definition utf8_entry (k : string) (v : FileInfo.t) : Prop :=
  valid_utf8 k /\ valid_utf8 (FileInfo.Hash v).



(** ** Properties of the file index *)

(** A loop that deletes the visited keys that satisfy a test. *)
Lemma foldl_delete_if_lookup {A B : Type} (P : string -> bool)
    (l : list (string * B)) (idx : gmap string A) (q : string) :
  foldl (fun m e => if P (fst e) then delete (fst e) m else m) idx l !! q =
    if decide (q ∈ l.*1 /\ P q = true) then None else idx !! q.
Proof.
  revert idx. induction l as [|[p i] l IH]; intros idx.
  - cbn [foldl]. destruct (decide _) as [[H _]|]; [|done].
    by apply elem_of_nil in H.
  - cbn [foldl]. rewrite IH. cbn [fst fmap list_fmap].
    destruct (decide (q ∈ l.*1 /\ _)) as [[Hin Hp]|Hn].
    + rewrite decide_True; [done|]. split; [by right|done].
    + destruct (decide (q = p)) as [->|Hne].
      * destruct (P p) eqn:Hp.
        -- rewrite lookup_delete_eq. rewrite decide_True; [done|].
           split; [by left|done].
        -- rewrite decide_False; [done|]. by intros [_ ?].
      * rewrite decide_False.
        -- destruct (P p); [by rewrite lookup_delete_ne|done].
        -- intros [Hin Hp]. apply elem_of_cons in Hin as [?|?]; [done|].
           by apply Hn.
Qed.

Lemma foldl_delete_if_range_lookup {A : Type} (P : string -> bool)
    (idx : gmap string A) (q : string) :
  foldl (fun m e => if P (fst e) then delete (fst e) m else m) idx (range idx) !! q =
    if P q then None else idx !! q.
Proof.
  rewrite foldl_delete_if_lookup. unfold range.
  destruct (P q) eqn:Hp.
  - case_decide as H; [done|].
    destruct (idx !! q) as [v|] eqn:Hq; [|done].
    exfalso. apply H. split; [|done].
    apply list_elem_of_fmap. exists (q, v). split; [done|].
    by apply elem_of_map_to_list.
  - case_decide as H; [|done]. by destruct H.
Qed.

Lemma DeleteDir_lookup (d : string) (fi : FilesIndex) (q : string) :
  Index (DeleteDir d fi) !! q =
    if HasPrefix q (TrimSuffix d Separator +:+ Separator) then None
    else Index fi !! q.
Proof.
  unfold DeleteDir; cbn [Index].
  apply (foldl_delete_if_range_lookup
           (fun p => HasPrefix p (TrimSuffix d Separator +:+ Separator))).
Qed.

(** C8 (as amended): for every directory path [d] and every index,
    [DeleteDir d] removes exactly the entries whose path has, as a prefix,
    [d] without one trailing separator followed by the separator, and keeps
    every other entry as it is; when [d] does not end in the separator these
    are exactly the entries whose path has [d] followed by the separator as a
    prefix, so that entries such as [a/bx] and [a/b-extra] are kept by
    [DeleteDir "a/b"]. *)
Theorem DeleteDir_removes_exactly_under_dir (d : string) (fi : FilesIndex) :
  (forall p : string,
      Index (DeleteDir d fi) !! p =
        if under_dir (TrimSuffix d Separator) p then None else Index fi !! p)
  /\ (HasSuffix d Separator = false ->
      forall p : string,
        Index (DeleteDir d fi) !! p = if under_dir d p then None else Index fi !! p).
Proof.
  split.
  - intros p. apply DeleteDir_lookup.
  - intros Hs p. rewrite DeleteDir_lookup. unfold under_dir, TrimSuffix.
    by rewrite Hs.
Qed.

(** ** Properties of the checksum provider *)

Lemma hex_digit_not_h (n : nat) : hex_digit n <> "h"%char.
Proof.
  unfold hex_digit.
  do 16 (destruct n as [|n]; [discriminate|]).
  simpl. destruct n; discriminate.
Qed.

(** A hexadecimal digest is never a token of the package format: its third
    character, if any, is a digit, and not the [h] of ["dbhash:"]. *)
Lemma hex_not_dbhash (b t : string) : hex b <> "dbhash:" +:+ t.
Proof.
  destruct b as [|c1 [|c2 r]]; simpl; try discriminate.
  intros H. injection H as _ _ H. by apply hex_digit_not_h in H.
Qed.

Lemma Checksum_gpkg (path : string) (w : World) :
  ToLower (Ext path) = ".gpkg" ->
  Checksum path w =
    match dbhash_cmd path (disk w) with
    | Some cmdOut => ("dbhash:" +:+ split_first cmdOut, None)
    | None => ("dbhash:", Some (Wrapf "executing dbhash command" ErrExec))
    end.
Proof.
  intros He. unfold Checksum, DBHash. rewrite He. simpl.
  by destruct (dbhash_cmd path (disk w)).
Qed.

Lemma Checksum_other (path : string) (w : World) :
  ToLower (Ext path) <> ".gpkg" -> Checksum path w = Sha1 path w.
Proof.
  intros He. unfold Checksum.
  destruct (String.eqb_spec (ToLower (Ext path)) ".gpkg"); [done|done].
Qed.

Lemma Sha1_ok (path : string) (w : World) (tok : string) :
  Sha1 path w = (tok, None) ->
  exists f, disk w !! path = Some f /\ tok = hex (sha1_sum (data f)).
Proof.
  unfold Sha1. destruct (io_fail _); [discriminate|].
  destruct (disk w !! path) as [f|]; [|discriminate].
  intros [= <-]. by exists f.
Qed.

(** C9 (as amended): for a path whose extension is [.gpkg], in any case of
    the letters, [Checksum] returns ["dbhash:"] followed by the output of the
    external tool up to its first space (all of the output when it has no
    space); for any other path it returns the hexadecimal SHA-1 digest of the
    content of the file; and a token returned without error for a path of the
    first kind is never equal to one returned without error for a path of the
    second kind. *)
Theorem Checksum_tokens (path : string) (w : World) :
  (ToLower (Ext path) = ".gpkg" ->
   forall cmdOut, dbhash_cmd path (disk w) = Some cmdOut ->
     Checksum path w = ("dbhash:" +:+ split_first cmdOut, None))
  /\ (ToLower (Ext path) <> ".gpkg" ->
      forall tok, Checksum path w = (tok, None) ->
        exists f, disk w !! path = Some f /\ tok = hex (sha1_sum (data f)))
  /\ (ToLower (Ext path) = ".gpkg" ->
      forall (path' : string) (w' : World) (tok tok' : string),
        ToLower (Ext path') <> ".gpkg" ->
        Checksum path w = (tok, None) ->
        Checksum path' w' = (tok', None) ->
        tok <> tok').
Proof.
  split; [|split].
  - intros He cmdOut Hc. rewrite Checksum_gpkg by done. by rewrite Hc.
  - intros He tok Hc. rewrite Checksum_other in Hc by done. by apply Sha1_ok.
  - intros He path' w' tok tok' He' Hc Hc'.
    rewrite Checksum_gpkg in Hc by done.
    rewrite Checksum_other in Hc' by done.
    apply Sha1_ok in Hc' as (f & _ & ->).
    destruct (dbhash_cmd path (disk w)) as [cmdOut|]; [|discriminate].
    injection Hc as <-. intros H. symmetry in H. by apply hex_not_dbhash in H.
Qed.

(** ** Properties of the operations on the metadata *)

Lemma GetProjectInfo_ok (w : World) (p : ProjectInfo.t) :
  GetProjectInfo w = (p, None) <-> project_json w = MetaOk p.
Proof.
  unfold GetProjectInfo. split.
  - destruct (project_json w); intros [= ->]; done.
  - by intros ->.
Qed.

(** C10: a successful [UpdateMeta] changes, of the metadata record, the
    title, the reference to the source file, the projection and the time of the
    last update only; the state, the size, the time of creation, the flag of
    the thumbnail and the authentication are as before.  (The title, the file
    and the projection are those of the input, the time is the clock's.) *)
Theorem UpdateMeta_frame (meta : option json) (w w' : World) :
  UpdateMeta meta w = (None, w') ->
  exists p p' : ProjectInfo.t,
    project_json w = MetaOk p /\ project_json w' = MetaOk p'
    /\ ProjectInfo.State p' = ProjectInfo.State p
    /\ ProjectInfo.Size p' = ProjectInfo.Size p
    /\ ProjectInfo.Created p' = ProjectInfo.Created p
    /\ ProjectInfo.Thumbnail p' = ProjectInfo.Thumbnail p
    /\ ProjectInfo.Authentication p' = ProjectInfo.Authentication p
    /\ ProjectInfo.Title p' = iTitle (fst (decode_Info meta))
    /\ ProjectInfo.QgisFile p' = iFile (fst (decode_Info meta))
    /\ ProjectInfo.Projection p' = iProjection (fst (decode_Info meta))
    /\ ProjectInfo.LastUpdate p' = now w.
Proof.
  unfold UpdateMeta. destruct (GetProjectInfo w) as [p err] eqn:Hp.
  destruct err as [e|]; [discriminate|].
  apply GetProjectInfo_ok in Hp.
  destruct (decode_Info meta) as [i ok]. destruct ok; [|discriminate]. simpl.
  unfold save_qgis_json. destruct (io_fail (OpSave "qgis.json")); [discriminate|].
  unfold save_project_json. destruct (io_fail (OpSave "project.json")); [discriminate|].
  intros [= <-]. exists p. eexists. split; [done|]. split; [reflexivity|].
  by repeat split.
Qed.

(** ** The snapshot of the index: what is written and what is read back *)

(** A loop that stores an entry for every visited entry of a map builds the
    map of the images. *)
Lemma foldl_insert_lookup {A B : Type} (g : string -> A -> B) (l : list (string * A))
    (m0 : gmap string B) (q : string) :
  NoDup l.*1 ->
  foldl (fun m e => <[fst e := g (fst e) (snd e)]> m) m0 l !! q =
    match (list_to_map l : gmap string A) !! q with
    | Some v => Some (g q v)
    | None => m0 !! q
    end.
Proof.
  revert m0. induction l as [|[k v] l IH]; intros m0 Hnd.
  - done.
  - apply NoDup_cons in Hnd as [Hk Hnd]. cbn [foldl]. rewrite IH by done.
    cbn [list_to_map foldr fst snd].
    destruct (decide (q = k)) as [->|Hne].
    + rewrite (proj1 (not_elem_of_list_to_map _ _) Hk).
      by rewrite !lookup_insert_eq.
    + by rewrite !lookup_insert_ne.
Qed.

Lemma foldl_insert_range_lookup {A B : Type} (g : string -> A -> B)
    (m : gmap string A) (m0 : gmap string B) (q : string) :
  foldl (fun acc e => <[fst e := g (fst e) (snd e)]> acc) m0 (range m) !! q =
    match m !! q with
    | Some v => Some (g q v)
    | None => m0 !! q
    end.
Proof.
  unfold range. rewrite foldl_insert_lookup by apply NoDup_fst_map_to_list.
  by rewrite list_to_map_to_list.
Qed.

Lemma foldl_insert_range {A B : Type} (g : A -> B) (m : gmap string A) :
  foldl (fun acc e => <[fst e := g (snd e)]> acc) ∅ (range m) = g <$> m.
Proof.
  apply map_eq. intros q.
  rewrite (foldl_insert_range_lookup (fun _ => g)), lookup_fmap, lookup_empty.
  by destruct (m !! q).
Qed.

Lemma decode_FileInfo_encode (v : FileInfo.t) :
  FileInfo.wf v ->
  decode_FileInfo (encode_FileInfo v) FileInfo.zero
  = (FileInfo.mk (json_string (FileInfo.Hash v)) (FileInfo.Size v) (FileInfo.Mtime v),
     true).
Proof.
  intros [[? ?] [? ?]]. destruct v as [h sz mt]; simpl in *.
  unfold decode_FileInfo, encode_FileInfo; cbn [foldl].
  unfold decode_FileInfo_member; cbn.
  unfold in_int64b.
  rewrite !(proj2 (Z.leb_le _ _)) by done. reflexivity.
Qed.

Lemma decode_index_members_encode (l : list (string * FileInfo.t))
    (m0 : gmap string FileInfo.t) :
  Forall (fun e => FileInfo.wf (snd e)) l ->
  foldl decode_index_member (m0, true)
        (map (fun e => (json_string (fst e), encode_FileInfo (snd e))) l)
  = (foldl (fun m e => <[fst e := snd e]> m) m0 (read_back_entry <$> l), true).
Proof.
  revert m0. induction l as [|[k v] l IH]; intros m0 Hwf; [done|].
  apply Forall_cons in Hwf as [Hv Hwf]. cbn [map foldl fst snd fmap list_fmap].
  unfold decode_index_member at 2. cbn [fst snd].
  rewrite decode_FileInfo_encode by done. by apply IH.
Qed.

(** What is read back from the snapshot of a map. *)
Lemma decode_index_encode_index_read_back (m : gmap string FileInfo.t) :
  map_Forall (fun _ v => FileInfo.wf v) m ->
  decode_index (encode_index m) = (read_back_index m, true).
Proof.
  intros Hwf. unfold decode_index, encode_index, read_back_index.
  apply decode_index_members_encode.
  apply Forall_forall. intros [k v] Hin.
  unfold sorted_by_key in Hin. rewrite merge_sort_Permutation in Hin.
  apply elem_of_map_to_list in Hin. by apply (Hwf k v).
Qed.

(** A loop of writes over the entries of a map, in any order, gives the
    map. *)
Lemma foldl_insert_Permutation {A : Type} (m : gmap string A) (l : list (string * A)) :
  l ≡ₚ map_to_list m ->
  foldl (fun acc e => <[fst e := snd e]> acc) ∅ l = m.
Proof.
  intros Hl.
  assert (Hnd : NoDup l.*1) by (rewrite Hl; apply NoDup_fst_map_to_list).
  apply map_eq. intros q.
  rewrite (foldl_insert_lookup (fun _ v => v) l ∅ q Hnd), lookup_empty.
  rewrite (list_to_map_proper l (map_to_list m) Hnd Hl), list_to_map_to_list.
  by destruct (m !! q).
Qed.

(** When the keys and the checksums are valid UTF-8, that is the map. *)
Lemma read_back_index_valid (m : gmap string FileInfo.t) :
  map_Forall utf8_entry m -> read_back_index m = m.
Proof.
  intros Hv. unfold read_back_index.
  assert (Hid : read_back_entry <$> sorted_by_key (map_to_list m)
                = sorted_by_key (map_to_list m)).
  { rewrite <- (list_fmap_id (sorted_by_key (map_to_list m))) at 2.
    apply list_fmap_ext. intros i [k v] Hin.
    apply list_elem_of_lookup_2 in Hin.
    unfold sorted_by_key in Hin. rewrite merge_sort_Permutation in Hin.
    apply elem_of_map_to_list in Hin. destruct (Hv k v Hin) as [Hk Hh].
    unfold read_back_entry, valid_utf8 in *. cbn [fst snd] in *.
    rewrite Hk, Hh. by destruct v. }
  rewrite Hid. apply foldl_insert_Permutation.
  unfold sorted_by_key. apply merge_sort_Permutation.
Qed.

(** The snapshot that [OnEviction] writes is read back as it was written,
    when its strings are valid UTF-8. *)
Lemma decode_index_encode_index (m : gmap string FileInfo.t) :
  map_Forall (fun _ v => FileInfo.wf v) m ->
  map_Forall utf8_entry m ->
  decode_index (encode_index m) = (m, true).
Proof.
  intros Hwf Hv. rewrite decode_index_encode_index_read_back by done.
  by rewrite read_back_index_valid.
Qed.

(** Read as a [FileInfo], an object whose members are all objects leaves the
    struct as it is; it is an error as soon as one key names a field. *)
Lemma decode_FileInfo_members_objects (l : list (string * FileInfo.t))
    (f : FileInfo.t) (ok : bool) :
  foldl decode_FileInfo_member (f, ok)
        (map (fun e => (json_string (fst e), encode_FileInfo (snd e))) l)
  = (f, ok && forallb (fun e => no_field (json_string (fst e))) l).
Proof.
  revert ok. induction l as [|[k v] l IH]; intros ok.
  - by rewrite andb_true_r.
  - cbn [map foldl forallb fst snd]. unfold decode_FileInfo_member at 2.
    unfold no_field at 1. cbn [fst snd].
    destruct (FileInfo_field_of_key (json_string k)) as [[| |]|];
      cbn [encode_FileInfo decode_string decode_int64];
      destruct f as [h sz mt]; cbn [FileInfo.Hash FileInfo.Size FileInfo.Mtime];
      rewrite IH; f_equal; destruct ok; done.
Qed.

(** What [loadFilesIndex] makes of the document that [UpdateFiles] and
    [RemoveFiles] write, the encoding of the struct [FilesIndex]: one entry
    under the key [Index], or an error. *)
Lemma decode_index_encode_FilesIndex (fi : FilesIndex) :
  decode_index (encode_FilesIndex fi) =
    ({["Index" := FileInfo.zero]},
     forallb (fun e => no_field (json_string (fst e)))
             (sorted_by_key (map_to_list (Index fi)))).
Proof.
  unfold decode_index, encode_FilesIndex. cbn [foldl].
  unfold decode_index_member. cbn [fst snd].
  unfold encode_index, decode_FileInfo.
  rewrite decode_FileInfo_members_objects. by rewrite insert_empty.
Qed.

Lemma loadFilesIndex_of_FilesIndex (fi : FilesIndex) (w : World) :
  filesmap_json w = Content (Some (encode_FilesIndex fi)) ->
  loadFilesIndex w = ({["Index" := FileInfo.zero]}, None)
  \/ loadFilesIndex w = (∅, Some (Wrapf "parsing index file" ErrJSON)).
Proof.
  intros H. unfold loadFilesIndex. rewrite H, decode_index_encode_FilesIndex.
  destruct (forallb _ _); [by left|by right].
Qed.

(** ** The shape of the results of [UpdateFiles] and [RemoveFiles] *)

Lemma filesIndex_Some (w w0 : World) (index : FilesIndex) (err : option error) :
  filesIndex w = (Some index, err, w0) -> err = None /\ indexCache w0 = Some index.
Proof.
  unfold filesIndex. destruct (negb _); [discriminate|].
  unfold indexCache_Get. destruct (indexCache w) as [i|] eqn:Hc.
  - by intros [= <- <- <-].
  - unfold loader. destruct (loadFilesIndex w) as [indexData [e|]].
    + destruct (createFilesMap w) as [files [e'|]]; [discriminate|].
      destruct (loader_hash_loop _ _ _) as [[files'|] w1]; [|discriminate].
      by intros [= <- <- <-].
    + by intros [= <- <- <-].
Qed.

(** A return from inside one of the loops carries no list of files. *)
Lemma update_loop_ret (files : list ProjectFile.t) (next : list upload)
    (index index' : FilesIndex) (w w' : World) (r : ret (list ProjectFile.t)) :
  update_loop files next index w = (Some r, index', w') ->
  exists err, r = Return None err.
Proof.
  revert next index w. induction files as [|d files IH]; intros next index w; simpl.
  - discriminate.
  - destruct next as [|[e|path rd] next']; try (intros [= <- _ _]; by eexists).
    destruct (negb (String.eqb _ _)); [intros [= <- _ _]; by eexists|].
    destruct (saveToFile2 rd (Join path) w) as [[calcHash [e|]] w1];
      [intros [= <- _ _]; by eexists|].
    destruct (Stat (Join path) w1) as [fStat|e]; [|intros [= <- _ _]; by eexists].
    destruct (negb (_ =? _)); [intros [= <- _ _]; by eexists|].
    apply IH.
Qed.

Lemma remove_loop_ret (paths : list string) (index index' : FilesIndex)
    (w w' : World) (r : ret (list ProjectFile.t)) :
  remove_loop paths index w = (Some r, index', w') ->
  exists err, r = Return None (Some err).
Proof.
  revert index w. induction paths as [|path paths IH]; intros index w; simpl.
  - discriminate.
  - destruct (Lstat (Join path) w) as [| |err].
    + destruct (Remove (Join path) w) as [[err|] w1]; [|apply IH].
      destruct (negb (is_not_exist err)); [intros [= <- _ _]; by eexists|apply IH].
    + destruct (RemoveAll (Join path) w) as [[err|] w1]; [|apply IH].
      intros [= <- _ _]; by eexists.
    + destruct (is_not_exist err); [apply IH|]. intros [= <- _ _]; by eexists.
Qed.

Lemma RemoveFiles_loop_ret (files : list string) (index index' : FilesIndex)
    (w w' : World) (r : ret (list ProjectFile.t)) :
  RemoveFiles_loop files index w = (Some r, index', w') ->
  exists err, r = Return None (Some err).
Proof.
  revert index w. induction files as [|path files IH]; intros index w; simpl.
  - discriminate.
  - destruct (Lstat (Join path) w) as [| |err].
    + destruct (Remove (Join path) w) as [[err|] w1]; [|apply IH].
      intros [= <- _ _]; by eexists.
    + destruct (RemoveAll (Join path) w) as [[err|] w1]; [|apply IH].
      intros [= <- _ _]; by eexists.
    + intros [= <- _ _]; by eexists.
Qed.

Lemma UpdateFiles_finish_inv (project : ProjectInfo.t) (index : FilesIndex)
    (w w' : World) (files : option (list ProjectFile.t)) :
  UpdateFiles_finish project index w = (Return files None, w') ->
  files = Some (indexProjectFilesList index)
  /\ w' = set_project_json (MetaOk (finished_project project index (now w)))
            (set_filesmap_json (Content (Some (encode_FilesIndex index))) w).
Proof.
  unfold UpdateFiles_finish, save_filesmap_json, save_project_json.
  destruct (io_fail (OpSave "filesmap.json")); [discriminate|].
  destruct (io_fail (OpSave "project.json")); [discriminate|].
  intros [= <- <-]. split; [done|]. unfold finished_project.
  destruct project as [t q pr st sz c l th a]; simpl.
  by destruct (String.eqb st "empty").
Qed.

(** A call of [UpdateFiles] that returns a list of files went through every
    step. *)
Lemma UpdateFiles_success_inv (info : FilesChanges) (next : option (list upload))
    (w w' : World) (files : list ProjectFile.t) (err : option error) :
  UpdateFiles info next w = (Return (Some files) err, w') ->
  exists (project : ProjectInfo.t) (index0 index1 index2 : FilesIndex) (w0 w1 w2 : World),
    project_json w = MetaOk project
    /\ filesIndex w = (Some index0, None, w0)
    /\ update_loop (Updates info) (default [] next) index0 w0 = (None, index1, w1)
    /\ remove_loop (Removes info) index1 w1 = (None, index2, w2)
    /\ err = None
    /\ files = indexProjectFilesList index2
    /\ w' = set_project_json (MetaOk (finished_project project index2 (now w2)))
              (set_filesmap_json (Content (Some (encode_FilesIndex index2)))
                 (keep_index index2 w2)).
Proof.
  unfold UpdateFiles. destruct (GetProjectInfo w) as [project e] eqn:HP.
  destruct e; [discriminate|]. apply GetProjectInfo_ok in HP.
  destruct (filesIndex w) as [[[index0|] e] w0] eqn:HI; [|discriminate].
  destruct (filesIndex_Some _ _ _ _ HI) as [-> _].
  destruct (_ && _ && _); [discriminate|].
  destruct (_ && _); [discriminate|].
  destruct (update_loop _ _ _ _) as [[[r|] index1] w1] eqn:HU.
  { intros [= -> <-]. apply update_loop_ret in HU as [? [=]]. }
  destruct (remove_loop _ _ _) as [[[r|] index2] w2] eqn:HR.
  { intros [= -> <-]. apply remove_loop_ret in HR as [? [=]]. }
  intros HF.
  assert (err = None) as ->.
  { revert HF. unfold UpdateFiles_finish.
    destruct (save_filesmap_json _ _) as [[?|] ?]; [discriminate|].
    destruct (save_project_json _ _) as [[?|] ?]; [discriminate|].
    by intros [= _ <- _]. }
  apply UpdateFiles_finish_inv in HF as [[= ->] ->].
  exists project, index0, index1, index2, w0, w1, w2. by repeat split.
Qed.

Lemma RemoveFiles_success_inv (paths : list string) (w w' : World)
    (files : list ProjectFile.t) (err : option error) :
  RemoveFiles paths w = (Return (Some files) err, w') ->
  exists (project : ProjectInfo.t) (index0 index1 : FilesIndex) (w0 w1 : World),
    project_json w = MetaOk project
    /\ filesIndex w = (Some index0, None, w0)
    /\ RemoveFiles_loop paths index0 w0 = (None, index1, w1)
    /\ err = None
    /\ files = indexProjectFilesList index1
    /\ w' = set_project_json
              (MetaOk (ProjectInfo.set_LastUpdate (now w1)
                         (ProjectInfo.set_Size (TotalSize index1) project)))
              (set_filesmap_json (Content (Some (encode_FilesIndex index1)))
                 (keep_index index1 w1)).
Proof.
  unfold RemoveFiles. destruct (GetProjectInfo w) as [project e] eqn:HP.
  destruct e; [discriminate|]. apply GetProjectInfo_ok in HP.
  destruct (filesIndex w) as [[[index0|] e] w0] eqn:HI; [|discriminate].
  destruct (filesIndex_Some _ _ _ _ HI) as [-> _].
  destruct (RemoveFiles_loop _ _ _) as [[[r|] index1] w1] eqn:HR.
  { intros [= -> <-]. apply RemoveFiles_loop_ret in HR as [? [=]]. }
  unfold save_filesmap_json, save_project_json.
  destruct (io_fail (OpSave "filesmap.json")); [discriminate|].
  destruct (io_fail (OpSave "project.json")); [discriminate|].
  intros [= <- <- <-].
  exists project, index0, index1, w0, w1. by repeat split.
Qed.

(** C1 (the code departs from the claim): what [UpdateFiles] and
    [RemoveFiles] write as the snapshot of the index is not read back as the
    index.  A call that succeeds leaves the encoding of the struct
    [FilesIndex] in the file, and [loadFilesIndex] reads one entry named
    [Index] from it, or fails; the index that was saved comes back only when
    it is that one entry.  (The snapshot that [OnEviction] writes is read back
    as written, see [decode_index_encode_index].) *)
Theorem saved_snapshot_is_not_reloaded (w w' : World) (files : list ProjectFile.t) :
  (exists info next, UpdateFiles info next w = (Return (Some files) None, w'))
  \/ (exists paths, RemoveFiles paths w = (Return (Some files) None, w')) ->
  exists index : FilesIndex,
    indexCache w' = Some index
    /\ filesmap_json w' = Content (Some (encode_FilesIndex index))
    /\ (loadFilesIndex w' = ({["Index" := FileInfo.zero]}, None)
        \/ loadFilesIndex w' = (∅, Some (Wrapf "parsing index file" ErrJSON)))
    /\ (fst (loadFilesIndex w') = Index index ->
        Index index = {["Index" := FileInfo.zero]}).
Proof.
  intros H.
  assert (exists index, indexCache w' = Some index
            /\ filesmap_json w' = Content (Some (encode_FilesIndex index)))
    as (index & Hc & Hf).
  { destruct H as [(info & next & H)|(paths & H)].
    - apply UpdateFiles_success_inv in H
        as (project & i0 & i1 & i2 & w0 & w1 & w2 & _ & _ & _ & _ & _ & _ & ->).
      by exists i2.
    - apply RemoveFiles_success_inv in H
        as (project & i0 & i1 & w0 & w1 & _ & _ & _ & _ & _ & ->).
      by exists i1. }
  exists index. split; [done|]. split; [done|].
  pose proof (loadFilesIndex_of_FilesIndex index w' Hf) as Hl.
  split; [done|].
  intros Heq. destruct Hl as [Hl|Hl]; rewrite Hl in Heq; simpl in Heq; [done|].
  exfalso.
  unfold loadFilesIndex in Hl. rewrite Hf, decode_index_encode_FilesIndex in Hl.
  destruct (forallb _ _) eqn:Hall; [discriminate|].
  rewrite <- Heq in Hall. by rewrite map_to_list_empty in Hall.
Qed.

(** ** The loader of the cache *)

Lemma log_calls_frame (ps : list string) (w : World) :
  disk (log_calls ps w) = disk w
  /\ project_json (log_calls ps w) = project_json w
  /\ filesmap_json (log_calls ps w) = filesmap_json w
  /\ indexCache (log_calls ps w) = indexCache w
  /\ now (log_calls ps w) = now w
  /\ checksum_calls (log_calls ps w) = (rev ps ++ checksum_calls w)%list.
Proof.
  revert w. induction ps as [|p ps IH]; intros w; [done|].
  change (log_calls (p :: ps) w) with (log_calls ps (log_checksum_call p w)).
  destruct (IH (log_checksum_call p w)) as (-> & -> & -> & -> & -> & ->).
  repeat split. simpl. by rewrite <- app_assoc.
Qed.

(** [Checksum] reads the content files only. *)
Lemma Checksum_frame (path : string) (w w' : World) :
  disk w' = disk w -> Checksum path w' = Checksum path w.
Proof. intros H. unfold Checksum, Sha1, DBHash. by rewrite H. Qed.

Lemma loader_hash_loop_ok (l : list (string * FileInfo.t))
    (files : gmap string FileInfo.t) (w0 w : World) :
  disk w = disk w0 ->
  Forall (fun e => snd (Checksum (Join (fst e)) w0) = None) l ->
  loader_hash_loop l files w =
    (Some (foldl (fun m e => <[fst e := hashed w0 (fst e) (snd e)]> m) files l),
     log_calls (Join <$> l.*1) w).
Proof.
  revert files w. induction l as [|[path info] l IH]; intros files w Hd Hok; [done|].
  apply Forall_cons in Hok as [Hp Hok]. cbn [loader_hash_loop fst snd] in *.
  unfold call_Checksum. rewrite (Checksum_frame _ w0 w) by done.
  destruct (Checksum (Join path) w0) as [hash err] eqn:Hc. simpl in Hp. subst err.
  rewrite IH by done. cbn [foldl fmap list_fmap fst snd log_calls].
  unfold hashed at 3. by rewrite Hc.
Qed.

Lemma loader_hash_loop_fails (l : list (string * FileInfo.t))
    (files : gmap string FileInfo.t) (w0 w : World) :
  disk w = disk w0 ->
  Exists (fun e => snd (Checksum (Join (fst e)) w0) <> None) l ->
  fst (loader_hash_loop l files w) = None.
Proof.
  revert files w. induction l as [|[path info] l IH]; intros files w Hd Hex.
  - by apply Exists_nil in Hex.
  - cbn [loader_hash_loop]. unfold call_Checksum.
    rewrite (Checksum_frame _ w0 w) by done.
    destruct (Checksum (Join path) w0) as [hash [e|]] eqn:Hc; [done|].
    apply Exists_cons in Hex as [Hex|Hex].
    + simpl in Hex. rewrite Hc in Hex. done.
    + by apply IH.
Qed.

(** C5 (as amended): the loader first reads the snapshot of the index.  When
    the file is absent the index is empty, and nothing is scanned or hashed;
    when the file is read without error its content is the index; when the
    file cannot be opened or parsed, the index is rebuilt from the scan of the
    project's directory: [Checksum] is called once for every scanned file, and
    the entry of a file holds the checksum, the size and the time of the scan
    (the loader returns nothing when the scan or a checksum fails). *)
Theorem loader_reads_snapshot_or_rebuilds (w : World) :
  (filesmap_json w = SnapAbsent ->
   loader w = (Some (mkFilesIndex ∅), set_indexCache (Some (mkFilesIndex ∅)) w))
  /\ (forall m, loadFilesIndex w = (m, None) ->
      loader w = (Some (mkFilesIndex m), set_indexCache (Some (mkFilesIndex m)) w))
  /\ (forall m e files,
      loadFilesIndex w = (m, Some e) ->
      createFilesMap w = (files, None) ->
      (forall path info, files !! path = Some info ->
         snd (Checksum (Join path) w) = None) ->
      exists index w',
        loader w = (Some index, w')
        /\ (forall path, Index index !! path = hashed w path <$> files !! path)
        /\ checksum_calls w' = (rev (Join <$> (range files).*1) ++ checksum_calls w)%list
        /\ indexCache w' = Some index
        /\ disk w' = disk w /\ project_json w' = project_json w
        /\ filesmap_json w' = filesmap_json w)
  /\ (forall m e,
      loadFilesIndex w = (m, Some e) ->
      snd (createFilesMap w) <> None
      \/ (exists path, is_Some (fst (createFilesMap w) !! path)
                       /\ snd (Checksum (Join path) w) <> None) ->
      fst (loader w) = None).
Proof.
  split; [|split; [|split]].
  - intros H. unfold loader, loadFilesIndex. by rewrite H.
  - intros m H. unfold loader. by rewrite H.
  - intros m e files Hl Hs Hok. unfold loader. rewrite Hl, Hs.
    rewrite (loader_hash_loop_ok _ _ w w); [|done|].
    + destruct (log_calls_frame (Join <$> (range files).*1) w)
        as (Hd & Hp & Hf & Hi & Hn & Hc).
      eexists _, _. split; [reflexivity|]. simpl.
      split; [|by repeat split].
      intros path.
      rewrite (foldl_insert_range_lookup (hashed w)).
      by destruct (files !! path).
    + apply Forall_forall. intros [path info] Hin.
      apply elem_of_map_to_list in Hin. by apply (Hok path info).
  - intros m e Hl Hbad. unfold loader. rewrite Hl.
    destruct (createFilesMap w) as [files [e'|]] eqn:Hs; [done|].
    destruct Hbad as [Hbad|(path & [info Hin] & Hc)]; [done|].
    simpl in Hin.
    pose proof (loader_hash_loop_fails (range files) files w w eq_refl) as Hf.
    destruct (loader_hash_loop _ _ _) as [[files'|] w1]; [|done].
    simpl in Hf. discriminate Hf.
    apply Exists_exists. exists (path, info). split; [|done].
    by apply elem_of_map_to_list.
Qed.

(** ** What the steps of an operation leave as it is *)

Lemma only_cache_changed_refl (w : World) : only_cache_changed w w.
Proof. by repeat split. Qed.

Lemma only_disk_changed_refl (w : World) : only_disk_changed w w.
Proof. by repeat split. Qed.

Lemma only_disk_changed_trans (w1 w2 w3 : World) :
  only_disk_changed w1 w2 -> only_disk_changed w2 w3 -> only_disk_changed w1 w3.
Proof.
  intros (? & ? & ? & ? & ? & ? & ?) (? & ? & ? & ? & ? & ? & ?).
  repeat split; congruence.
Qed.

Lemma only_disk_changed_set_disk (d : gmap string DiskFile) (w : World) :
  only_disk_changed w (set_disk d w).
Proof. by repeat split. Qed.

Lemma loader_hash_loop_frame (l : list (string * FileInfo.t))
    (files : gmap string FileInfo.t) (w : World) :
  only_cache_changed w (snd (loader_hash_loop l files w)).
Proof.
  revert files w. induction l as [|[path info] l IH]; intros files w.
  - apply only_cache_changed_refl.
  - cbn [loader_hash_loop]. unfold call_Checksum.
    destruct (Checksum (Join path) w) as [hash [e|]]; [by repeat split|].
    destruct (IH (<[path := FileInfo.mk hash (FileInfo.Size info) (FileInfo.Mtime info)]> files)
                 (log_checksum_call (Join path) w)) as (? & ? & ? & ? & ? & ?).
    by repeat split.
Qed.

Lemma loader_frame (w : World) : only_cache_changed w (snd (loader w)).
Proof.
  unfold loader. destruct (loadFilesIndex w) as [indexData [e|]].
  - destruct (createFilesMap w) as [files [e'|]]; [apply only_cache_changed_refl|].
    pose proof (loader_hash_loop_frame (range files) files w) as H.
    destruct (loader_hash_loop _ _ _) as [[files'|] w1]; exact H.
  - by repeat split.
Qed.

Lemma filesIndex_frame (w : World) : only_cache_changed w (snd (filesIndex w)).
Proof.
  unfold filesIndex. destruct (negb _); [apply only_cache_changed_refl|].
  unfold indexCache_Get. destruct (indexCache w).
  - apply only_cache_changed_refl.
  - pose proof (loader_frame w) as H. by destruct (loader w) as [[?|] ?].
Qed.

Lemma saveToFile2_frame (src : reader) (filename : string) (w : World) :
  only_disk_changed w (snd (saveToFile2 src filename w)).
Proof.
  unfold saveToFile2. destruct (io_fail _); [apply only_disk_changed_refl|].
  destruct src; apply only_disk_changed_set_disk.
Qed.



Lemma update_loop_frame (files : list ProjectFile.t) (next : list upload)
    (index : FilesIndex) (w : World) :
  only_disk_changed w (snd (update_loop files next index w)).
Proof.
  revert next index w. induction files as [|d files IH]; intros next index w; simpl.
  - apply only_disk_changed_refl.
  - destruct next as [|[e|path rd] next']; try apply only_disk_changed_refl.
    destruct (negb (String.eqb _ _)); [apply only_disk_changed_refl|].
    pose proof (saveToFile2_frame rd (Join path) w) as Hs.
    destruct (saveToFile2 rd (Join path) w) as [[calcHash [e|]] w1]; [exact Hs|].
    destruct (Stat (Join path) w1) as [fStat|e]; [|exact Hs].
    destruct (negb (_ =? _)); [exact Hs|].
    eapply only_disk_changed_trans; [exact Hs|apply IH].
Qed.




(** ** The lifecycle state *)




(** A write of a control file changes nothing but that file. *)
Lemma save_project_json_frame (info : ProjectInfo.t) (w : World) :
  let w' := snd (save_project_json info w) in
  disk w' = disk w /\ filesmap_json w' = filesmap_json w
  /\ qgis_json w' = qgis_json w /\ settings_json w' = settings_json w
  /\ indexCache w' = indexCache w /\ now w' = now w
  /\ checksum_calls w' = checksum_calls w
  /\ (CheckProjectExists w = true -> CheckProjectExists w' = true).
Proof.
  unfold save_project_json. destruct (io_fail (OpSave _)); [|by repeat split].
  cbn [snd]. by destruct (saveJsonFile_failure _).
Qed.
















(** ** The size limit *)

Lemma wrap64_small (z : Z) : in_int64 z -> wrap64 z = z.
Proof.
  unfold in_int64, int64_min, int64_max, wrap64. intros H.
  rewrite Z.mod_small; lia.
Qed.

Lemma wrap64_add_l (a b : Z) : wrap64 (wrap64 a + b) = wrap64 (a + b).
Proof.
  unfold wrap64.
  replace ((a + 2 ^ 63) mod 2 ^ 64 - 2 ^ 63 + b + 2 ^ 63)
    with ((a + 2 ^ 63) mod 2 ^ 64 + b) by lia.
  rewrite Zplus_mod_idemp_l. f_equal. f_equal. lia.
Qed.

Lemma foldl_add64 {A : Type} (f : A -> Z) (l : list A) (a : Z) :
  foldl (fun sum e => add64 sum (f e)) (wrap64 a) l
  = wrap64 (foldl (fun sum e => sum + f e) a l).
Proof.
  revert a. induction l as [|e l IH]; intros a; [done|].
  cbn [foldl]. unfold add64 at 2. rewrite wrap64_add_l. apply IH.
Qed.

(** [calcNewSize] computes the sum of the projected sizes in 64 bits. *)
Lemma calcNewSize_projected (index : FilesIndex) (info : FilesChanges) :
  calcNewSize index info = wrap64 (projected_size index info).
Proof.
  unfold calcNewSize, projected_size, projected_sizes.
  rewrite (foldl_insert_range FileInfo.Size).
  change 0 with (wrap64 0) at 1. unfold range. apply (foldl_add64 snd).
Qed.

Lemma calcNewSize_exact (index : FilesIndex) (info : FilesChanges) :
  in_int64 (projected_size index info) ->
  calcNewSize index info = projected_size index info.
Proof. intros H. rewrite calcNewSize_projected. by apply wrap64_small. Qed.

Lemma remove_loop_ret_wrap (paths : list string) (index index' : FilesIndex)
    (w w' : World) (r : ret (list ProjectFile.t)) :
  remove_loop paths index w = (Some r, index', w') ->
  exists msg err, r = Return None (Some (Wrapf msg err)).
Proof.
  revert index w. induction paths as [|path paths IH]; intros index w; simpl.
  - discriminate.
  - destruct (Lstat (Join path) w) as [| |err].
    + destruct (Remove (Join path) w) as [[err|] w1]; [|apply IH].
      destruct (negb (is_not_exist err)); [intros [= <- _ _]; by eexists _, _|apply IH].
    + destruct (RemoveAll (Join path) w) as [[err|] w1]; [|apply IH].
      intros [= <- _ _]; by eexists _, _.
    + destruct (is_not_exist err); [apply IH|]. intros [= <- _ _]; by eexists _, _.
Qed.

Lemma filesIndex_None (w w0 : World) (err : option error) :
  filesIndex w = (None, err, w0) ->
  err = Some ErrProjectNotExists \/ err = Some (Errorf "loading project files index").
Proof.
  unfold filesIndex. destruct (negb _); [intros [= <- _]; by left|].
  destruct (indexCache_Get w) as [[index|] w1]; [discriminate|].
  intros [= <- _]. by right.
Qed.

Lemma GetProjectInfo_error (w : World) (p : ProjectInfo.t) (e : error) :
  GetProjectInfo w = (p, Some e) -> e <> ErrProjectSize.
Proof.
  unfold GetProjectInfo. destruct (project_json w); intros [= _ <-]; discriminate.
Qed.

(** C4 (as amended): a batch with at least one update whose projected size,
    as [calcNewSize] computes it from the index, the removals and the
    declared updates, in 64 bits, exceeds the configured maximum (a positive
    [MaxProjectSize]) is rejected with [ErrProjectSize]; the content files,
    the files of the control directory and the index are then as they were.
    A batch without updates is never answered with [ErrProjectSize].
    [calcNewSize] is the exact sum of the projected sizes whenever that sum
    fits in 64 bits; a sum that does not fit wraps around, and is not
    compared with the limit as the sum that it is. *)
Theorem UpdateFiles_size_limit (info : FilesChanges) (next : option (list upload))
    (w : World) :
  (forall p index w0,
      project_json w = MetaOk p ->
      filesIndex w = (Some index, None, w0) ->
      Updates info <> [] ->
      0 < MaxProjectSize s ->
      MaxProjectSize s < calcNewSize index info ->
      UpdateFiles info next w = (Return None (Some ErrProjectSize), w0)
      /\ only_cache_changed w w0
      /\ indexCache w0 = Some index)
  /\ (Updates info = [] ->
      forall r w', UpdateFiles info next w = (r, w') ->
                   r <> Return None (Some ErrProjectSize))
  /\ (forall index, in_int64 (projected_size index info) ->
                    calcNewSize index info = projected_size index info).
Proof.
  split; [|split].
  - intros p index w0 Hp HI Hu Hmax Hsize.
    pose proof (filesIndex_frame w) as HF. rewrite HI in HF. simpl in HF.
    destruct (filesIndex_Some _ _ _ _ HI) as [_ Hc].
    split; [|by split].
    unfold UpdateFiles. rewrite (proj2 (GetProjectInfo_ok w p) Hp), HI.
    destruct (Updates info) as [|f fs]; [done|]. simpl.
    rewrite (proj2 (Z.ltb_lt _ _) Hmax), (proj2 (Z.ltb_lt _ _) Hsize). done.
  - intros Hu r w'. unfold UpdateFiles.
    destruct (GetProjectInfo w) as [p [e|]] eqn:HP.
    { intros [= <- _] [= He]. by apply GetProjectInfo_error in HP. }
    destruct (filesIndex w) as [[[index0|] e] w0] eqn:HI.
    2:{ intros [= <- _]. apply filesIndex_None in HI as [->| ->]; discriminate. }
    rewrite Hu. simpl.
    destruct (remove_loop _ _ _) as [[[r'|] index2] w2] eqn:HR.
    { intros [= <- _]. apply remove_loop_ret_wrap in HR as (? & ? & ->). discriminate. }
    unfold UpdateFiles_finish.
    destruct (save_filesmap_json _ _) as [[?|] ?]; [intros [= <- _]; discriminate|].
    destruct (save_project_json _ _) as [[?|] ?]; intros [= <- _]; discriminate.
  - intros index. apply calcNewSize_exact.
Qed.

(** ** A batch that stops in the loop over the updates *)

Lemma update_loop_app (pre rest : list ProjectFile.t) (src_pre src_rest : list upload)
    (index index1 : FilesIndex) (w w1 : World) :
  length src_pre = length pre ->
  update_loop pre src_pre index w = (None, index1, w1) ->
  update_loop (pre ++ rest) (src_pre ++ src_rest) index w
  = update_loop rest src_rest index1 w1.
Proof.
  revert src_pre index w. induction pre as [|d pre IH]; intros src_pre index w Hlen.
  - destruct src_pre; [|discriminate]. by intros [= <- <-].
  - destruct src_pre as [|[e|path rd] src_pre]; [discriminate|discriminate|].
    injection Hlen as Hlen. cbn [update_loop app].
    destruct (negb (String.eqb _ _)); [discriminate|].
    destruct (saveToFile2 rd (Join path) w) as [[calcHash [e|]] w2]; [discriminate|].
    destruct (Stat (Join path) w2) as [fStat|e]; [|discriminate].
    destruct (negb (_ =? _)); [discriminate|].
    by apply IH.
Qed.

(** C2 (the code departs from the claim): when the upload source yields a
    path that is not the path of the next declared update, after the updates
    before it were applied, [UpdateFiles] stops, and the index holds what the
    earlier updates stored and nothing else; but the call returns neither a
    list nor an error (the error it returns is the nil error of the call of
    [next] that succeeded), where the claim asks for a non-nil error. *)
Theorem UpdateFiles_path_mismatch_returns_nil_error
    (info : FilesChanges) (src : list upload) (w w0 w1 : World)
    (p : ProjectInfo.t) (index index1 : FilesIndex)
    (pre rest : list ProjectFile.t) (f : ProjectFile.t)
    (src_pre src_rest : list upload) (q : string) (rd : reader) :
  project_json w = MetaOk p ->
  filesIndex w = (Some index, None, w0) ->
  (0 <? length (Updates info))%nat && (0 <? MaxProjectSize s)
    && (MaxProjectSize s <? calcNewSize index info) = false ->
  Updates info = (pre ++ f :: rest)%list ->
  src = (src_pre ++ NextFile q rd :: src_rest)%list ->
  length src_pre = length pre ->
  update_loop pre src_pre index w0 = (None, index1, w1) ->
  q <> ProjectFile.Path f ->
  UpdateFiles info (Some src) w = (Return None None, keep_index index1 w1)
  /\ project_json (keep_index index1 w1) = project_json w
  /\ filesmap_json (keep_index index1 w1) = filesmap_json w.
Proof.
  intros Hp HI Hsz Hu -> Hlen Hpre Hq.
  pose proof (filesIndex_frame w) as (_ & Hp0 & Hf0 & _). rewrite HI in Hp0, Hf0.
  pose proof (update_loop_frame pre src_pre index w0) as (Hp1 & Hf1 & _).
  rewrite Hpre in Hp1, Hf1. simpl in *.
  split; [|split; congruence].
  unfold UpdateFiles. rewrite (proj2 (GetProjectInfo_ok w p) Hp), HI, Hsz.
  rewrite andb_false_r. rewrite Hu. cbn [default from_option]. unfold id.
  rewrite (update_loop_app pre (f :: rest) src_pre _ index index1 w0 w1) by done.
  cbn [update_loop].
  destruct (String.eqb_spec (ProjectFile.Path f) q) as [Heq|Hne]; [by subst q|].
  done.
Qed.

(** ** Removing a path that is not on the disk *)

Lemma Delete_idempotent (path : string) (index : FilesIndex) :
  Delete path (Delete path index) = Delete path index.
Proof. unfold Delete. simpl. by rewrite delete_delete_eq. Qed.

(** In the removal phase of [UpdateFiles] a path that is not on the disk is
    no error: the entry of the path is dropped from the index, the loop goes
    on, and removing it a second time changes nothing. *)
Lemma remove_loop_absent (path : string) (paths : list string)
    (index : FilesIndex) (w : World) :
  Lstat (Join path) w = LstatErr ErrNotExist ->
  remove_loop (path :: paths) index w = remove_loop paths (Delete path index) w
  /\ remove_loop (path :: path :: paths) index w = remove_loop (path :: paths) index w.
Proof.
  intros H. split.
  - cbn [remove_loop]. by rewrite H.
  - cbn [remove_loop]. rewrite !H. cbn [is_not_exist].
    by rewrite Delete_idempotent.
Qed.

(** C3 (the code departs from the claim): for a path that is not on the
    disk, [RemoveFiles] returns the error of [os.Lstat], wrapped, and stops,
    where the claim asks it to succeed; the removal phase of [UpdateFiles]
    takes the same path as removed, drops its entry from the index and goes
    on. *)
Theorem RemoveFiles_absent_target_is_an_error (path : string) (paths : list string)
    (w w0 : World) (p : ProjectInfo.t) (index : FilesIndex) :
  project_json w = MetaOk p ->
  filesIndex w = (Some index, None, w0) ->
  Lstat (Join path) w0 = LstatErr ErrNotExist ->
  RemoveFiles (path :: paths) w
  = (Return None (Some (Wrapf ("removing file/directory " +:+ path) ErrNotExist)),
     keep_index index w0)
  /\ remove_loop (path :: paths) index w0
     = remove_loop paths (Delete path index) w0.
Proof.
  intros Hp HI HL. split.
  - unfold RemoveFiles. rewrite (proj2 (GetProjectInfo_ok w p) Hp), HI.
    cbn [RemoveFiles_loop]. by rewrite HL.
  - by apply remove_loop_absent.
Qed.

(** ** [ListProjectFiles]: the index against the scan *)

Lemma cache_hit_spec (index : FilesIndex) (path : string) (info : FileInfo.t) :
  cache_hit index path info = true <->
  exists cached, Index index !! path = Some cached
                 /\ FileInfo.Mtime cached = FileInfo.Mtime info.
Proof.
  unfold cache_hit, Get. destruct (Index index !! path) as [c|]; simpl.
  - rewrite Z.eqb_eq. split; [by exists c|]. by intros (c' & [= <-] & H).
  - split; [done|]. by intros (c' & [=] & _).
Qed.

(** [Checksum] is called for the scanned files that the index does not hold
    with the time of the scan, once for each. *)
Lemma misses_spec (index : FilesIndex) (filesMap : gmap string FileInfo.t) :
  NoDup (misses index (range filesMap))
  /\ forall path,
      path ∈ misses index (range filesMap) <->
      exists info, filesMap !! path = Some info /\ cache_hit index path info = false.
Proof.
  unfold misses, range. split.
  - apply NoDup_fmap_fst.
    + intros k v1 v2 H1 H2.
      apply list_elem_of_filter in H1 as [_ H1]. apply list_elem_of_filter in H2 as [_ H2].
      apply elem_of_map_to_list in H1, H2. congruence.
    + apply NoDup_filter, NoDup_map_to_list.
  - intros path. rewrite list_elem_of_fmap. split.
    + intros ([k info] & -> & Hin). apply list_elem_of_filter in Hin as [Hm Hin].
      apply elem_of_map_to_list in Hin. by exists info.
    + intros (info & Hin & Hm). exists (path, info). split; [done|].
      apply list_elem_of_filter. split; [done|]. by apply elem_of_map_to_list.
Qed.

Lemma list_loop_ok (index0 : FilesIndex) (w0 : World) (l : list (string * FileInfo.t))
    (idx : FilesIndex) (upd : bool) (files : list ProjectFile.t) (w : World) :
  NoDup l.*1 ->
  disk w = disk w0 ->
  (forall e, e ∈ l -> Index idx !! fst e = Index index0 !! fst e) ->
  Forall (fun e => cache_hit index0 (fst e) (snd e) = false ->
                   snd (Checksum (Join (fst e)) w0) = None) l ->
  list_loop l true idx upd files w =
    (None, foldl (reconcile_step index0 w0) idx l,
     upd || existsb (fun e => negb (cache_hit index0 (fst e) (snd e))) l,
     (files ++ (reconciled_file index0 w0 <$> l))%list,
     log_calls (Join <$> misses index0 l) w).
Proof.
  revert idx upd files w.
  induction l as [|[path info] l IH]; intros idx upd files w Hnd Hd Hagree Hok.
  - cbn. by rewrite orb_false_r, app_nil_r.
  - apply NoDup_cons in Hnd as [Hpath Hnd]. apply Forall_cons in Hok as [Hp Hok].
    cbn [fst snd] in Hp.
    assert (Hget : Get path idx = Get path index0).
    { pose proof (Hagree (path, info) ltac:(left)) as Ha. cbn [fst] in Ha.
      unfold Get. by rewrite Ha. }
    assert (Hstep : reconcile_step index0 w0 idx (path, info) =
              if cache_hit index0 path info then idx
              else Set_ path (hashed w0 path info) idx) by reflexivity.
    assert (Hfile : reconciled_file index0 w0 (path, info) =
              ProjectFile.mk path
                (if cache_hit index0 path info
                 then FileInfo.Hash (fst (Get path index0))
                 else fst (Checksum (Join path) w0))
                (FileInfo.Size info) (FileInfo.Mtime info)) by reflexivity.
    cbn [list_loop]. rewrite Hget.
    pose proof (eq_refl (cache_hit index0 path info)) as Hhit.
    unfold cache_hit at 1 in Hhit.
    destruct (Get path index0) as [cachedInfo hasCachedInfo] eqn:HG.
    unfold misses. cbn [existsb foldl fst snd]. rewrite fmap_cons, Hstep, Hfile.
    cbn [fst].
    destruct (cache_hit index0 path info) eqn:Hc; rewrite Hhit.
    + rewrite IH; [|done|done|by intros e He; apply Hagree; right|done].
      rewrite filter_cons_False by (cbn; congruence).
      cbn [negb orb]. by rewrite <- app_assoc.
    + unfold call_Checksum. rewrite (Checksum_frame _ w0 w) by done.
      specialize (Hp eq_refl).
      destruct (Checksum (Join path) w0) as [hash err] eqn:HC. simpl in Hp. subst err.
      rewrite IH; [|done|done| |done].
      * rewrite filter_cons_True by done.
        cbn [negb orb fmap list_fmap fst snd log_calls foldl].
        rewrite orb_true_r. unfold hashed. rewrite HC. cbn [fst].
        by rewrite <- app_assoc.
      * intros e He. cbn [Set_ Index]. rewrite lookup_insert_ne.
        -- apply Hagree. by right.
        -- intros ->. apply Hpath. apply list_elem_of_fmap. by exists e.
Qed.

(** The index after the loop over the scanned files. *)
Lemma reconcile_lookup (index0 : FilesIndex) (w0 : World)
    (filesMap : gmap string FileInfo.t) (q : string) :
  Index (foldl (reconcile_step index0 w0) index0 (range filesMap)) !! q =
    match filesMap !! q with
    | Some info =>
        if cache_hit index0 q info then Index index0 !! q
        else Some (hashed w0 q info)
    | None => Index index0 !! q
    end.
Proof.
  unfold range.
  assert (Hgen : forall l idx, NoDup l.*1 ->
            Index (foldl (reconcile_step index0 w0) idx l) !! q =
              match (list_to_map l : gmap string FileInfo.t) !! q with
              | Some info =>
                  if cache_hit index0 q info then Index idx !! q
                  else Some (hashed w0 q info)
              | None => Index idx !! q
              end).
  { induction l as [|[k v] l IH]; intros idx Hnd; [done|].
    apply NoDup_cons in Hnd as [Hk Hnd]. cbn [foldl]. rewrite IH by done.
    assert (Hstep : reconcile_step index0 w0 idx (k, v) =
              if cache_hit index0 k v then idx
              else Set_ k (hashed w0 k v) idx) by reflexivity.
    rewrite Hstep. cbn [list_to_map foldr fst snd].
    destruct (decide (q = k)) as [->|Hne].
    - rewrite (proj1 (not_elem_of_list_to_map _ _) Hk), lookup_insert_eq.
      destruct (cache_hit index0 k v); [done|]. cbn. by rewrite lookup_insert_eq.
    - rewrite lookup_insert_ne by done.
      destruct (cache_hit index0 k v); [done|].
      cbn [Set_ Index]. rewrite lookup_insert_ne by done. done. }
  rewrite Hgen by apply NoDup_fst_map_to_list.
  by rewrite list_to_map_to_list.
Qed.

(** The index after the loop that cleans it. *)
Lemma purge_lookup (filesMap : gmap string FileInfo.t) (index : FilesIndex)
    (upd : bool) (q : string) :
  Index (fst (foldl (purge_step filesMap) (index, upd) (range (Index index)))) !! q =
    match filesMap !! q with
    | None => None
    | Some _ => Index index !! q
    end.
Proof.
  assert (Hgen : forall (l : list (string * FileInfo.t)) idx u,
            Index (fst (foldl (purge_step filesMap) (idx, u) l)) =
              foldl (fun m e => if bool_decide (filesMap !! fst e = None)
                                then delete (fst e) m else m) (Index idx) l).
  { induction l as [|[k v] l IH]; intros idx u; [done|].
    cbn [foldl]. unfold purge_step at 2. cbn [fst snd].
    destruct (filesMap !! k) eqn:Hk.
    - rewrite bool_decide_eq_false_2 by done. apply IH.
    - rewrite bool_decide_eq_true_2 by done. apply IH. }
  rewrite Hgen.
  pose proof (foldl_delete_if_range_lookup
                (fun k => bool_decide (filesMap !! k = None)) (Index index) q) as H.
  cbn beta in H. rewrite H.
  destruct (filesMap !! q); [by rewrite bool_decide_eq_false_2|].
  by rewrite bool_decide_eq_true_2.
Qed.

Lemma reconciled_file_frame (index : FilesIndex) (w w' : World) (e : string * FileInfo.t) :
  disk w' = disk w -> reconciled_file index w' e = reconciled_file index w e.
Proof. intros H. unfold reconciled_file. by rewrite (Checksum_frame _ w w'). Qed.

(** C7: with [checksum = true], for every scanned file [ListProjectFiles]
    returns the checksum of the index, and does not call [Checksum], exactly
    when the index has an entry for the path with the time of modification of
    the scan; for every other scanned file it calls [Checksum] once, returns
    the result and stores it in the index with the size and the time of the
    scan; and after the loop no entry of the index is left whose path the scan
    did not find.  (The project exists, its index is there, and the calls of
    [Checksum] succeed; [cache_hit_spec] and [misses_spec] say what the test
    of the loop and the list of the calls are.) *)
Theorem ListProjectFiles_reconciles (w w0 : World) (index : FilesIndex)
    (filesMap : gmap string FileInfo.t) :
  CheckProjectExists w = true ->
  createFilesMap w = (filesMap, None) ->
  filesIndex w = (Some index, None, w0) ->
  (forall path info,
      filesMap !! path = Some info -> cache_hit index path info = false ->
      snd (Checksum (Join path) w) = None) ->
  exists files w' index',
    ListProjectFiles true w = (Return (Some files) None, w')
    /\ files = (reconciled_file index w <$> range filesMap)
    /\ checksum_calls w'
       = (rev (Join <$> misses index (range filesMap)) ++ checksum_calls w0)%list
    /\ indexCache w' = Some index'
    /\ (forall path,
           Index index' !! path =
             match filesMap !! path with
             | None => None
             | Some info =>
                 if cache_hit index path info then Index index !! path
                 else Some (hashed w path info)
             end).
Proof.
  intros HE HS HI Hok.
  pose proof (filesIndex_frame w) as (Hd & _). rewrite HI in Hd. simpl in Hd.
  unfold ListProjectFiles. rewrite HE, HS, HI. cbn [negb].
  rewrite (list_loop_ok index w (range filesMap) index false [] w0);
    [|apply NoDup_fst_map_to_list|done|done|].
  2:{ apply Forall_forall. intros [path info] Hin Hmiss.
      apply elem_of_map_to_list in Hin. by apply (Hok path info). }
  cbn [app orb].
  pose proof (purge_lookup filesMap
                (foldl (reconcile_step index w) index (range filesMap))
                (existsb (fun e => negb (cache_hit index (fst e) (snd e)))
                         (range filesMap))) as Hpurge.
  destruct (foldl (purge_step filesMap) _ _) as [index2 upd2]. cbn [fst] in Hpurge.
  destruct (log_calls_frame (Join <$> misses index (range filesMap)) w0)
    as (_ & _ & _ & _ & _ & Hcalls).
  assert (Hlookup : forall path,
             Index index2 !! path =
               match filesMap !! path with
               | None => None
               | Some info =>
                   if cache_hit index path info then Index index !! path
                   else Some (hashed w path info)
               end).
  { intros path. rewrite Hpurge, reconcile_lookup. by destruct (filesMap !! path). }
  destruct upd2.
  - destruct (GetProjectInfo _) as [projectInfo e].
    match goal with
    | |- context [save_project_json ?i ?w1] =>
        destruct (save_project_json_frame i w1) as (_ & _ & _ & _ & Hc2 & _ & Hcalls2 & _)
    end.
    eexists _, _, index2. split; [reflexivity|]. split; [done|].
    split; [rewrite Hcalls2; exact Hcalls|]. split; [rewrite Hc2; reflexivity|done].
  - eexists _, _, index2. split; [reflexivity|]. by repeat split.
Qed.

(** ** The order in which a map is visited

    Go visits the entries of a map in an order that changes from run to run.
    The results of the loops over the index do not depend on it. *)

Lemma DeleteDir_any_order (d : string) (fi : FilesIndex)
    (l : list (string * FileInfo.t)) :
  l ≡ₚ range (Index fi) ->
  foldl (DeleteDir_step (TrimSuffix d Separator +:+ Separator)) (Index fi) l
  = Index (DeleteDir d fi).
Proof.
  intros Hl. apply map_eq. intros q. unfold DeleteDir. cbn [Index].
  pose proof (foldl_delete_if_lookup (A := FileInfo.t) (B := FileInfo.t)
                (fun p => HasPrefix p (TrimSuffix d Separator +:+ Separator))) as H.
  cbn beta in H. unfold DeleteDir_step. rewrite !H.
  destruct (decide (q ∈ l.*1 /\ _)) as [[Hin Hp]|Hn].
  - rewrite decide_True; [done|]. split; [|done]. by rewrite <- Hl.
  - rewrite decide_False; [done|]. intros [Hin Hp]. apply Hn.
    split; [|done]. by rewrite Hl.
Qed.

Lemma foldl_sum_any_order {A : Type} (f : A -> Z) (l1 l2 : list A) (a : Z) :
  l1 ≡ₚ l2 ->
  foldl (fun sum e => sum + f e) a l1 = foldl (fun sum e => sum + f e) a l2.
Proof.
  intros Hl. revert a.
  induction Hl as [|x l1 l2 _ IH|x y l|l1 l2 l3 _ IH1 _ IH2]; intros a; cbn [foldl].
  - done.
  - apply IH.
  - f_equal. lia.
  - by rewrite IH1.
Qed.

(** [TotalSize] is the sum of the sizes of the entries, in 64 bits, in whatever
    order they are visited. *)
Lemma TotalSize_any_order (fi : FilesIndex) (l : list (string * FileInfo.t)) :
  l ≡ₚ range (Index fi) ->
  foldl (fun size e => add64 size (FileInfo.Size (snd e))) 0 l = TotalSize fi.
Proof.
  intros Hl. unfold TotalSize. change 0 with (wrap64 0).
  rewrite !(foldl_add64 (fun e => FileInfo.Size (snd e))). f_equal.
  by apply (foldl_sum_any_order (fun e => FileInfo.Size (snd e))).
Qed.

(** ** The snapshot that the eviction of the cache writes *)

(** X1: when the entry of the cache expires, the index is saved as the map
    itself (the sizes and the times are 64-bit integers, and the file can be
    written).  What [loadFilesIndex] reads back is that map with every key
    and every checksum as [encoding/json] prints strings: a byte at which no
    UTF-8 encoding starts comes back as U+FFFD, and of the keys that are
    printed alike the last in the order of the bytes keeps its entry.  It is
    the map that was saved when the keys and the checksums are valid
    UTF-8. *)
Theorem eviction_snapshot_round_trip (w : World) (index : FilesIndex) :
  indexCache w = Some index ->
  io_fail (OpSave "filesmap.json") = false ->
  map_Forall (fun _ v => FileInfo.wf v) (Index index) ->
  loadFilesIndex (OnEviction w) = (read_back_index (Index index), None)
  /\ (map_Forall utf8_entry (Index index) ->
      loadFilesIndex (OnEviction w) = (Index index, None)).
Proof.
  intros Hc Hio Hwf.
  assert (H : loadFilesIndex (OnEviction w) = (read_back_index (Index index), None)).
  { unfold OnEviction, save_filesmap_json. rewrite Hc, Hio.
    unfold loadFilesIndex. cbn [snd set_indexCache filesmap_json set_filesmap_json].
    by rewrite decode_index_encode_index_read_back. }
  split; [done|]. intros Hv. by rewrite H, read_back_index_valid.
Qed.

(** ** The first field of the output of the tool *)

(** When the output of the tool starts with a token that a space ends, as
    [dbhash] prints it, what [DBHash] keeps is its first whitespace-delimited
    token. *)
Lemma split_first_first_token (tok rest : string) :
  tok <> "" ->
  forallb (fun c => negb (is_space c)) (list_ascii_of_string tok) = true ->
  split_first (tok +:+ " " +:+ rest) = tok
  /\ first_token (tok +:+ " " +:+ rest) = tok.
Proof.
  intros Hne Hall. split.
  - clear Hne. induction tok as [|c tok IH]; [done|].
    cbn in Hall. apply andb_true_iff in Hall as [Hc Hall].
    simpl. destruct (Ascii.eqb_spec c " ") as [->|_]; [done|].
    f_equal. by apply IH.
  - destruct tok as [|c tok]; [done|].
    cbn in Hall. apply andb_true_iff in Hall as [Hc Hall].
    apply negb_true_iff in Hc. simpl. rewrite !Hc. f_equal.
    clear c Hc Hne. induction tok as [|c tok IH]; [done|].
    cbn in Hall. apply andb_true_iff in Hall as [Hc Hall].
    apply negb_true_iff in Hc. simpl. rewrite Hc. f_equal. by apply IH.
Qed.

(** ** The removal phase of [UpdateFiles] and a path that is not on the disk *)

Lemma filesIndex_cached (w : World) (index : FilesIndex) :
  CheckProjectExists w = true -> indexCache w = Some index ->
  filesIndex w = (Some index, None, w).
Proof.
  intros He Hc. unfold filesIndex, indexCache_Get. by rewrite He, Hc.
Qed.

Lemma UpdateFiles_removal_of_absent (path : string) (w w0 : World)
    (p : ProjectInfo.t) (index : FilesIndex) :
  project_json w = MetaOk p ->
  filesIndex w = (Some index, None, w0) ->
  Lstat (Join path) w0 = LstatErr ErrNotExist ->
  io_fail (OpSave "filesmap.json") = false ->
  io_fail (OpSave "project.json") = false ->
  UpdateFiles (mkFilesChanges [] [path]) None w
  = (Return (Some (indexProjectFilesList (Delete path index))) None,
     set_project_json
       (MetaOk (finished_project p (Delete path index) (now w0)))
       (set_filesmap_json (Content (Some (encode_FilesIndex (Delete path index))))
          (keep_index (Delete path index) w0))).
Proof.
  intros Hp HI HL Hs1 Hs2.
  unfold UpdateFiles. rewrite (proj2 (GetProjectInfo_ok w p) Hp), HI.
  cbn [Updates Removes length Nat.ltb Nat.leb andb update_loop remove_loop].
  rewrite HL. cbn [is_not_exist].
  destruct (UpdateFiles_finish p (Delete path index) (keep_index (Delete path index) w0))
    as [r w'] eqn:HF.
  revert HF. unfold UpdateFiles_finish, save_filesmap_json, save_project_json.
  rewrite Hs1, Hs2. intros [= <- <-]. f_equal. f_equal. f_equal.
  unfold finished_project. destruct p as [t q pr st sz c l th a]; simpl.
  by destruct (String.eqb st "empty").
Qed.

(** X2: in the removal phase of [UpdateFiles] a path that is not on the disk
    is removed without error: the call succeeds, the content files are as they
    were, and the index has no entry for the path; the same call once more
    succeeds and leaves the same index. *)
Theorem UpdateFiles_removal_of_absent_target (path : string) (w w0 : World)
    (p : ProjectInfo.t) (index : FilesIndex) :
  project_json w = MetaOk p ->
  filesIndex w = (Some index, None, w0) ->
  Lstat (Join path) w0 = LstatErr ErrNotExist ->
  io_fail (OpSave "filesmap.json") = false ->
  io_fail (OpSave "project.json") = false ->
  exists files w' files' w'',
    UpdateFiles (mkFilesChanges [] [path]) None w = (Return (Some files) None, w')
    /\ disk w' = disk w
    /\ indexCache w' = Some (Delete path index)
    /\ UpdateFiles (mkFilesChanges [] [path]) None w' = (Return (Some files') None, w'')
    /\ disk w'' = disk w
    /\ indexCache w'' = Some (Delete path index).
Proof.
  intros Hp HI HL Hs1 Hs2.
  pose proof (filesIndex_frame w) as (Hd & _). rewrite HI in Hd. simpl in Hd.
  pose proof (UpdateFiles_removal_of_absent path w w0 p index Hp HI HL Hs1 Hs2) as H1.
  eexists _, _. 
  set (w' := set_project_json
       (MetaOk (finished_project p (Delete path index) (now w0)))
       (set_filesmap_json (Content (Some (encode_FilesIndex (Delete path index))))
          (keep_index (Delete path index) w0))) in *.
  assert (HL' : Lstat (Join path) w' = LstatErr ErrNotExist).
  { revert HL. unfold Lstat, is_dir. by subst w'. }
  pose proof (UpdateFiles_removal_of_absent path w' w' _ (Delete path index)
                eq_refl (filesIndex_cached w' _ eq_refl eq_refl) HL' Hs1 Hs2) as H2.
  eexists _, _. split; [exact H1|]. split; [done|]. split; [done|].
  split; [exact H2|]. split; [done|].
  cbn. by rewrite Delete_idempotent.
Qed.

(** ** The total size of an index *)

(** X3: [TotalSize] is the sum of the sizes of the entries, computed in 64
    bits: it is the exact sum whenever that fits. *)
Theorem TotalSize_is_sum_of_sizes (fi : FilesIndex) :
  TotalSize fi = wrap64 (sum_of_sizes fi)
  /\ (in_int64 (sum_of_sizes fi) -> TotalSize fi = sum_of_sizes fi).
Proof.
  assert (H : TotalSize fi = wrap64 (sum_of_sizes fi)).
  { unfold TotalSize, sum_of_sizes, range. change 0 with (wrap64 0) at 1.
    apply (foldl_add64 (fun e => FileInfo.Size (snd e))). }
  split; [done|]. intros Hin. rewrite H. by apply wrap64_small.
Qed.

(** ** The total size when entries are set and deleted *)

Lemma TotalSize_wrap (fi : FilesIndex) : TotalSize fi = wrap64 (sum_of_sizes fi).
Proof.
  unfold TotalSize, sum_of_sizes, range. change 0 with (wrap64 0) at 1.
  apply (foldl_add64 (fun e => FileInfo.Size (snd e))).
Qed.

Lemma foldl_sum_shift {A : Type} (f : A -> Z) (l : list A) (a : Z) :
  foldl (fun sum e => sum + f e) a l = a + foldl (fun sum e => sum + f e) 0 l.
Proof.
  revert a. induction l as [|e l IH]; intros a; cbn [foldl]; [lia|].
  rewrite (IH (a + f e)), (IH (0 + f e)). lia.
Qed.

Lemma sum_of_sizes_insert (path : string) (info : FileInfo.t)
    (m : gmap string FileInfo.t) :
  m !! path = None ->
  sum_of_sizes (mkFilesIndex (<[path := info]> m))
  = sum_of_sizes (mkFilesIndex m) + FileInfo.Size info.
Proof.
  intros Hm. unfold sum_of_sizes. cbn [Index].
  rewrite (foldl_sum_any_order (fun e => FileInfo.Size (snd e)) _
             ((path, info) :: map_to_list m) 0 (map_to_list_insert m path info Hm)).
  cbn [foldl snd]. rewrite foldl_sum_shift. lia.
Qed.

Lemma sum_of_sizes_Set (path : string) (info : FileInfo.t) (fi : FilesIndex) :
  sum_of_sizes (Set_ path info fi)
  = sum_of_sizes (Delete path fi) + FileInfo.Size info.
Proof.
  unfold Set_, Delete. rewrite <- (insert_delete_eq (Index fi)).
  apply sum_of_sizes_insert, lookup_delete_eq.
Qed.

Lemma sum_of_sizes_Delete (path : string) (fi : FilesIndex) :
  sum_of_sizes fi
  = sum_of_sizes (Delete path fi)
    + match Index fi !! path with
      | Some old => FileInfo.Size old
      | None => 0
      end.
Proof.
  destruct fi as [m]. cbn [Index]. destruct (m !! path) as [old|] eqn:Hm.
  - rewrite <- (insert_id m path old Hm) at 1.
    apply (sum_of_sizes_Set path old (mkFilesIndex m)).
  - unfold Delete. cbn [Index]. rewrite delete_id by done. lia.
Qed.

(** X4: the total size after [Set] is the total size without the entry of
    the path plus the size that was set (in 64 bits), and the total size of an
    index is the total size without an entry plus the size of that entry: an
    entry that is overwritten counts once, with its new size. *)
Theorem TotalSize_Set_replaces (path : string) (info : FileInfo.t) (fi : FilesIndex) :
  TotalSize (Set_ path info fi)
    = add64 (TotalSize (Delete path fi)) (FileInfo.Size info)
  /\ TotalSize fi
     = add64 (TotalSize (Delete path fi)) (FileInfo.Size (fst (Get path fi)))
  /\ fst (Get path (Set_ path info fi)) = info.
Proof.
  rewrite !TotalSize_wrap. unfold add64. rewrite !wrap64_add_l.
  repeat split.
  - by rewrite sum_of_sizes_Set.
  - rewrite (sum_of_sizes_Delete path fi) at 1. unfold Get.
    by destruct (Index fi !! path).
  - unfold Get, Set_. cbn [Index]. by rewrite lookup_insert_eq.
Qed.

(** ** The projected size and the removals *)

(** X5: the projected size that [UpdateFiles] checks against the limit counts
    a removal only through the entry of the index that has the removed path as
    its key.  A path without an entry of its own, such as a directory, takes
    nothing off the projected size, although the removal phase deletes every
    entry below a directory. *)
Theorem calcNewSize_removal_without_entry (index : FilesIndex)
    (updates : list ProjectFile.t) (path : string) (removes : list string) :
  Index index !! path = None ->
  calcNewSize index (mkFilesChanges updates (path :: removes))
  = calcNewSize index (mkFilesChanges updates removes).
Proof.
  intros Hp. rewrite !calcNewSize_projected. f_equal.
  unfold projected_size, projected_sizes. cbn [Removes Updates foldl].
  rewrite delete_id; [done|]. by rewrite lookup_fmap, Hp.
Qed.

(** ** The scan and the listing *)

(** X6: the scan lists a path exactly when a content file is there, outside
    the control directory, whose name does not end in [~] and which the
    pattern of the excluded extensions does not match; the entry holds the
    size and the time of the file, and no checksum. *)
Theorem createFilesMap_lists (w : World) :
  io_fail OpWalk = false ->
  snd (createFilesMap w) = None
  /\ forall relPath info,
      fst (createFilesMap w) !! relPath = Some info <->
      exists f, disk w !! relPath = Some f
                /\ info = FileInfo.mk "" (fileSize f) (modTime f)
                /\ HasPrefix relPath ".gisquick/" = false
                /\ HasSuffix relPath "~" = false
                /\ excludeExtRegex_Match relPath = false.
Proof.
  intros Hw. unfold createFilesMap. rewrite Hw. split; [done|].
  intros relPath info. cbn [fst]. rewrite lookup_fmap, fmap_Some.
  setoid_rewrite map_lookup_filter_Some. unfold scanned. cbn [fst].
  split.
  - intros (f & [Hf Hs] & ->). exists f.
    apply andb_true_iff in Hs as [Hs H3]. apply andb_true_iff in Hs as [H1 H2].
    apply negb_true_iff in H1, H2, H3. by repeat split.
  - intros (f & Hf & -> & H1 & H2 & H3). exists f. split; [|done].
    split; [done|]. by rewrite H1, H2, H3.
Qed.

Lemma list_loop_false (l : list (string * FileInfo.t)) (idx : FilesIndex)
    (upd : bool) (files : list ProjectFile.t) (w : World) :
  list_loop l false idx upd files w
  = (None, idx, upd, (files ++ (listed_without_hash <$> l))%list, w).
Proof.
  revert files. induction l as [|[path info] l IH]; intros files.
  - cbn. by rewrite app_nil_r.
  - cbn [list_loop]. rewrite IH. cbn [fmap list_fmap]. by rewrite <- app_assoc.
Qed.

(** The flag after the loop that cleans the index. *)
Lemma purge_flag (filesMap : gmap string FileInfo.t) (l : list (string * FileInfo.t))
    (idx : FilesIndex) (u : bool) :
  snd (foldl (purge_step filesMap) (idx, u) l)
  = u || existsb (fun e => bool_decide (filesMap !! fst e = None)) l.
Proof.
  revert idx u. induction l as [|[k v] l IH]; intros idx u.
  - cbn. by rewrite orb_false_r.
  - cbn [foldl existsb]. unfold purge_step at 2. cbn [fst snd].
    destruct (filesMap !! k) eqn:Hk.
    + rewrite bool_decide_eq_false_2 by done. by rewrite IH.
    + rewrite bool_decide_eq_true_2 by done. rewrite IH. cbn.
      by rewrite orb_true_r.
Qed.

(** X7: without checksums, [ListProjectFiles] returns one entry for every
    scanned file, with the size and the time of the scan and an empty
    checksum; it calls [Checksum] for no file and leaves the content files as
    they are; every entry of the index whose path the scan found stays as it
    was, also when its time differs from the scan, and every other entry is
    deleted. *)
Theorem ListProjectFiles_without_checksum (w w0 : World) (index : FilesIndex)
    (filesMap : gmap string FileInfo.t) :
  CheckProjectExists w = true ->
  createFilesMap w = (filesMap, None) ->
  filesIndex w = (Some index, None, w0) ->
  exists w' index',
    ListProjectFiles false w
      = (Return (Some (listed_without_hash <$> range filesMap)) None, w')
    /\ checksum_calls w' = checksum_calls w0
    /\ disk w' = disk w
    /\ indexCache w' = Some index'
    /\ (forall path,
           Index index' !! path =
             match filesMap !! path with
             | None => None
             | Some _ => Index index !! path
             end).
Proof.
  intros HE HS HI.
  pose proof (filesIndex_frame w) as (Hd & _). rewrite HI in Hd. simpl in Hd.
  unfold ListProjectFiles. rewrite HE, HS, HI. cbn [negb].
  rewrite list_loop_false. cbn [app].
  pose proof (purge_lookup filesMap index false) as Hpurge.
  destruct (foldl (purge_step filesMap) _ _) as [index2 upd2]. cbn [fst] in Hpurge.
  destruct upd2.
  - destruct (GetProjectInfo _) as [projectInfo e].
    match goal with
    | |- context [save_project_json ?i ?w1] =>
        destruct (save_project_json_frame i w1) as (Hd2 & _ & _ & _ & Hc2 & _ & Hcalls2 & _)
    end.
    eexists _, index2. split; [reflexivity|]. split; [rewrite Hcalls2; reflexivity|].
    split; [rewrite Hd2; exact Hd|]. split; [rewrite Hc2; reflexivity|done].
  - eexists _, index2. split; [reflexivity|]. by repeat split.
Qed.

(** The result of [ListProjectFiles] with checksums, and the state it
    leaves. *)
Lemma ListProjectFiles_true_ok (w w0 : World) (index : FilesIndex)
    (filesMap : gmap string FileInfo.t) :
  CheckProjectExists w = true ->
  createFilesMap w = (filesMap, None) ->
  filesIndex w = (Some index, None, w0) ->
  (forall path info,
      filesMap !! path = Some info -> cache_hit index path info = false ->
      snd (Checksum (Join path) w) = None) ->
  exists w' index',
    ListProjectFiles true w
      = (Return (Some (reconciled_file index w <$> range filesMap)) None, w')
    /\ checksum_calls w'
       = (rev (Join <$> misses index (range filesMap)) ++ checksum_calls w0)%list
    /\ indexCache w' = Some index'
    /\ disk w' = disk w
    /\ CheckProjectExists w' = true
    /\ (forall path,
           Index index' !! path =
             match filesMap !! path with
             | None => None
             | Some info =>
                 if cache_hit index path info then Index index !! path
                 else Some (hashed w path info)
             end).
Proof.
  intros HE HS HI Hok.
  pose proof (filesIndex_frame w) as (Hd & Hpj & _). rewrite HI in Hd, Hpj.
  simpl in Hd, Hpj.
  unfold ListProjectFiles. rewrite HE, HS, HI. cbn [negb].
  rewrite (list_loop_ok index w (range filesMap) index false [] w0);
    [|apply NoDup_fst_map_to_list|done|done|].
  2:{ apply Forall_forall. intros [path info] Hin Hmiss.
      apply elem_of_map_to_list in Hin. by apply (Hok path info). }
  cbn [app orb].
  pose proof (purge_lookup filesMap
                (foldl (reconcile_step index w) index (range filesMap))
                (existsb (fun e => negb (cache_hit index (fst e) (snd e)))
                         (range filesMap))) as Hpurge.
  destruct (foldl (purge_step filesMap) _ _) as [index2 upd2]. cbn [fst] in Hpurge.
  destruct (log_calls_frame (Join <$> misses index (range filesMap)) w0)
    as (Hd' & Hpj' & _ & _ & _ & Hcalls).
  assert (Hlookup : forall path,
             Index index2 !! path =
               match filesMap !! path with
               | None => None
               | Some info =>
                   if cache_hit index path info then Index index !! path
                   else Some (hashed w path info)
               end).
  { intros path. rewrite Hpurge, reconcile_lookup. by destruct (filesMap !! path). }
  assert (HE' : CheckProjectExists
                  (keep_index index2 (log_calls (Join <$> misses index (range filesMap)) w0))
                = true).
  { unfold CheckProjectExists in *. cbn. by rewrite Hpj', Hpj. }
  destruct upd2.
  - destruct (GetProjectInfo _) as [projectInfo e].
    match goal with
    | |- context [save_project_json ?i ?w1] =>
        destruct (save_project_json_frame i w1)
          as (Hd2 & _ & _ & _ & Hc2 & _ & Hcalls2 & HE2)
    end.
    eexists _, index2. split; [reflexivity|]. split; [rewrite Hcalls2; exact Hcalls|].
    split; [rewrite Hc2; reflexivity|]. split; [rewrite Hd2; cbn; congruence|].
    split; [by apply HE2|done].
  - eexists _, index2. split; [reflexivity|]. repeat split; try done.
    cbn. congruence.
Qed.

(** X8: a listing with checksums that is repeated, with the content files as
    the first call left them, calls [Checksum] for no file, and returns the
    entries that the first call returned (in the order in which the map of the
    scan is visited); the index stays as the first call left it. *)
Theorem ListProjectFiles_repeated (w w0 : World) (index : FilesIndex)
    (filesMap : gmap string FileInfo.t) :
  CheckProjectExists w = true ->
  createFilesMap w = (filesMap, None) ->
  filesIndex w = (Some index, None, w0) ->
  (forall path info,
      filesMap !! path = Some info -> cache_hit index path info = false ->
      snd (Checksum (Join path) w) = None) ->
  exists files1 files2 w1 w2,
    ListProjectFiles true w = (Return (Some files1) None, w1)
    /\ ListProjectFiles true w1 = (Return (Some files2) None, w2)
    /\ files2 ≡ₚ files1
    /\ checksum_calls w2 = checksum_calls w1
    /\ indexCache w2 = indexCache w1.
Proof.
  intros HE HS HI Hok.
  destruct (ListProjectFiles_true_ok w w0 index filesMap HE HS HI Hok)
    as (w1 & index1 & H1 & _ & Hc1 & Hd1 & HE1 & Hl1).
  assert (HS1 : createFilesMap w1 = (filesMap, None)).
  { revert HS. unfold createFilesMap. by rewrite Hd1. }
  assert (Hhit : forall path info,
             filesMap !! path = Some info -> cache_hit index1 path info = true).
  { intros path info Hin. apply cache_hit_spec. rewrite Hl1, Hin.
    destruct (cache_hit index path info) eqn:Hh.
    - by apply cache_hit_spec in Hh.
    - by eexists. }
  destruct (ListProjectFiles_true_ok w1 w1 index1 filesMap HE1 HS1
              (filesIndex_cached w1 index1 HE1 Hc1))
    as (w2 & index2 & H2 & Hcalls & Hc2 & _ & _ & Hl2).
  { intros path info Hin Hmiss. rewrite (Hhit path info Hin) in Hmiss. done. }
  exists (reconciled_file index w <$> range filesMap),
    (reconciled_file index1 w1 <$> range filesMap), w1, w2.
  split; [done|]. split; [done|]. split; [|split].
  - assert (Heq : reconciled_file index1 w1 <$> range filesMap
                  = reconciled_file index w <$> range filesMap); [|by rewrite Heq].
    apply list_fmap_ext.
    intros i [path info] Hin. apply list_elem_of_lookup_2, elem_of_map_to_list in Hin.
    unfold reconciled_file. cbn [fst snd]. rewrite (Hhit path info Hin).
    f_equal. unfold Get. rewrite Hl1, Hin.
    destruct (cache_hit index path info); [done|].
    unfold hashed. cbn. done.
  - rewrite Hcalls.
    assert (misses index1 (range filesMap) = []) as ->; [|done].
    apply elem_of_nil_inv. intros path Hp.
    apply (proj2 (misses_spec index1 filesMap)) in Hp as (info & Hin & Hmiss).
    rewrite (Hhit path info Hin) in Hmiss. done.
  - rewrite Hc1, Hc2. f_equal. destruct index1 as [m1], index2 as [m2].
    f_equal. apply map_eq. intros path. cbn [Index] in *. rewrite Hl2, Hl1.
    destruct (filesMap !! path) as [info|] eqn:Hin; [|done].
    by rewrite (Hhit path info Hin).
Qed.

(** X9: when [ListProjectFiles] changes the index and the metadata cannot be
    read or parsed, the error is only logged: the metadata file is written
    anew from the record that was read in part (the empty record when nothing
    was read), with the total size of the index. *)
Theorem ListProjectFiles_rewrites_damaged_metadata (w w0 : World) (index : FilesIndex)
    (filesMap : gmap string FileInfo.t) (partial : ProjectInfo.t) (e : error)
    (q : string) :
  CheckProjectExists w = true ->
  GetProjectInfo w = (partial, Some e) ->
  createFilesMap w = (filesMap, None) ->
  filesIndex w = (Some index, None, w0) ->
  is_Some (Index index !! q) ->
  filesMap !! q = None ->
  io_fail (OpSave "project.json") = false ->
  exists w' index',
    ListProjectFiles false w
      = (Return (Some (listed_without_hash <$> range filesMap)) None, w')
    /\ indexCache w' = Some index'
    /\ Index index' !! q = None
    /\ project_json w' = MetaOk (ProjectInfo.set_Size (TotalSize index') partial).
Proof.
  intros HE HG HS HI [info Hq] Hnot Hio.
  pose proof (filesIndex_frame w) as (_ & Hpj & _). rewrite HI in Hpj. simpl in Hpj.
  unfold ListProjectFiles. rewrite HE, HS, HI. cbn [negb].
  rewrite list_loop_false. cbn [app].
  pose proof (purge_lookup filesMap index false q) as Hpurge.
  pose proof (purge_flag filesMap (range (Index index)) index false) as Hflag.
  destruct (foldl (purge_step filesMap) _ _) as [index2 upd2].
  cbn [fst snd] in Hpurge, Hflag. rewrite Hnot in Hpurge.
  assert (upd2 = true) as ->.
  { rewrite Hflag. cbn [orb]. apply existsb_exists. exists (q, info).
    split; [by apply list_elem_of_In, elem_of_map_to_list|].
    cbn. by apply bool_decide_eq_true_2. }
  assert (HG' : GetProjectInfo (keep_index index2 w0) = (partial, Some e)).
  { revert HG. unfold GetProjectInfo. cbn. by rewrite Hpj. }
  rewrite HG'. unfold save_project_json. rewrite Hio.
  eexists _, index2. split; [reflexivity|]. by repeat split.
Qed.

(** X10: when the snapshot of the index cannot be used and the checksum of a
    scanned file cannot be computed, the cache has no index to give:
    [UpdateFiles] and [RemoveFiles] return an error, and [ListProjectFiles],
    which logs the error and goes on with the nil index, panics. *)
Theorem operations_without_index (w : World) (p : ProjectInfo.t)
    (m files : gmap string FileInfo.t) (e : error) (path : string)
    (info : FilesChanges) (next : option (list upload)) (paths : list string)
    (checksum : bool) :
  project_json w = MetaOk p ->
  indexCache w = None ->
  loadFilesIndex w = (m, Some e) ->
  createFilesMap w = (files, None) ->
  is_Some (files !! path) ->
  is_Some (snd (Checksum (Join path) w)) ->
  fst (UpdateFiles info next w)
    = Return None (Some (Errorf "loading project files index"))
  /\ fst (RemoveFiles paths w)
     = Return None (Some (Errorf "loading project files index"))
  /\ fst (ListProjectFiles checksum w) = Panic.
Proof.
  intros Hp Hc Hl Hs [fi Hin] [e' He'].
  assert (HE : CheckProjectExists w = true).
  { unfold CheckProjectExists. by rewrite Hp. }
  assert (HG : GetProjectInfo w = (p, None)).
  { unfold GetProjectInfo. by rewrite Hp. }
  assert (HL : fst (loader w) = None).
  { unfold loader. rewrite Hl, Hs.
    pose proof (loader_hash_loop_fails (range files) files w w eq_refl) as Hf.
    destruct (loader_hash_loop _ _ _) as [[files'|] w1]; [|done].
    simpl in Hf. discriminate Hf.
    apply Exists_exists. exists (path, fi). split; [by apply elem_of_map_to_list|].
    cbn. by rewrite He'. }
  assert (HI : exists w0,
             filesIndex w = (None, Some (Errorf "loading project files index"), w0)).
  { unfold filesIndex, indexCache_Get. rewrite HE, Hc. cbn [negb].
    destruct (loader w) as [[i|] w1]; [done|]. by eexists. }
  destruct HI as [w0 HI].
  repeat split.
  - unfold UpdateFiles. by rewrite HG, HI.
  - unfold RemoveFiles. by rewrite HG, HI.
  - unfold ListProjectFiles. by rewrite HE, Hs, HI.
Qed.

(** ** What [UpdateFiles] and [RemoveFiles] return and store *)

Lemma indexProjectFilesList_elem (index : FilesIndex) (f : ProjectFile.t) :
  f ∈ indexProjectFilesList index <->
  Index index !! ProjectFile.Path f
  = Some (FileInfo.mk (ProjectFile.Hash f) (ProjectFile.Size f) (ProjectFile.Mtime f)).
Proof.
  unfold indexProjectFilesList, range.
  rewrite list_elem_of_In, in_map_iff. split.
  - intros ([path [h sz mt]] & <- & Hin). cbn.
    by apply list_elem_of_In, elem_of_map_to_list in Hin.
  - intros Hin. destruct f as [path h sz mt]. cbn in Hin.
    exists (path, FileInfo.mk h sz mt). split; [done|].
    by apply list_elem_of_In, elem_of_map_to_list.
Qed.

Lemma indexProjectFilesList_paths (index : FilesIndex) :
  NoDup (ProjectFile.Path <$> indexProjectFilesList index).
Proof.
  unfold indexProjectFilesList, range.
  assert (H : forall l : list (string * FileInfo.t),
             ProjectFile.Path <$>
               map (fun e => ProjectFile.mk (fst e) (FileInfo.Hash (snd e))
                               (FileInfo.Size (snd e)) (FileInfo.Mtime (snd e))) l
             = l.*1).
  { induction l as [|e l IH]; [done|]. cbn. by rewrite <- IH. }
  rewrite H. apply NoDup_fst_map_to_list.
Qed.

(** X11: a call of [UpdateFiles] that succeeds returns the entries of the
    index it leaves in the cache, one for every path; the metadata it writes
    holds the total size of that index and the time of the call, the state
    [staged] when it was [empty], and every other field as it was. *)
Theorem UpdateFiles_result (info : FilesChanges) (next : option (list upload))
    (w w' : World) (files : list ProjectFile.t) :
  UpdateFiles info next w = (Return (Some files) None, w') ->
  exists (index : FilesIndex) (p p' : ProjectInfo.t),
    indexCache w' = Some index
    /\ project_json w = MetaOk p
    /\ project_json w' = MetaOk p'
    /\ (forall f, f ∈ files <->
          Index index !! ProjectFile.Path f
          = Some (FileInfo.mk (ProjectFile.Hash f) (ProjectFile.Size f)
                              (ProjectFile.Mtime f)))
    /\ NoDup (ProjectFile.Path <$> files)
    /\ ProjectInfo.Size p' = TotalSize index
    /\ ProjectInfo.LastUpdate p' = now w'
    /\ ProjectInfo.State p'
       = (if String.eqb (ProjectInfo.State p) "empty" then "staged"
          else ProjectInfo.State p)
    /\ ProjectInfo.Title p' = ProjectInfo.Title p
    /\ ProjectInfo.QgisFile p' = ProjectInfo.QgisFile p
    /\ ProjectInfo.Projection p' = ProjectInfo.Projection p
    /\ ProjectInfo.Created p' = ProjectInfo.Created p
    /\ ProjectInfo.Thumbnail p' = ProjectInfo.Thumbnail p
    /\ ProjectInfo.Authentication p' = ProjectInfo.Authentication p.
Proof.
  intros H. apply UpdateFiles_success_inv in H
    as (p & index0 & index1 & index2 & w0 & w1 & w2 & Hp & _ & _ & _ & _ & -> & ->).
  exists index2, p, (finished_project p index2 (now w2)).
  repeat split; try done.
  - by apply indexProjectFilesList_elem.
  - by apply indexProjectFilesList_elem.
  - apply indexProjectFilesList_paths.
Qed.

(** The loop over the declared updates, when it runs to its end. *)
Lemma update_loop_success (files : list ProjectFile.t) (next : list upload)
    (index index' : FilesIndex) (w w' : World) :
  update_loop files next index w = (None, index', w') ->
  Forall2 delivers files (take (length files) next)
  /\ Index index'
     = foldl (fun m fu => <[ProjectFile.Path (fst fu) := stored_entry (now w) fu]> m)
             (Index index) (zip files next)
  /\ disk w'
     = foldl (fun d fu => <[Join (ProjectFile.Path (fst fu)) := stored_file (now w) fu]> d)
             (disk w) (zip files next)
  /\ now w' = now w.
Proof.
  revert next index w. induction files as [|d files IH]; intros next index w.
  - cbn. intros [= <- <-]. repeat split. constructor.
  - cbn [update_loop]. destruct next as [|[e|path rd] next']; try discriminate.
    destruct (String.eqb (ProjectFile.Path d) path) eqn:Hpath; [|discriminate].
    apply String.eqb_eq in Hpath. subst path. cbn [negb].
    unfold saveToFile2. destruct (io_fail (OpCreate _)); [discriminate|].
    destruct rd as [content|]; [|discriminate].
    unfold Stat. destruct (io_fail (OpStat _)); [discriminate|].
    cbn [disk set_disk]. rewrite lookup_insert_eq.
    destruct (ProjectFile.Size d =? fileSize (mkDiskFile content (now w))) eqn:Hsz;
      [|discriminate].
    apply Z.eqb_eq in Hsz. cbn [negb modTime]. intros H.
    apply IH in H as (HF & Hi & Hd & Hn). cbn in Hn.
    repeat split; [|done|done|done].
    cbn [length take]. constructor; [|done].
    split; [done|]. exact Hsz.
Qed.

Lemma foldl_insert_not_elem {A B : Type} (key : A -> string) (val : A -> B)
    (l : list A) (m : gmap string B) (k : string) :
  k ∉ key <$> l ->
  foldl (fun m x => <[key x := val x]> m) m l !! k = m !! k.
Proof.
  revert m. induction l as [|a l IH]; intros m Hk; [done|].
  cbn [foldl]. rewrite fmap_cons in Hk. apply not_elem_of_cons in Hk as [Hne Hk].
  rewrite IH by done. by rewrite lookup_insert_ne.
Qed.

(** The entry that is written last for a key is the one a loop of writes
    leaves. *)
Lemma foldl_insert_last {A B : Type} (key : A -> string) (val : A -> B)
    (l : list A) (m : gmap string B) (i : nat) (a : A) :
  l !! i = Some a ->
  (forall j b, l !! j = Some b -> (i < j)%nat -> key b <> key a) ->
  foldl (fun m x => <[key x := val x]> m) m l !! key a = Some (val a).
Proof.
  revert m i. induction l as [|x l IH]; intros m i Hi Hlast; [done|].
  destruct i as [|i]; cbn [foldl].
  - injection Hi as ->. rewrite foldl_insert_not_elem.
    + by rewrite lookup_insert_eq.
    + intros Hin. apply list_elem_of_fmap in Hin as (b & Hb & Hin).
      apply list_elem_of_lookup_1 in Hin as [j Hj].
      apply (Hlast (S j) b); [done|lia|done].
  - apply (IH _ i); [done|]. intros j b Hj Hlt. apply (Hlast (S j) b); [done|lia].
Qed.

(** The updates that a call of [UpdateFiles] without removals applied, as
    the loops of writes that they are. *)
Lemma UpdateFiles_updates_inv (updates : list ProjectFile.t)
    (next : option (list upload)) (w w' : World) (files : list ProjectFile.t) :
  UpdateFiles (mkFilesChanges updates []) next w = (Return (Some files) None, w') ->
  exists (index0 index' : FilesIndex) (w0 : World),
    filesIndex w = (Some index0, None, w0)
    /\ indexCache w' = Some index'
    /\ Forall2 delivers updates (take (length updates) (default [] next))
    /\ Index index'
       = foldl (fun m fu => <[ProjectFile.Path (fst fu) := stored_entry (now w) fu]> m)
               (Index index0) (zip updates (default [] next))
    /\ disk w'
       = foldl (fun d fu => <[Join (ProjectFile.Path (fst fu)) := stored_file (now w) fu]> d)
               (disk w) (zip updates (default [] next)).
Proof.
  intros H. apply UpdateFiles_success_inv in H
    as (p & index0 & index1 & index2 & w0 & w1 & w2 & Hp & HI & HU & HR & _ & _ & ->).
  cbn [Updates Removes remove_loop] in HU, HR. injection HR as <- <-.
  pose proof (filesIndex_frame w) as (Hd0 & _ & _ & _ & _ & Hnow).
  rewrite HI in Hd0, Hnow. cbn [snd] in Hd0, Hnow.
  apply update_loop_success in HU as (HF & Hi & Hd & _). rewrite Hnow in Hi, Hd.
  rewrite Hd0 in Hd. exists index0, index1, w0. by repeat split.
Qed.

(** The item of the upload source that came for a declared update. *)
Lemma delivered_lookup (updates : list ProjectFile.t) (next : list upload)
    (i : nat) (f : ProjectFile.t) :
  Forall2 delivers updates (take (length updates) next) ->
  updates !! i = Some f ->
  exists u, next !! i = Some u /\ delivers f u /\ zip updates next !! i = Some (f, u).
Proof.
  intros HF Hf.
  destruct (Forall2_lookup_l _ _ _ _ _ HF Hf) as (u & Hu & Hdel).
  apply lookup_take_Some in Hu as [Hu _].
  exists u. split; [done|]. split; [done|].
  apply lookup_zip_with_Some. by exists f, u.
Qed.

(** X12: after a call of [UpdateFiles] without removals that succeeds, every
    declared update got its item from the upload source, in the order of the
    declaration, with the declared path and a content of the declared size;
    the index holds for its path the SHA-1 of that content in hexadecimal
    digits, the declared size and the time the file was written, unless a
    later update declares the same path; and the entries of the paths that
    were not declared are the entries from before the call. *)
Theorem UpdateFiles_stores_updates (updates : list ProjectFile.t)
    (next : option (list upload)) (w w' : World) (files : list ProjectFile.t) :
  UpdateFiles (mkFilesChanges updates []) next w = (Return (Some files) None, w') ->
  exists (index0 index' : FilesIndex) (w0 : World),
    filesIndex w = (Some index0, None, w0)
    /\ indexCache w' = Some index'
    /\ (forall i f, updates !! i = Some f ->
          exists u, default [] next !! i = Some u
            /\ delivers f u
            /\ ((forall j f', updates !! j = Some f' -> (i < j)%nat ->
                   ProjectFile.Path f' <> ProjectFile.Path f) ->
                Index index' !! ProjectFile.Path f = Some (stored_entry (now w) (f, u)))
            /\ ((forall j f', updates !! j = Some f' -> (i < j)%nat ->
                   Join (ProjectFile.Path f') <> Join (ProjectFile.Path f)) ->
                disk w' !! Join (ProjectFile.Path f) = Some (stored_file (now w) (f, u))))
    /\ (forall path, path ∉ ProjectFile.Path <$> updates ->
          Index index' !! path = Index index0 !! path).
Proof.
  intros H. apply UpdateFiles_updates_inv in H
    as (index0 & index' & w0 & HI & Hc & HF & Hi & Hd).
  exists index0, index', w0. split; [done|]. split; [done|]. split.
  - intros i f Hf.
    destruct (delivered_lookup _ _ i f HF Hf) as (u & Hu & Hdel & Hz).
    exists u. split; [done|]. split; [done|]. split.
    + intros Hlast. rewrite Hi.
      apply (foldl_insert_last (fun fu => ProjectFile.Path (fst fu))
               (stored_entry (now w)) _ _ i (f, u) Hz).
      intros j [f' u'] Hj Hlt. apply lookup_zip_with_Some in Hj
        as (f'' & u'' & [= <- <-] & Hj & _).
      by apply (Hlast j).
    + intros Hlast. rewrite Hd.
      apply (foldl_insert_last (fun fu => Join (ProjectFile.Path (fst fu)))
               (stored_file (now w)) _ _ i (f, u) Hz).
      intros j [f' u'] Hj Hlt. apply lookup_zip_with_Some in Hj
        as (f'' & u'' & [= <- <-] & Hj & _).
      by apply (Hlast j).
  - intros path Hpath. rewrite Hi.
    apply (foldl_insert_not_elem (fun fu => ProjectFile.Path (fst fu))).
    intros Hin. apply Hpath. apply list_elem_of_fmap in Hin as ([f u] & -> & Hin).
    apply list_elem_of_lookup_1 in Hin as [j Hj].
    apply lookup_zip_with_Some in Hj as (f'' & u'' & [= <- <-] & Hj & _).
    apply list_elem_of_fmap. exists f. split; [done|].
    by apply list_elem_of_lookup_2 in Hj.
Qed.

(** X13: when the content of the first declared update cannot be read to its
    end, [UpdateFiles] returns the error, and the file at the location of the
    update is gone, also one that was there before the call; the index keeps
    every entry, the one of that path included, and nothing is saved. *)
Theorem UpdateFiles_failed_upload_removes_file (f : ProjectFile.t)
    (updates : list ProjectFile.t) (removes : list string) (uploads : list upload)
    (w w0 : World) (p : ProjectInfo.t) (index : FilesIndex) :
  project_json w = MetaOk p ->
  filesIndex w = (Some index, None, w0) ->
  (0 <? MaxProjectSize s)
    && (MaxProjectSize s <? calcNewSize index (mkFilesChanges (f :: updates) removes))
    = false ->
  io_fail (OpCreate (Join (ProjectFile.Path f))) = false ->
  exists w',
    UpdateFiles (mkFilesChanges (f :: updates) removes)
                (Some (NextFile (ProjectFile.Path f) ReadFails :: uploads)) w
    = (Return None (Some ErrIO), w')
    /\ disk w' = delete (Join (ProjectFile.Path f)) (disk w)
    /\ indexCache w' = Some index
    /\ filesmap_json w' = filesmap_json w
    /\ project_json w' = project_json w.
Proof.
  intros Hp HI Hsize Hio.
  pose proof (filesIndex_frame w) as (Hd & Hpj & Hfm & _).
  rewrite HI in Hd, Hpj, Hfm. cbn [snd] in Hd, Hpj, Hfm.
  unfold UpdateFiles, GetProjectInfo. rewrite Hp, HI.
  cbn [Updates Removes length Nat.ltb Nat.leb andb]. rewrite Hsize.
  rewrite bool_decide_eq_false_2 by done.
  cbn [default from_option update_loop]. unfold id.
  rewrite String.eqb_refl. cbn [negb]. unfold saveToFile2. rewrite Hio.
  eexists. split; [reflexivity|]. cbn. repeat split; congruence.
Qed.

(** X14: when the content that arrives for the first declared update has
    another size than the declared one, [UpdateFiles] returns an error after
    the content was written: the file at the location of the update holds the
    new content, the index keeps the entries from before the call, and
    nothing is saved. *)
Theorem UpdateFiles_size_mismatch_keeps_upload (f : ProjectFile.t)
    (content : string) (updates : list ProjectFile.t) (removes : list string)
    (uploads : list upload) (w w0 : World) (p : ProjectInfo.t) (index : FilesIndex) :
  project_json w = MetaOk p ->
  filesIndex w = (Some index, None, w0) ->
  (0 <? MaxProjectSize s)
    && (MaxProjectSize s <? calcNewSize index (mkFilesChanges (f :: updates) removes))
    = false ->
  io_fail (OpCreate (Join (ProjectFile.Path f))) = false ->
  io_fail (OpStat (Join (ProjectFile.Path f))) = false ->
  ProjectFile.Size f <> Z.of_nat (String.length content) ->
  exists w',
    UpdateFiles (mkFilesChanges (f :: updates) removes)
                (Some (NextFile (ProjectFile.Path f) (Reads content) :: uploads)) w
    = (Return None
         (Some (Errorf ("declared file info doesn't match: " +:+ ProjectFile.Path f))),
       w')
    /\ disk w' = <[Join (ProjectFile.Path f) := mkDiskFile content (now w)]> (disk w)
    /\ indexCache w' = Some index
    /\ filesmap_json w' = filesmap_json w
    /\ project_json w' = project_json w.
Proof.
  intros Hp HI Hsize Hio Hstat Hne.
  pose proof (filesIndex_frame w) as (Hd & Hpj & Hfm & _ & _ & Hnow).
  rewrite HI in Hd, Hpj, Hfm, Hnow. cbn [snd] in Hd, Hpj, Hfm, Hnow.
  unfold UpdateFiles, GetProjectInfo. rewrite Hp, HI.
  cbn [Updates Removes length Nat.ltb Nat.leb andb]. rewrite Hsize.
  rewrite bool_decide_eq_false_2 by done.
  cbn [default from_option update_loop]. unfold id.
  rewrite String.eqb_refl. cbn [negb]. unfold saveToFile2, Stat. rewrite Hio, Hstat.
  cbn [disk set_disk]. rewrite lookup_insert_eq.
  assert ((ProjectFile.Size f =? fileSize (mkDiskFile content (now w0))) = false) as ->.
  { apply Z.eqb_neq. exact Hne. }
  cbn [negb]. eexists. split; [reflexivity|]. cbn. repeat split; congruence.
Qed.

(** ** The removals *)

Lemma is_dir_true (path : string) (w : World) :
  is_dir path w = true <->
  exists k, is_Some (disk w !! k) /\ HasPrefix k (path +:+ Separator) = true.
Proof.
  unfold is_dir. rewrite existsb_exists. split.
  - intros ([k f] & Hin & Hp). exists k. split; [|done].
    exists f. by apply elem_of_map_to_list, list_elem_of_In.
  - intros (k & [f Hf] & Hp). exists (k, f). split; [|done].
    by apply list_elem_of_In, elem_of_map_to_list.
Qed.

(** No directory appears where files are only taken away. *)
Lemma is_dir_shrink (path : string) (w w' : World) :
  (forall k f, disk w' !! k = Some f -> is_Some (disk w !! k)) ->
  is_dir path w = false -> is_dir path w' = false.
Proof.
  intros Hsub Hw. destruct (is_dir path w') eqn:Hw'; [|done].
  apply is_dir_true in Hw' as (k & [f Hf] & Hp).
  assert (is_dir path w = true); [|congruence].
  apply is_dir_true. exists k. split; [|done]. by apply (Hsub k f).
Qed.

(** The loop of [RemoveFiles], when it runs to its end, only takes away. *)
Lemma RemoveFiles_loop_success (paths : list string) (index index' : FilesIndex)
    (w w' : World) :
  RemoveFiles_loop paths index w = (None, index', w') ->
  (forall k f, disk w' !! k = Some f -> disk w !! k = Some f)
  /\ (forall path, path ∈ paths -> disk w' !! Join path = None)
  /\ (forall q v, Index index' !! q = Some v -> Index index !! q = Some v).
Proof.
  revert index w. induction paths as [|path paths IH]; intros index w.
  - cbn. intros [= <- <-]. repeat split; try done. intros path Hin.
    by apply elem_of_nil in Hin.
  - cbn [RemoveFiles_loop].
    assert (Hstep : forall index1 w1,
               (forall k f, disk w1 !! k = Some f -> disk w !! k = Some f) ->
               disk w1 !! Join path = None ->
               (forall q v, Index index1 !! q = Some v -> Index index !! q = Some v) ->
               RemoveFiles_loop paths index1 w1 = (None, index', w') ->
               (forall k f, disk w' !! k = Some f -> disk w !! k = Some f)
               /\ (forall p, p ∈ path :: paths -> disk w' !! Join p = None)
               /\ (forall q v, Index index' !! q = Some v -> Index index !! q = Some v)).
    { intros index1 w1 Hd Hp Hi H. apply IH in H as (Hd' & Hp' & Hi').
      split; [|split].
      - intros k f Hk. by apply Hd, Hd'.
      - intros p Hin. apply elem_of_cons in Hin as [->|Hin]; [|by apply Hp'].
        destruct (disk w' !! Join path) as [f|] eqn:Hf; [|done].
        apply Hd' in Hf. congruence.
      - intros q v Hq. by apply Hi, Hi'. }
    destruct (Lstat (Join path) w) as [| |err]; [| |discriminate].
    + unfold Remove. destruct (io_fail _); [discriminate|].
      destruct (disk w !! Join path) as [f0|] eqn:Hf0; [|discriminate].
      apply Hstep.
      * intros k f. cbn. rewrite lookup_delete_Some. by intros [_ ?].
      * cbn. by rewrite lookup_delete_eq.
      * intros q v. unfold Delete. cbn. rewrite lookup_delete_Some. by intros [_ ?].
    + unfold RemoveAll. destruct (io_fail _); [discriminate|].
      apply Hstep.
      * intros k f. cbn. rewrite map_lookup_filter_Some, lookup_delete_Some.
        by intros [[_ ?] _].
      * cbn. apply map_lookup_filter_None. left. by rewrite lookup_delete_eq.
      * intros q v. rewrite DeleteDir_lookup. by destruct (HasPrefix _ _).
Qed.

(** X15: a call of [RemoveFiles] that succeeds only takes away: no content
    file and no entry of the index is added or changed, and no file is left
    at the location of a path that was named.  It returns the entries of the
    index it leaves in the cache; the metadata it writes holds the total size
    of that index and the time of the call, and the state of the project as
    it was: removing files never stages a project. *)
Theorem RemoveFiles_result (paths : list string) (w w' : World)
    (files : list ProjectFile.t) :
  RemoveFiles paths w = (Return (Some files) None, w') ->
  exists (index0 index : FilesIndex) (p p' : ProjectInfo.t) (w0 : World),
    filesIndex w = (Some index0, None, w0)
    /\ indexCache w' = Some index
    /\ project_json w = MetaOk p
    /\ project_json w' = MetaOk p'
    /\ (forall f, f ∈ files <->
          Index index !! ProjectFile.Path f
          = Some (FileInfo.mk (ProjectFile.Hash f) (ProjectFile.Size f)
                              (ProjectFile.Mtime f)))
    /\ (forall path, path ∈ paths -> disk w' !! Join path = None)
    /\ (forall k f, disk w' !! k = Some f -> disk w !! k = Some f)
    /\ (forall q v, Index index !! q = Some v -> Index index0 !! q = Some v)
    /\ ProjectInfo.State p' = ProjectInfo.State p
    /\ ProjectInfo.Size p' = TotalSize index
    /\ ProjectInfo.LastUpdate p' = now w'.
Proof.
  intros H. apply RemoveFiles_success_inv in H
    as (p & index0 & index1 & w0 & w1 & Hp & HI & HR & _ & -> & ->).
  pose proof (filesIndex_frame w) as (Hd & _). rewrite HI in Hd. cbn [snd] in Hd.
  apply RemoveFiles_loop_success in HR as (Hsub & Hgone & Hidx).
  exists index0, index1, p,
    (ProjectInfo.set_LastUpdate (now w1) (ProjectInfo.set_Size (TotalSize index1) p)), w0.
  repeat split; try done.
  - by apply indexProjectFilesList_elem.
  - by apply indexProjectFilesList_elem.
  - intros k f Hk. cbn in Hk. rewrite <- Hd. by apply Hsub.
Qed.

(** The loop of the removals of [UpdateFiles], when no path it is given is a
    directory: the entries of the paths are deleted, and no others. *)
Lemma remove_loop_files (paths : list string) (index index' : FilesIndex)
    (w w' : World) :
  (forall path, path ∈ paths -> is_dir (Join path) w = false) ->
  remove_loop paths index w = (None, index', w') ->
  Index index' = foldl (fun m path => delete path m) (Index index) paths.
Proof.
  revert index w. induction paths as [|path paths IH]; intros index w Hnd.
  - cbn. by intros [= <- _].
  - cbn [remove_loop foldl].
    assert (Hstep : forall w1,
               (forall k f, disk w1 !! k = Some f -> is_Some (disk w !! k)) ->
               remove_loop paths (Delete path index) w1 = (None, index', w') ->
               Index index' = foldl (fun m path => delete path m)
                                (delete path (Index index)) paths).
    { intros w1 Hsub H. apply IH in H; [done|]. intros p Hin.
      apply (is_dir_shrink _ w); [done|]. apply Hnd. by right. }
    pose proof (Hnd path ltac:(left)) as Hp.
    unfold Lstat. destruct (io_fail (OpLstat _)); [discriminate|].
    destruct (disk w !! Join path) as [f0|] eqn:Hf0.
    + unfold Remove. rewrite Hf0. destruct (io_fail _); [discriminate|].
      apply Hstep. intros k f. cbn. rewrite lookup_delete_Some. by intros [_ ->].
    + rewrite Hp. cbn [is_not_exist]. apply Hstep. intros k f ->. done.
Qed.

(** ** The projected size and the size after the call *)

Lemma fmap_foldl_delete {A B : Type} (g : A -> B) (paths : list string)
    (m : gmap string A) :
  g <$> foldl (fun m path => delete path m) m paths
  = foldl (fun m path => delete path m) (g <$> m) paths.
Proof.
  revert m. induction paths as [|path paths IH]; intros m; [done|].
  cbn [foldl]. by rewrite IH, fmap_delete.
Qed.

Lemma fmap_foldl_stored (t : Z) (files : list ProjectFile.t) (next : list upload)
    (m : gmap string FileInfo.t) :
  (length files <= length next)%nat ->
  FileInfo.Size <$>
    foldl (fun m fu => <[ProjectFile.Path (fst fu) := stored_entry t fu]> m) m
          (zip files next)
  = foldl (fun m f => <[ProjectFile.Path f := ProjectFile.Size f]> m)
          (FileInfo.Size <$> m) files.
Proof.
  revert next m. induction files as [|f files IH]; intros next m Hlen; [done|].
  destruct next as [|u next]; [cbn in Hlen; lia|].
  cbn [zip zip_with foldl]. rewrite IH by (cbn in Hlen; lia).
  by rewrite fmap_insert.
Qed.

Lemma foldl_delete_insert {B : Type} (paths : list string) (m : gmap string B)
    (k : string) (v : B) :
  k ∉ paths ->
  foldl (fun m path => delete path m) (<[k := v]> m) paths
  = <[k := v]> (foldl (fun m path => delete path m) m paths).
Proof.
  revert m. induction paths as [|path paths IH]; intros m Hk; [done|].
  apply not_elem_of_cons in Hk as [Hne Hk]. cbn [foldl].
  rewrite delete_insert_ne by done. by apply IH.
Qed.

(** Deleting after writing is writing after deleting, when no key is both
    written and deleted. *)
Lemma foldl_delete_foldl_insert {A B : Type} (key : A -> string) (val : A -> B)
    (l : list A) (paths : list string) (m : gmap string B) :
  (forall a, a ∈ l -> key a ∉ paths) ->
  foldl (fun m path => delete path m) (foldl (fun m a => <[key a := val a]> m) m l) paths
  = foldl (fun m a => <[key a := val a]> m)
          (foldl (fun m path => delete path m) m paths) l.
Proof.
  revert m. induction l as [|a l IH]; intros m Hl; [done|].
  cbn [foldl]. rewrite IH by (intros b Hb; apply Hl; by right).
  rewrite foldl_delete_insert; [done|]. apply Hl. by left.
Qed.

Lemma sum_of_sizes_fmap (fi : FilesIndex) :
  foldl (fun sum e => sum + snd e) 0 (map_to_list (FileInfo.Size <$> Index fi))
  = sum_of_sizes fi.
Proof. unfold sum_of_sizes. by rewrite map_to_list_fmap, foldl_fmap. Qed.

(** The content files after the loop of the updates: those from before, and
    those at the locations of the declared updates. *)
Lemma foldl_insert_is_Some {A B : Type} (key : A -> string) (val : A -> B)
    (l : list A) (m : gmap string B) (k : string) :
  is_Some (foldl (fun m x => <[key x := val x]> m) m l !! k) ->
  is_Some (m !! k) \/ k ∈ key <$> l.
Proof.
  intros H. destruct (decide (k ∈ key <$> l)) as [Hin|Hnot]; [by right|].
  left. by rewrite foldl_insert_not_elem in H.
Qed.

(** X16: when no path to remove is a directory, none is the path of a
    declared update, and no declared update lies below one, the projected
    size that [UpdateFiles] computes before it changes anything is the total
    size of the index after a call that succeeds, and the size that is
    written to the metadata. *)
Theorem UpdateFiles_projected_size_is_final_size (info : FilesChanges)
    (next : option (list upload)) (w w0 w' : World) (index0 : FilesIndex)
    (files : list ProjectFile.t) :
  filesIndex w = (Some index0, None, w0) ->
  (forall r, r ∈ Removes info -> is_dir (Join r) w = false) ->
  (forall r f, r ∈ Removes info -> f ∈ Updates info ->
     ProjectFile.Path f <> r
     /\ HasPrefix (Join (ProjectFile.Path f)) (Join r +:+ Separator) = false) ->
  UpdateFiles info next w = (Return (Some files) None, w') ->
  exists (index' : FilesIndex) (p' : ProjectInfo.t),
    indexCache w' = Some index'
    /\ project_json w' = MetaOk p'
    /\ TotalSize index' = calcNewSize index0 info
    /\ ProjectInfo.Size p' = calcNewSize index0 info.
Proof.
  intros HI Hnd Hsep H.
  apply UpdateFiles_success_inv in H
    as (p & index0' & index1 & index2 & w0' & w1 & w2 & Hp & HI' & HU & HR & _ & _ & ->).
  rewrite HI in HI'. injection HI' as <- <-.
  pose proof (filesIndex_frame w) as (Hd & _). rewrite HI in Hd. cbn [snd] in Hd.
  apply update_loop_success in HU as (HF & Hi1 & Hd1 & _).
  assert (Hlen : (length (Updates info) <= length (default [] next))%nat).
  { apply Forall2_length in HF. rewrite length_take in HF. lia. }
  apply remove_loop_files in HR.
  2:{ intros r Hr. destruct (is_dir (Join r) w1) eqn:Hdir; [|done].
      apply is_dir_true in Hdir as (k & Hk & Hpre). rewrite Hd1 in Hk.
      apply foldl_insert_is_Some in Hk as [Hk|Hk].
      - rewrite Hd in Hk.
        assert (is_dir (Join r) w = true); [|by rewrite Hnd in *].
        apply is_dir_true. by exists k.
      - apply list_elem_of_fmap in Hk as ([f u] & -> & Hin).
        apply list_elem_of_lookup_1 in Hin as [j Hj].
        apply lookup_zip_with_Some in Hj as (f' & u' & [= <- <-] & Hj & _).
        apply list_elem_of_lookup_2 in Hj.
        destruct (Hsep r f Hr Hj) as [_ Hno]. cbn [fst] in Hpre. congruence. }
  assert (Hsizes : FileInfo.Size <$> Index index2 = projected_sizes index0 info).
  { rewrite HR, fmap_foldl_delete, Hi1, fmap_foldl_stored by done.
    unfold projected_sizes.
    apply (foldl_delete_foldl_insert ProjectFile.Path ProjectFile.Size).
    intros f Hf Hin. by destruct (Hsep _ f Hin Hf). }
  assert (Htotal : TotalSize index2 = calcNewSize index0 info).
  { rewrite TotalSize_wrap, calcNewSize_projected. f_equal.
    unfold projected_size. by rewrite <- Hsizes, sum_of_sizes_fmap. }
  exists index2, (finished_project p index2 (now w2)). by repeat split.
Qed.

(** ** The metadata of a project *)

(** X17: [Create] on a project that does not exist, with a metadata document
    that can be decoded, writes the document and a record with the title, the
    file and the projection of the document, the state [empty], the size 0
    and the time of the call as the time of creation; [GetProjectInfo] reads
    that record back, the content files are as before, and a second [Create]
    answers that the project exists and changes nothing.  With a document
    that cannot be decoded nothing is written, and the project still does not
    exist. *)
Theorem Create_result (meta : option json) (w : World) :
  CheckProjectExists w = false ->
  io_fail (OpCreate ".gisquick") = false ->
  io_fail (OpSave "qgis.json") = false ->
  io_fail (OpSave "project.json") = false ->
  (snd (decode_Info meta) = true ->
   exists info w',
     Create meta w = (Some info, None, w')
     /\ info = ProjectInfo.mk (iTitle (fst (decode_Info meta)))
                 (iFile (fst (decode_Info meta)))
                 (iProjection (fst (decode_Info meta))) "empty" 0 (now w) 0 false ""
     /\ GetProjectInfo w' = (info, None)
     /\ qgis_json w' = meta
     /\ disk w' = disk w
     /\ Create meta w' = (None, Some ErrProjectAlreadyExists, w'))
  /\ (snd (decode_Info meta) = false ->
      Create meta w = (None, Some ErrInvalidQgisMeta, w)).
Proof.
  intros HE Hdir Hq Hp. split; intros Hok.
  - unfold Create at 1. rewrite HE, Hdir.
    destruct (decode_Info meta) as [i ok]. cbn [fst snd] in *. subst ok.
    cbn [negb]. unfold save_qgis_json, save_project_json. rewrite Hq, Hp.
    eexists _, _. split; [reflexivity|]. by repeat split.
  - unfold Create. rewrite HE, Hdir.
    destruct (decode_Info meta) as [i ok]. cbn [snd] in Hok. by subst ok.
Qed.

(** X18: a call of [UpdateSettings] that succeeds saves the settings and
    publishes the project, whatever its state was; the title and the kind of
    authentication of the metadata become those of the settings (empty when
    the settings have none), the time of the last update is the time of the
    call, and every other field of the metadata, the content files and the
    index are as before. *)
Theorem UpdateSettings_frame (data : option json) (w w' : World) :
  UpdateSettings data w = (None, w') ->
  exists p p',
    project_json w = MetaOk p
    /\ project_json w' = MetaOk p'
    /\ snd (decode_SettingsInfo data) = true
    /\ settings_json w' = data
    /\ ProjectInfo.State p' = "published"
    /\ ProjectInfo.Title p' = sTitle (fst (decode_SettingsInfo data))
    /\ ProjectInfo.Authentication p' = sAuthType (fst (decode_SettingsInfo data))
    /\ ProjectInfo.LastUpdate p' = now w
    /\ ProjectInfo.QgisFile p' = ProjectInfo.QgisFile p
    /\ ProjectInfo.Projection p' = ProjectInfo.Projection p
    /\ ProjectInfo.Size p' = ProjectInfo.Size p
    /\ ProjectInfo.Created p' = ProjectInfo.Created p
    /\ ProjectInfo.Thumbnail p' = ProjectInfo.Thumbnail p
    /\ disk w' = disk w
    /\ indexCache w' = indexCache w
    /\ filesmap_json w' = filesmap_json w
    /\ qgis_json w' = qgis_json w.
Proof.
  unfold UpdateSettings. destruct (GetProjectInfo w) as [p e] eqn:HP.
  destruct e; [discriminate|]. apply GetProjectInfo_ok in HP.
  destruct (decode_SettingsInfo data) as [sInfo ok]. destruct ok; [|discriminate].
  cbn [negb]. unfold save_settings_json, save_project_json.
  destruct (io_fail (OpSave "settings.json")); [discriminate|].
  destruct (io_fail (OpSave "project.json")); [discriminate|].
  intros [= <-]. eexists p, _. split; [done|]. split; [reflexivity|].
  by repeat split.
Qed.

(** X19: [SaveThumbnail], when it succeeds, sets the flag of the thumbnail
    and the time of the last update in the metadata, and leaves every other
    field, the content files and the index as they are. *)
Theorem SaveThumbnail_frame (r : reader) (w w' : World) :
  SaveThumbnail r w = (None, w') ->
  exists p p',
    project_json w = MetaOk p
    /\ project_json w' = MetaOk p'
    /\ ProjectInfo.Thumbnail p' = true
    /\ ProjectInfo.LastUpdate p' = now w
    /\ ProjectInfo.Title p' = ProjectInfo.Title p
    /\ ProjectInfo.QgisFile p' = ProjectInfo.QgisFile p
    /\ ProjectInfo.Projection p' = ProjectInfo.Projection p
    /\ ProjectInfo.State p' = ProjectInfo.State p
    /\ ProjectInfo.Size p' = ProjectInfo.Size p
    /\ ProjectInfo.Created p' = ProjectInfo.Created p
    /\ ProjectInfo.Authentication p' = ProjectInfo.Authentication p
    /\ disk w' = disk w
    /\ indexCache w' = indexCache w.
Proof.
  unfold SaveThumbnail. destruct (GetProjectInfo w) as [p e] eqn:HP.
  destruct e; [discriminate|]. apply GetProjectInfo_ok in HP.
  destruct (_ || _); [discriminate|].
  unfold save_project_json. destruct (io_fail _); [discriminate|].
  intros [= <-]. eexists p, _. split; [done|]. split; [reflexivity|].
  by repeat split.
Qed.

(** X20: on a project whose metadata file is not there, every operation but
    [Create] answers that the project does not exist, and changes nothing:
    nothing is read from or written to the content files, the control files
    or the cache. *)
Theorem operations_on_missing_project (w : World) (info : FilesChanges)
    (next : option (list upload)) (paths : list string) (checksum : bool)
    (meta data : option json) (r : reader) :
  project_json w = MetaAbsent ->
  UpdateFiles info next w = (Return None (Some ErrProjectNotExists), w)
  /\ RemoveFiles paths w = (Return None (Some ErrProjectNotExists), w)
  /\ ListProjectFiles checksum w = (Return None (Some ErrProjectNotExists), w)
  /\ UpdateMeta meta w = (Some ErrProjectNotExists, w)
  /\ UpdateSettings data w = (Some ErrProjectNotExists, w)
  /\ SaveThumbnail r w = (Some ErrProjectNotExists, w)
  /\ filesIndex w = (None, Some ErrProjectNotExists, w)
  /\ snd (GetProjectInfo w) = Some ErrProjectNotExists.
Proof.
  intros H.
  unfold UpdateFiles, RemoveFiles, ListProjectFiles, UpdateMeta, UpdateSettings,
    SaveThumbnail, filesIndex, CheckProjectExists, GetProjectInfo.
  rewrite H. by repeat split.
Qed.

(** ** The cache when a project is deleted, and when its entry expires *)

(** X21: [Delete] removes the files of the project, and not its entry in the
    cache.  When a project is created under the same name while the entry is
    live, [filesIndex] gives the index of the deleted project for it, although
    the new project has no content file. *)
Theorem Delete_keeps_cached_index (meta : option json) (w : World) (index : FilesIndex) :
  indexCache w = Some index ->
  io_fail (OpRemoveAll (Join "")) = false ->
  io_fail (OpCreate ".gisquick") = false ->
  io_fail (OpSave "qgis.json") = false ->
  io_fail (OpSave "project.json") = false ->
  snd (decode_Info meta) = true ->
  exists w1 info w2,
    DiskStorage_Delete w = (None, w1)
    /\ CheckProjectExists w1 = false
    /\ Create meta w1 = (Some info, None, w2)
    /\ disk w2 = ∅
    /\ filesmap_json w2 = SnapAbsent
    /\ filesIndex w2 = (Some index, None, w2).
Proof.
  intros Hc Hrm Hdir Hq Hp Hok.
  unfold DiskStorage_Delete. rewrite Hrm.
  unfold Create, CheckProjectExists. cbn [project_json].
  destruct (decode_Info meta) as [i ok]. cbn [snd] in Hok. subst ok.
  eexists _, _, _.
  split; [reflexivity|]. split; [reflexivity|].
  cbn [project_json]. rewrite Hdir.
  cbn [negb]. unfold save_qgis_json, save_project_json. rewrite Hq, Hp.
  split; [reflexivity|]. split; [reflexivity|]. split; [reflexivity|].
  apply filesIndex_cached; [reflexivity|exact Hc].
Qed.

(** X22: an index whose entry expired is there again at the next access:
    when the snapshot could be written (and the sizes and the times are
    64-bit integers), [filesIndex] loads an index from it without a scan and
    without a call of [Checksum].  It is the index that was saved, with its
    keys and its checksums as [encoding/json] prints strings: the same index
    when the keys and the checksums are valid UTF-8. *)
Theorem index_survives_expiry (w : World) (index : FilesIndex) :
  CheckProjectExists w = true ->
  indexCache w = Some index ->
  io_fail (OpSave "filesmap.json") = false ->
  map_Forall (fun _ v => FileInfo.wf v) (Index index) ->
  exists w',
    filesIndex (OnEviction w)
      = (Some (mkFilesIndex (read_back_index (Index index))), None, w')
    /\ indexCache (OnEviction w) = None
    /\ indexCache w' = Some (mkFilesIndex (read_back_index (Index index)))
    /\ checksum_calls w' = checksum_calls w
    /\ disk w' = disk w
    /\ (map_Forall utf8_entry (Index index) ->
        mkFilesIndex (read_back_index (Index index)) = index).
Proof.
  intros HE Hc Hio Hwf.
  unfold OnEviction, save_filesmap_json. rewrite Hc, Hio. cbn [snd].
  unfold filesIndex, indexCache_Get, loader, loadFilesIndex, CheckProjectExists in *.
  cbn [project_json set_indexCache set_filesmap_json indexCache filesmap_json].
  destruct (project_json w); [discriminate| | |];
    cbn [negb]; rewrite decode_index_encode_index_read_back by done;
    eexists; (repeat split; try done);
    intros Hv; rewrite read_back_index_valid by done; by destruct index.
Qed.

(** X23: when the snapshot cannot be written as the entry expires, because
    the file cannot be created, the error is only logged and the index is
    lost: with no snapshot from before, the next access gets an empty index,
    and no error. *)
Theorem index_lost_when_eviction_cannot_save (w : World) (index : FilesIndex) :
  CheckProjectExists w = true ->
  indexCache w = Some index ->
  io_fail (OpSave "filesmap.json") = true ->
  io_fail (OpCreate ".gisquick/filesmap.json") = true ->
  filesmap_json w = SnapAbsent ->
  exists w',
    filesIndex (OnEviction w) = (Some (mkFilesIndex ∅), None, w')
    /\ checksum_calls w' = checksum_calls w
    /\ disk w' = disk w.
Proof.
  intros HE Hc Hio Hcr Hs.
  unfold OnEviction, save_filesmap_json, saveJsonFile_failure.
  rewrite Hc, Hio. cbn [snd].
  change (".gisquick/" +:+ "filesmap.json") with ".gisquick/filesmap.json".
  rewrite Hcr.
  unfold filesIndex, indexCache_Get, loader, loadFilesIndex, CheckProjectExists in *.
  cbn [project_json set_indexCache indexCache filesmap_json]. rewrite Hs.
  destruct (project_json w); [discriminate| | |];
    cbn [negb]; eexists; by repeat split.
Qed.

(** ** Files that are uploaded one at a time *)

(** X24: [CreateFile] compares the size of the project with the limit also
    when the limit is zero or negative, the values for which [UpdateFiles]
    checks nothing: whenever the total size of the index plus the declared
    size, in 64 bits, is above [MaxProjectSize], it answers [ErrProjectSize],
    and writes nothing. *)
Theorem CreateFile_size_limit (pattern : string) (r : reader) (size : Z)
    (w w0 : World) (index : FilesIndex) :
  filesIndex w = (Some index, None, w0) ->
  MaxProjectSize s < add64 (TotalSize index) size ->
  CreateFile pattern r size w = (ProjectFile.mk "" "" 0 0, Some ErrProjectSize, w0)
  /\ disk w0 = disk w.
Proof.
  intros HI Hlt.
  pose proof (filesIndex_frame w) as (Hd & _). rewrite HI in Hd. cbn [snd] in Hd.
  split; [|done]. unfold CreateFile.
  assert (HE : CheckProjectExists w = true).
  { revert HI. unfold filesIndex. by destruct (CheckProjectExists w). }
  rewrite HE, HI. cbn [negb].
  by rewrite (proj2 (Z.ltb_lt _ _) Hlt).
Qed.

(** X25: a content that [CreateFile] takes and [SaveFile] moves to a path is
    at the location of the path afterwards, and no longer below [.temp]; the
    index holds for the path the SHA-1 of the content in hexadecimal digits,
    the size of the content (whatever size was declared) and the time it was
    written.  The metadata and the snapshot of the index are not written: the
    size of the project in the metadata is the one from before. *)
Theorem CreateFile_then_SaveFile (pattern content : string) (size : Z) (path : string)
    (w w0 : World) (index : FilesIndex) :
  filesIndex w = (Some index, None, w0) ->
  add64 (TotalSize index) size <= MaxProjectSize s ->
  io_fail (OpCreate (Join ".temp")) = false ->
  io_fail (OpCreate (CreateTemp pattern (disk w))) = false ->
  io_fail (OpStat (CreateTemp pattern (disk w))) = false ->
  io_fail (OpCreate (Join path)) = false ->
  exists finfo w1 w2,
    CreateFile pattern (Reads content) size w = (finfo, None, w1)
    /\ finfo = ProjectFile.mk (CreateTemp pattern (disk w)) (hex (sha1_sum content))
                 (Z.of_nat (String.length content)) (now w)
    /\ SaveFile finfo path w1 = (None, w2)
    /\ disk w2 = <[Join path := mkDiskFile content (now w)]>
                   (delete (CreateTemp pattern (disk w)) (disk w))
    /\ indexCache w2
       = Some (Set_ path (FileInfo.mk (hex (sha1_sum content))
                            (Z.of_nat (String.length content)) (now w)) index)
    /\ project_json w2 = project_json w
    /\ filesmap_json w2 = filesmap_json w.
Proof.
  intros HI Hle Htemp Hcreate Hstat Hdir.
  pose proof (filesIndex_frame w) as (Hd & Hpj & Hfm & _ & _ & Hnow).
  rewrite HI in Hd, Hpj, Hfm, Hnow. cbn [snd] in Hd, Hpj, Hfm, Hnow.
  destruct (filesIndex_Some _ _ _ _ HI) as [_ Hc].
  assert (HE : CheckProjectExists w = true).
  { revert HI. unfold filesIndex. by destruct (CheckProjectExists w). }
  unfold CreateFile. rewrite HE, HI. cbn [negb].
  rewrite (proj2 (Z.ltb_ge _ _) Hle), Htemp, Hd, Hcreate.
  unfold Stat. rewrite Hstat. cbn [disk set_disk]. rewrite lookup_insert_eq.
  eexists _, _, _. split; [reflexivity|]. cbn [fileSize modTime data].
  split; [by rewrite Hnow|].
  unfold SaveFile, Rename. rewrite Hdir. cbn [ProjectFile.Path disk set_disk].
  rewrite lookup_insert_eq.
  rewrite (filesIndex_cached _ index).
  - split; [reflexivity|]. cbn. rewrite delete_insert_eq, Hnow.
    by repeat split.
  - unfold CheckProjectExists in *. cbn. by rewrite Hpj.
  - exact Hc.
Qed.

(** X26: [RemoveFiles] on a path that is a directory removes every content
    file below the location of the path and, from the index, every entry that
    [DeleteDir] removes for the path; the other files and entries stay, and
    the size that is written to the metadata is the total size of what is
    left in the index. *)
Theorem RemoveFiles_directory (d : string) (w w0 : World) (p : ProjectInfo.t)
    (index : FilesIndex) :
  project_json w = MetaOk p ->
  filesIndex w = (Some index, None, w0) ->
  Lstat (Join d) w = IsDir ->
  io_fail (OpRemoveAll (Join d)) = false ->
  io_fail (OpSave "filesmap.json") = false ->
  io_fail (OpSave "project.json") = false ->
  exists w',
    RemoveFiles [d] w
    = (Return (Some (indexProjectFilesList (DeleteDir d index))) None, w')
    /\ indexCache w' = Some (DeleteDir d index)
    /\ (forall k, disk w' !! k
                  = if HasPrefix k (Join d +:+ Separator) then None else disk w !! k)
    /\ project_json w'
       = MetaOk (ProjectInfo.set_LastUpdate (now w)
                   (ProjectInfo.set_Size (TotalSize (DeleteDir d index)) p)).
Proof.
  intros Hp HI HL Hrm Hfm Hpj.
  pose proof (filesIndex_frame w) as (Hd & _ & _ & _ & _ & Hnow).
  rewrite HI in Hd, Hnow. cbn [snd] in Hd, Hnow.
  assert (HL0 : Lstat (Join d) w0 = IsDir).
  { revert HL. unfold Lstat, is_dir. by rewrite Hd. }
  assert (Hnone : disk w !! Join d = None).
  { revert HL. unfold Lstat. destruct (io_fail (OpLstat _)); [discriminate|].
    by destruct (disk w !! Join d). }
  unfold RemoveFiles, GetProjectInfo. rewrite Hp, HI.
  cbn [RemoveFiles_loop]. rewrite HL0. unfold RemoveAll. rewrite Hrm.
  unfold save_filesmap_json, save_project_json. rewrite Hfm, Hpj.
  eexists. split; [reflexivity|]. split; [reflexivity|]. split.
  - intros k. cbn. rewrite Hd, delete_id by done.
    destruct (HasPrefix k (Join d +:+ Separator)) eqn:Hk.
    + apply map_lookup_filter_None. right. intros f _ Hc. cbn [fst] in Hc. congruence.
    + destruct (disk w !! k) as [f|] eqn:Hf.
      * by apply map_lookup_filter_Some.
      * apply map_lookup_filter_None. by left.
  - cbn. by rewrite Hnow.
Qed.

(** ** The checksum of an uploaded file *)

(** X27: the checksum that [UpdateFiles] stores for an uploaded file is the
    SHA-1 of its content, whatever its extension.  For a file whose extension
    is not [.gpkg] that is what [Checksum] computes for the file afterwards;
    for a [.gpkg] file [Checksum] gives a [dbhash:] token, which is never the
    stored checksum: the index holds one kind of checksum for a [.gpkg] file
    that was uploaded and the other kind for one that the loader or
    [ListProjectFiles] hashed. *)
Theorem uploaded_checksum_and_Checksum (updates : list ProjectFile.t)
    (next : option (list upload)) (w w' : World) (files : list ProjectFile.t)
    (i : nat) (f : ProjectFile.t) :
  UpdateFiles (mkFilesChanges updates []) next w = (Return (Some files) None, w') ->
  updates !! i = Some f ->
  (forall j f', updates !! j = Some f' -> (i < j)%nat ->
     Join (ProjectFile.Path f') <> Join (ProjectFile.Path f)) ->
  io_fail (OpOpen (Join (ProjectFile.Path f))) = false ->
  exists (index' : FilesIndex) (entry : FileInfo.t) (u : upload),
    indexCache w' = Some index'
    /\ Index index' !! ProjectFile.Path f = Some entry
    /\ default [] next !! i = Some u
    /\ FileInfo.Hash entry = hex (sha1_sum (upload_content u))
    /\ (ToLower (Ext (Join (ProjectFile.Path f))) <> ".gpkg" ->
        Checksum (Join (ProjectFile.Path f)) w' = (FileInfo.Hash entry, None))
    /\ (ToLower (Ext (Join (ProjectFile.Path f))) = ".gpkg" ->
        fst (Checksum (Join (ProjectFile.Path f)) w') <> FileInfo.Hash entry).
Proof.
  intros H Hf Hlast Hopen.
  apply UpdateFiles_updates_inv in H
    as (index0 & index' & w0 & _ & Hc & HF & Hi & Hd).
  destruct (delivered_lookup _ _ i f HF Hf) as (u & Hu & _ & Hz).
  assert (Hidx : Index index' !! ProjectFile.Path f = Some (stored_entry (now w) (f, u))).
  { rewrite Hi.
    apply (foldl_insert_last (fun fu => ProjectFile.Path (fst fu))
             (stored_entry (now w)) _ _ i (f, u) Hz).
    intros j [f' u'] Hj Hlt Heq. apply lookup_zip_with_Some in Hj
      as (f'' & u'' & [= <- <-] & Hj & _).
    apply (Hlast j f' Hj Hlt). cbn [fst] in Heq. by rewrite Heq. }
  assert (Hdisk : disk w' !! Join (ProjectFile.Path f) = Some (stored_file (now w) (f, u))).
  { rewrite Hd.
    apply (foldl_insert_last (fun fu => Join (ProjectFile.Path (fst fu)))
             (stored_file (now w)) _ _ i (f, u) Hz).
    intros j [f' u'] Hj Hlt. apply lookup_zip_with_Some in Hj
      as (f'' & u'' & [= <- <-] & Hj & _).
    by apply (Hlast j). }
  exists index', (stored_entry (now w) (f, u)), u.
  split; [done|]. split; [done|]. split; [done|]. split; [done|]. split.
  - intros Hext. rewrite Checksum_other by done. unfold Sha1.
    by rewrite Hopen, Hdisk.
  - intros Hext. rewrite Checksum_gpkg by done. cbn [stored_entry FileInfo.Hash snd].
    destruct (dbhash_cmd _ _); cbn [fst]; intros Heq; symmetry in Heq.
    + by apply hex_not_dbhash in Heq.
    + by apply (hex_not_dbhash _ "") in Heq.
Qed.

(** ** A path that is updated and removed in one batch *)

(** X28: [UpdateFiles] applies the updates before the removals, and
    [calcNewSize] the removals before the updates.  For a batch that declares
    one update and removes its path, a call that succeeds leaves no file at
    the location of the path and no entry for it in the index, while the
    projected size that was checked against the limit counts the declared
    size of the update. *)
Theorem UpdateFiles_update_and_remove_same_path (f : ProjectFile.t)
    (next : option (list upload)) (w w' : World) (files : list ProjectFile.t) :
  UpdateFiles (mkFilesChanges [f] [ProjectFile.Path f]) next w
    = (Return (Some files) None, w') ->
  exists (index0 index' : FilesIndex) (w0 : World),
    filesIndex w = (Some index0, None, w0)
    /\ indexCache w' = Some index'
    /\ Index index' !! ProjectFile.Path f = None
    /\ disk w' !! Join (ProjectFile.Path f) = None
    /\ projected_sizes index0 (mkFilesChanges [f] [ProjectFile.Path f])
         !! ProjectFile.Path f = Some (ProjectFile.Size f).
Proof.
  intros H. apply UpdateFiles_success_inv in H
    as (p & index0 & index1 & index2 & w0 & w1 & w2 & Hp & HI & HU & HR & _ & _ & ->).
  cbn [Updates Removes] in HU, HR.
  destruct (default [] next) as [|u l]; [discriminate HU|].
  apply update_loop_success in HU as (_ & _ & Hd1 & _).
  assert (Hfile : is_Some (disk w1 !! Join (ProjectFile.Path f))).
  { rewrite Hd1. cbn [zip zip_with foldl fst]. rewrite lookup_insert_eq. by eexists. }
  exists index0, index2, w0. split; [done|]. split; [done|].
  revert HR. cbn [remove_loop]. unfold Lstat, Remove.
  destruct (io_fail (OpLstat _)); [discriminate|].
  destruct Hfile as [f0 Hf0]. rewrite Hf0.
  destruct (io_fail (OpRemove _)); [discriminate|].
  intros [= <- <-]. split; [|split].
  - cbn. by rewrite lookup_delete_eq.
  - cbn. by rewrite lookup_delete_eq.
  - unfold projected_sizes. cbn. by rewrite lookup_insert_eq.
Qed.

End Storage.

(** ** Instances *)

Lemma DeleteDir_removes_exactly_under_dir_witness :
  HasSuffix "a/b" Separator = false
  /\ Index (DeleteDir "a/b" example_index) !! "a/b/c.txt" = None
  /\ Index (DeleteDir "a/b" example_index) !! "a/bx" = Some example_info
  /\ Index (DeleteDir "a/b" example_index) !! "a/b-extra" = Some example_info.
Proof.
  pose proof (DeleteDir_removes_exactly_under_dir "a/b" example_index) as [_ H].
  split; [reflexivity|].
  specialize (H eq_refl).
  repeat split; rewrite H; reflexivity.
Defined.

(** C8 as stated fails for a directory path that ends in the separator: the
    entry [a/b/c.txt] does not have ["a/b/" + "/"] as a prefix, and
    [DeleteDir "a/b/"] removes it. *)
Lemma DeleteDir_trailing_separator_counterexample :
  under_dir "a/b/" "a/b/c.txt" = false
  /\ Index example_index !! "a/b/c.txt" = Some example_info
  /\ Index (DeleteDir "a/b/" example_index) !! "a/b/c.txt" = None.
Proof. repeat split; vm_compute; reflexivity. Qed.

Lemma Checksum_tokens_witness :
  Checksum example_sha1_sum example_dbhash_cmd no_io_fail "data.GPKG" example_world
    = ("dbhash:" +:+ split_first example_dbhash_output, None)
  /\ Checksum example_sha1_sum example_dbhash_cmd no_io_fail "a.txt" example_world
    = ("415a", None).
Proof.
  pose proof (Checksum_tokens example_sha1_sum example_dbhash_cmd no_io_fail
                "data.GPKG" example_world) as (H1 & _ & _).
  split.
  - apply H1; reflexivity.
  - reflexivity.
Defined.

(** C9 as stated fails when the output of the tool has other white space
    before its first space: the token returned holds the output up to the
    first space, which is not the first whitespace-delimited token. *)
Lemma Checksum_first_token_counterexample :
  Checksum example_sha1_sum example_dbhash_cmd no_io_fail "data.gpkg" example_world
    = ("dbhash:" +:+ "0f4c" +:+ String (ascii_of_nat 9) "data.gpkg", None)
  /\ "dbhash:" +:+ first_token example_dbhash_output = "dbhash:0f4c"
  /\ String.eqb
       (fst (Checksum example_sha1_sum example_dbhash_cmd no_io_fail "data.gpkg"
               example_world))
       ("dbhash:" +:+ first_token example_dbhash_output) = false.
Proof. repeat split; reflexivity. Qed.

Lemma UpdateMeta_frame_witness :
  exists p' : ProjectInfo.t,
    project_json (snd (UpdateMeta no_io_fail example_meta example_world)) = MetaOk p'
    /\ ProjectInfo.State p' = "empty"
    /\ ProjectInfo.Title p' = "Roads"
    /\ ProjectInfo.Created p' = 50.
Proof.
  destruct (UpdateMeta_frame no_io_fail example_meta example_world
              (snd (UpdateMeta no_io_fail example_meta example_world)) eq_refl)
    as (p & p' & Hp & Hp' & Hs & _ & Hc & _ & _ & Ht & _).
  exists p'. injection Hp as <-.
  split; [exact Hp'|]. split; [exact Hs|]. split; [exact Ht|exact Hc].
Defined.

Lemma saved_snapshot_is_not_reloaded_witness :
  exists index : FilesIndex,
    indexCache (snd (UpdateFiles example_Join example_sha1_sum example_dbhash_cmd
                       no_io_fail example_storage example_batch
                       (Some example_uploads) example_world)) = Some index
    /\ Index index = {["b.txt" := FileInfo.mk "415a" 3 1000]}
    /\ loadFilesIndex
         (snd (UpdateFiles example_Join example_sha1_sum example_dbhash_cmd
                 no_io_fail example_storage example_batch
                 (Some example_uploads) example_world))
       = ({["Index" := FileInfo.zero]}, None).
Proof.
  destruct (saved_snapshot_is_not_reloaded example_Join example_sha1_sum
              example_dbhash_cmd no_io_fail example_storage example_world
              (snd (UpdateFiles example_Join example_sha1_sum example_dbhash_cmd
                      no_io_fail example_storage example_batch
                      (Some example_uploads) example_world))
              [ProjectFile.mk "b.txt" "415a" 3 1000])
    as (index & Hc & _ & Hl & _).
  - left. exists example_batch, (Some example_uploads). vm_compute. reflexivity.
  - exists index. split; [exact Hc|]. split.
    + vm_compute in Hc. injection Hc as <-. vm_compute. reflexivity.
    + destruct Hl as [Hl|Hl]; [exact Hl|]. vm_compute in Hl. discriminate Hl.
Defined.

Lemma UpdateFiles_path_mismatch_returns_nil_error_witness :
  UpdateFiles example_Join example_sha1_sum example_dbhash_cmd no_io_fail
    example_storage mismatch_batch (Some mismatch_uploads) example_world
  = (Return None None,
     keep_index (mkFilesIndex {["b.txt" := FileInfo.mk "415a" 3 1000]})
       (set_disk (<["b.txt" := mkDiskFile "xyz" 1000]> example_disk) example_loaded)).
Proof.
  refine (proj1 (UpdateFiles_path_mismatch_returns_nil_error example_Join
            example_sha1_sum example_dbhash_cmd no_io_fail example_storage
            mismatch_batch mismatch_uploads example_world example_loaded
            (set_disk (<["b.txt" := mkDiskFile "xyz" 1000]> example_disk) example_loaded)
            example_project (mkFilesIndex ∅)
            (mkFilesIndex {["b.txt" := FileInfo.mk "415a" 3 1000]})
            [ProjectFile.mk "b.txt" "" 3 0] [] (ProjectFile.mk "c.txt" "" 2 0)
            [NextFile "b.txt" (Reads "xyz")] [] "d.txt" (Reads "zz")
            _ _ _ _ _ _ _ _)); try reflexivity.
  discriminate.
Defined.

Lemma RemoveFiles_absent_target_is_an_error_witness :
  RemoveFiles example_Join example_sha1_sum example_dbhash_cmd no_io_fail
    ["missing.txt"] example_world
  = (Return None (Some (Wrapf "removing file/directory missing.txt" ErrNotExist)),
     keep_index (mkFilesIndex ∅) example_loaded).
Proof.
  refine (proj1 (RemoveFiles_absent_target_is_an_error example_Join example_sha1_sum
            example_dbhash_cmd no_io_fail "missing.txt" [] example_world
            example_loaded example_project (mkFilesIndex ∅) _ _ _)); reflexivity.
Defined.

Lemma UpdateFiles_size_limit_witness :
  UpdateFiles example_Join example_sha1_sum example_dbhash_cmd no_io_fail
    example_storage big_batch None example_world
  = (Return None (Some ErrProjectSize), example_loaded).
Proof.
  refine (proj1 (proj1 (UpdateFiles_size_limit example_Join example_sha1_sum
            example_dbhash_cmd no_io_fail example_storage big_batch None example_world)
            example_project (mkFilesIndex ∅) example_loaded _ _ _ _ _));
    try reflexivity.
  discriminate.
Defined.

(** C4 as stated fails when the sum of the projected sizes does not fit in
    64 bits: two declared sizes of 2^62 make a projected size above the limit
    of 100 bytes, [calcNewSize] gives -2^63, and the batch is not rejected:
    the first upload is written before the call fails for another reason. *)
Lemma projected_size_overflow_counterexample :
  Updates overflow_batch = [ProjectFile.mk "a.bin" "" (2 ^ 62) 0;
                            ProjectFile.mk "b.bin" "" (2 ^ 62) 0]
  /\ (0 <? MaxProjectSize example_storage) = true
  /\ projected_size (mkFilesIndex ∅) overflow_batch = 2 ^ 63
  /\ (MaxProjectSize example_storage <? projected_size (mkFilesIndex ∅) overflow_batch)
     = true
  /\ calcNewSize (mkFilesIndex ∅) overflow_batch = - 2 ^ 63
  /\ fst (UpdateFiles example_Join example_sha1_sum example_dbhash_cmd no_io_fail
            example_storage overflow_batch (Some [NextFile "a.bin" (Reads "xyz")])
            example_world)
     = Return None (Some (Errorf "declared file info doesn't match: a.bin"))
  /\ disk example_world !! "a.bin" = None
  /\ disk (snd (UpdateFiles example_Join example_sha1_sum example_dbhash_cmd no_io_fail
                  example_storage overflow_batch (Some [NextFile "a.bin" (Reads "xyz")])
                  example_world)) !! "a.bin"
     = Some (mkDiskFile "xyz" 1000).
Proof. repeat split; vm_compute; reflexivity. Qed.

Lemma loader_reads_snapshot_or_rebuilds_witness :
  exists index w',
    loader example_Join example_sha1_sum example_dbhash_cmd no_io_fail world_bad_snapshot
    = (Some index, w')
    /\ Index index !! "a.txt" = Some (FileInfo.mk "415a" 5 100)
    /\ checksum_calls w' = ["a.txt"].
Proof.
  destruct (loader_reads_snapshot_or_rebuilds example_Join example_sha1_sum
              example_dbhash_cmd no_io_fail world_bad_snapshot)
    as (_ & _ & H & _).
  destruct (H ∅ (Wrapf "parsing index file" ErrJSON)
              {["a.txt" := FileInfo.mk "" 5 100]})
    as (index & w' & Hl & Hi & Hc & _).
  - reflexivity.
  - vm_compute. reflexivity.
  - intros path info Hin. apply lookup_singleton_Some in Hin as [<- _]. reflexivity.
  - exists index, w'. split; [exact Hl|]. split.
    + rewrite Hi. reflexivity.
    + rewrite Hc. reflexivity.
Defined.

(** C5 as stated fails when the snapshot is absent: the scan would find
    [a.txt], but the loader returns the empty index and calls [Checksum] for
    no file. *)
Lemma loader_absent_snapshot_counterexample :
  filesmap_json example_world = SnapAbsent
  /\ fst (createFilesMap no_io_fail example_world) !! "a.txt"
     = Some (FileInfo.mk "" 5 100)
  /\ loader example_Join example_sha1_sum example_dbhash_cmd no_io_fail example_world
     = (Some (mkFilesIndex ∅), example_loaded)
  /\ checksum_calls example_loaded = [].
Proof. repeat split; vm_compute; reflexivity. Qed.



(** The exception of C6: a call whose write of the metadata file stops
    inside the text leaves a file from which no record is read, whatever the
    state was. *)
Example metadata_cut_loses_state :
  fst (UpdateFiles example_Join example_sha1_sum example_dbhash_cmd metadata_write_fails
         example_storage example_batch (Some example_uploads) world_published)
    = Return None (Some (Wrapf "updating project file"
                           (Wrapf "creating project file" ErrIO)))
  /\ project_json
       (snd (UpdateFiles example_Join example_sha1_sum example_dbhash_cmd
               metadata_write_fails example_storage example_batch
               (Some example_uploads) world_published))
     = MetaCorrupt ProjectInfo.zero.
Proof. repeat split; vm_compute; reflexivity. Qed.

Lemma ListProjectFiles_reconciles_witness :
  exists w' : World,
    ListProjectFiles example_Join example_sha1_sum example_dbhash_cmd no_io_fail
      true world_cached
    = (Return (Some [ProjectFile.mk "a.txt" "H1" 10 100]) None, w')
    /\ checksum_calls w' = []
    /\ indexCache w' = Some (mkFilesIndex (<["a.txt" := example_info]> ∅)).
Proof.
  destruct (ListProjectFiles_reconciles example_Join example_sha1_sum
              example_dbhash_cmd no_io_fail world_cached world_cached
              (mkFilesIndex (<["a.txt" := example_info]> ∅))
              {["a.txt" := FileInfo.mk "" 10 100]})
    as (files & w' & index' & HL & Hf & Hc & Hi & Hlookup).
  - reflexivity.
  - vm_compute. reflexivity.
  - reflexivity.
  - intros path info Hin. apply lookup_singleton_Some in Hin as [<- <-]. discriminate.
  - exists w'. rewrite HL, Hf. split; [reflexivity|]. split; [rewrite Hc; reflexivity|].
    rewrite Hi. destruct index' as [m]. cbn [Index] in Hlookup.
    do 2 f_equal. apply map_eq. intros path. rewrite Hlookup.
    destruct (decide (path = "a.txt")) as [->|Hne]; [reflexivity|].
    rewrite lookup_singleton_ne, lookup_insert_ne by done. reflexivity.
Defined.

(** The second half of the scenario: once the file is deleted from the disk
    the listing is empty and the index has no entry for it. *)
Example ListProjectFiles_after_delete :
  exists w' : World,
    ListProjectFiles example_Join example_sha1_sum example_dbhash_cmd no_io_fail
      true world_deleted
    = (Return (Some []) None, w')
    /\ indexCache w' = Some (mkFilesIndex ∅)
    /\ checksum_calls w' = [].
Proof. eexists. repeat split; vm_compute; reflexivity. Qed.

Lemma eviction_snapshot_round_trip_witness :
  loadFilesIndex (OnEviction no_io_fail world_cached)
  = (<["a.txt" := example_info]> ∅, None).
Proof.
  refine (proj2 (eviction_snapshot_round_trip no_io_fail world_cached
                   (mkFilesIndex (<["a.txt" := example_info]> ∅)) eq_refl eq_refl _) _).
  - intros k v Hk. cbn [Index] in Hk.
    apply lookup_insert_Some in Hk as [[_ <-]|[_ Hk]].
    + split; split; vm_compute; discriminate.
    + by rewrite lookup_empty in Hk.
  - intros k v Hk. cbn [Index] in Hk.
    apply lookup_insert_Some in Hk as [[<- <-]|[_ Hk]].
    + split; reflexivity.
    + by rewrite lookup_empty in Hk.
Defined.

(** A file name that is not valid UTF-8 is not read back: the entry comes
    back under another key. *)
Example eviction_snapshot_invalid_utf8 :
  loadFilesIndex (OnEviction no_io_fail world_latin1)
  = (<[replacement_char +:+ ".txt" := example_info]> ∅, None)
  /\ indexCache world_latin1
     = Some (mkFilesIndex (<[String (ascii_of_nat 233) ".txt" := example_info]> ∅))
  /\ (<[replacement_char +:+ ".txt" := example_info]> ∅ : gmap string FileInfo.t)
       !! String (ascii_of_nat 233) ".txt" = None.
Proof. repeat split; vm_compute; reflexivity. Qed.

Lemma UpdateFiles_removal_of_absent_target_witness :
  exists files w' files' w'',
    UpdateFiles example_Join example_sha1_sum example_dbhash_cmd no_io_fail
      example_storage (mkFilesChanges [] ["missing.txt"]) None example_world
    = (Return (Some files) None, w')
    /\ disk w' = example_disk
    /\ indexCache w' = Some (Delete "missing.txt" (mkFilesIndex ∅))
    /\ UpdateFiles example_Join example_sha1_sum example_dbhash_cmd no_io_fail
         example_storage (mkFilesChanges [] ["missing.txt"]) None w'
       = (Return (Some files') None, w'')
    /\ disk w'' = example_disk
    /\ indexCache w'' = Some (Delete "missing.txt" (mkFilesIndex ∅)).
Proof.
  exact (UpdateFiles_removal_of_absent_target example_Join example_sha1_sum
           example_dbhash_cmd no_io_fail example_storage "missing.txt"
           example_world example_loaded example_project (mkFilesIndex ∅)
           eq_refl eq_refl eq_refl eq_refl eq_refl).
Defined.

Lemma TotalSize_is_sum_of_sizes_witness :
  TotalSize example_index = 30.
Proof.
  refine (proj2 (TotalSize_is_sum_of_sizes example_index) _).
  split; vm_compute; discriminate.
Defined.

(** The index holds three files of ten bytes; removing the directory [a/b]
    leaves two of them, and the projected size of that batch is still thirty. *)
Lemma calcNewSize_removal_without_entry_witness :
  calcNewSize example_index (mkFilesChanges [] ["a/b"])
  = calcNewSize example_index (mkFilesChanges [] [])
  /\ calcNewSize example_index (mkFilesChanges [] ["a/b"]) = 30
  /\ TotalSize (DeleteDir "a/b" example_index) = 20.
Proof.
  split; [|split; vm_compute; reflexivity].
  apply (calcNewSize_removal_without_entry example_index [] "a/b" []).
  reflexivity.
Defined.

Lemma createFilesMap_lists_witness :
  fst (createFilesMap no_io_fail scan_world) !! "a.txt" = Some (FileInfo.mk "" 5 100)
  /\ fst (createFilesMap no_io_fail scan_world) !! "notes.txt~" = None
  /\ fst (createFilesMap no_io_fail scan_world) !! "data.GPKG-WAL" = None
  /\ fst (createFilesMap no_io_fail scan_world) !! ".gisquick/cache.bin" = None.
Proof.
  split; [|repeat split; vm_compute; reflexivity].
  apply (proj2 (createFilesMap_lists no_io_fail scan_world eq_refl)).
  exists (mkDiskFile "hello" 100). repeat split.
Defined.

Lemma ListProjectFiles_without_checksum_witness :
  exists w' : World,
    ListProjectFiles example_Join example_sha1_sum example_dbhash_cmd no_io_fail
      false world_stale
    = (Return (Some [ProjectFile.mk "a.txt" "" 10 200]) None, w')
    /\ checksum_calls w' = []
    /\ indexCache w' = Some (mkFilesIndex (<["a.txt" := example_info]> ∅)).
Proof.
  destruct (ListProjectFiles_without_checksum example_Join example_sha1_sum
              example_dbhash_cmd no_io_fail world_stale world_stale
              (mkFilesIndex (<["a.txt" := example_info]>
                            (<["gone.txt" := example_info]> ∅)))
              {["a.txt" := FileInfo.mk "" 10 200]})
    as (w' & index' & HL & Hc & _ & Hi & Hlookup).
  - reflexivity.
  - vm_compute. reflexivity.
  - reflexivity.
  - exists w'. rewrite HL. split; [reflexivity|]. split; [rewrite Hc; reflexivity|].
    rewrite Hi. destruct index' as [m]. cbn [Index] in Hlookup.
    do 2 f_equal. apply map_eq. intros path. rewrite Hlookup.
    destruct (decide (path = "a.txt")) as [->|Hne]; [reflexivity|].
    rewrite lookup_singleton_ne, lookup_insert_ne by done. reflexivity.
Defined.

Lemma ListProjectFiles_repeated_witness :
  exists files1 files2 w1 w2,
    ListProjectFiles example_Join example_sha1_sum example_dbhash_cmd no_io_fail
      true world_stale = (Return (Some files1) None, w1)
    /\ ListProjectFiles example_Join example_sha1_sum example_dbhash_cmd no_io_fail
         true w1 = (Return (Some files2) None, w2)
    /\ files2 ≡ₚ files1
    /\ checksum_calls w2 = checksum_calls w1
    /\ indexCache w2 = indexCache w1.
Proof.
  refine (ListProjectFiles_repeated example_Join example_sha1_sum
            example_dbhash_cmd no_io_fail world_stale world_stale
            (mkFilesIndex (<["a.txt" := example_info]>
                          (<["gone.txt" := example_info]> ∅)))
            {["a.txt" := FileInfo.mk "" 10 200]} eq_refl _ eq_refl _).
  - vm_compute. reflexivity.
  - intros path info Hin _. apply lookup_singleton_Some in Hin as [<- _]. reflexivity.
Defined.

Lemma ListProjectFiles_rewrites_damaged_metadata_witness :
  exists w' index',
    ListProjectFiles example_Join example_sha1_sum example_dbhash_cmd no_io_fail
      false world_damaged
    = (Return (Some (listed_without_hash <$> range (∅ : gmap string FileInfo.t))) None, w')
    /\ indexCache w' = Some index'
    /\ Index index' !! "gone.txt" = None
    /\ project_json w'
       = MetaOk (ProjectInfo.set_Size (TotalSize index')
                   (ProjectInfo.set_Title "Title" ProjectInfo.zero)).
Proof.
  refine (ListProjectFiles_rewrites_damaged_metadata example_Join example_sha1_sum
            example_dbhash_cmd no_io_fail world_damaged world_damaged
            (mkFilesIndex (<["gone.txt" := example_info]> ∅)) ∅
            (ProjectInfo.set_Title "Title" ProjectInfo.zero)
            (Wrapf "reading project file" ErrJSON) "gone.txt"
            eq_refl eq_refl _ eq_refl _ eq_refl eq_refl).
  - vm_compute. reflexivity.
  - eexists. reflexivity.
Defined.

Lemma operations_without_index_witness :
  fst (UpdateFiles example_Join example_sha1_sum example_dbhash_cmd open_fails
         example_storage example_batch (Some example_uploads) world_bad_snapshot)
    = Return None (Some (Errorf "loading project files index"))
  /\ fst (RemoveFiles example_Join example_sha1_sum example_dbhash_cmd open_fails
            ["a.txt"] world_bad_snapshot)
     = Return None (Some (Errorf "loading project files index"))
  /\ fst (ListProjectFiles example_Join example_sha1_sum example_dbhash_cmd open_fails
            true world_bad_snapshot) = Panic.
Proof.
  refine (operations_without_index example_Join example_sha1_sum example_dbhash_cmd
            open_fails example_storage world_bad_snapshot example_project ∅
            {["a.txt" := FileInfo.mk "" 5 100]} (Wrapf "parsing index file" ErrJSON)
            "a.txt" example_batch (Some example_uploads) ["a.txt"] true
            eq_refl eq_refl eq_refl _ _ _).
  - vm_compute. reflexivity.
  - eexists. reflexivity.
  - eexists. reflexivity.
Defined.

Lemma UpdateFiles_result_witness :
  exists (index : FilesIndex) (p' : ProjectInfo.t),
    indexCache (snd (UpdateFiles example_Join example_sha1_sum example_dbhash_cmd
                       no_io_fail example_storage example_batch
                       (Some example_uploads) example_world)) = Some index
    /\ project_json (snd (UpdateFiles example_Join example_sha1_sum example_dbhash_cmd
                            no_io_fail example_storage example_batch
                            (Some example_uploads) example_world)) = MetaOk p'
    /\ ProjectInfo.Size p' = TotalSize index
    /\ ProjectInfo.State p' = "staged"
    /\ ProjectInfo.Title p' = "Title".
Proof.
  destruct (UpdateFiles_result example_Join example_sha1_sum example_dbhash_cmd
              no_io_fail example_storage example_batch (Some example_uploads)
              example_world
              (snd (UpdateFiles example_Join example_sha1_sum example_dbhash_cmd
                      no_io_fail example_storage example_batch
                      (Some example_uploads) example_world))
              [ProjectFile.mk "b.txt" "415a" 3 1000])
    as (index & p & p' & Hc & Hp & Hp' & _ & _ & Hsize & _ & Hstate & Htitle & _).
  - vm_compute. reflexivity.
  - injection Hp as <-. exists index, p'. split; [exact Hc|]. split; [exact Hp'|].
    split; [exact Hsize|]. split; [exact Hstate|exact Htitle].
Defined.

Lemma UpdateFiles_stores_updates_witness :
  exists index' : FilesIndex,
    indexCache (snd (UpdateFiles example_Join example_sha1_sum example_dbhash_cmd
                       no_io_fail example_storage example_batch
                       (Some example_uploads) example_world)) = Some index'
    /\ Index index' !! "b.txt" = Some (FileInfo.mk "415a" 3 1000)
    /\ disk (snd (UpdateFiles example_Join example_sha1_sum example_dbhash_cmd
                    no_io_fail example_storage example_batch
                    (Some example_uploads) example_world)) !! "b.txt"
       = Some (mkDiskFile "xyz" 1000)
    /\ Index index' !! "a.txt" = None.
Proof.
  destruct (UpdateFiles_stores_updates example_Join example_sha1_sum
              example_dbhash_cmd no_io_fail example_storage
              [ProjectFile.mk "b.txt" "" 3 0] (Some example_uploads) example_world
              (snd (UpdateFiles example_Join example_sha1_sum example_dbhash_cmd
                      no_io_fail example_storage example_batch
                      (Some example_uploads) example_world))
              [ProjectFile.mk "b.txt" "415a" 3 1000])
    as (index0 & index' & w0 & HI & Hc & Hall & Hother).
  - vm_compute. reflexivity.
  - destruct (Hall 0%nat (ProjectFile.mk "b.txt" "" 3 0) eq_refl)
      as (u & Hu & _ & Hidx & Hdisk).
    injection Hu as <-. injection HI as <- _.
    assert (Hlast : forall (j : nat) (f' : ProjectFile.t),
               [ProjectFile.mk "b.txt" "" 3 0] !! j = Some f' -> (0 < j)%nat ->
               ProjectFile.Path f' <> "b.txt").
    { intros [|[|j]] f' Hj Hlt; [lia|discriminate Hj|discriminate Hj]. }
    exists index'. split; [exact Hc|]. split; [exact (Hidx Hlast)|].
    split; [exact (Hdisk Hlast)|].
    rewrite Hother; [reflexivity|].
    intros Hin. apply list_elem_of_fmap in Hin as (f & Hf & Hin).
    apply list_elem_of_singleton in Hin. subst f. discriminate Hf.
Defined.

Lemma UpdateFiles_failed_upload_removes_file_witness :
  exists w' : World,
    UpdateFiles example_Join example_sha1_sum example_dbhash_cmd no_io_fail
      example_storage (mkFilesChanges [ProjectFile.mk "a.txt" "" 5 0] [])
      (Some [NextFile "a.txt" ReadFails]) world_cached
    = (Return None (Some ErrIO), w')
    /\ disk world_cached !! "a.txt" = Some (mkDiskFile "0123456789" 100)
    /\ disk w' !! "a.txt" = None
    /\ indexCache w' = Some (mkFilesIndex (<["a.txt" := example_info]> ∅)).
Proof.
  destruct (UpdateFiles_failed_upload_removes_file example_Join example_sha1_sum
              example_dbhash_cmd no_io_fail example_storage
              (ProjectFile.mk "a.txt" "" 5 0) [] [] [] world_cached world_cached
              example_project (mkFilesIndex (<["a.txt" := example_info]> ∅))
              eq_refl eq_refl eq_refl eq_refl)
    as (w' & HU & Hd & Hc & _).
  exists w'. split; [exact HU|]. split; [reflexivity|].
  split; [rewrite Hd; reflexivity|exact Hc].
Defined.

Lemma UpdateFiles_size_mismatch_keeps_upload_witness :
  exists w' : World,
    UpdateFiles example_Join example_sha1_sum example_dbhash_cmd no_io_fail
      example_storage (mkFilesChanges [ProjectFile.mk "a.txt" "" 5 0] [])
      (Some [NextFile "a.txt" (Reads "xyz")]) world_cached
    = (Return None (Some (Errorf "declared file info doesn't match: a.txt")), w')
    /\ disk w' !! "a.txt" = Some (mkDiskFile "xyz" 1000)
    /\ indexCache w' = Some (mkFilesIndex (<["a.txt" := example_info]> ∅)).
Proof.
  destruct (UpdateFiles_size_mismatch_keeps_upload example_Join example_sha1_sum
              example_dbhash_cmd no_io_fail example_storage
              (ProjectFile.mk "a.txt" "" 5 0) "xyz" [] [] [] world_cached world_cached
              example_project (mkFilesIndex (<["a.txt" := example_info]> ∅))
              eq_refl eq_refl eq_refl eq_refl eq_refl ltac:(discriminate))
    as (w' & HU & Hd & Hc & _).
  exists w'. split; [exact HU|].
  split; [rewrite Hd; reflexivity|exact Hc].
Defined.

Lemma RemoveFiles_result_witness :
  exists (index : FilesIndex) (p' : ProjectInfo.t),
    indexCache (snd (RemoveFiles example_Join example_sha1_sum example_dbhash_cmd
                       no_io_fail ["a.txt"] world_cached)) = Some index
    /\ project_json (snd (RemoveFiles example_Join example_sha1_sum example_dbhash_cmd
                            no_io_fail ["a.txt"] world_cached)) = MetaOk p'
    /\ disk (snd (RemoveFiles example_Join example_sha1_sum example_dbhash_cmd
                    no_io_fail ["a.txt"] world_cached)) !! "a.txt" = None
    /\ ProjectInfo.State p' = "empty"
    /\ ProjectInfo.Size p' = TotalSize index.
Proof.
  destruct (RemoveFiles_result example_Join example_sha1_sum example_dbhash_cmd
              no_io_fail ["a.txt"] world_cached
              (snd (RemoveFiles example_Join example_sha1_sum example_dbhash_cmd
                      no_io_fail ["a.txt"] world_cached)) [])
    as (index0 & index & p & p' & w0 & _ & Hc & Hp & Hp' & _ & Hgone & _ & _
        & Hstate & Hsize & _).
  - vm_compute. reflexivity.
  - injection Hp as <-. exists index, p'. split; [exact Hc|]. split; [exact Hp'|].
    split; [|split; [exact Hstate|exact Hsize]].
    apply (Hgone "a.txt"). apply list_elem_of_singleton. reflexivity.
Defined.

Lemma UpdateFiles_projected_size_is_final_size_witness :
  exists (index' : FilesIndex) (p' : ProjectInfo.t),
    indexCache (snd (UpdateFiles example_Join example_sha1_sum example_dbhash_cmd
                       no_io_fail example_storage
                       (mkFilesChanges [ProjectFile.mk "b.txt" "" 3 0] ["a.txt"])
                       (Some example_uploads) world_cached)) = Some index'
    /\ project_json (snd (UpdateFiles example_Join example_sha1_sum example_dbhash_cmd
                            no_io_fail example_storage
                            (mkFilesChanges [ProjectFile.mk "b.txt" "" 3 0] ["a.txt"])
                            (Some example_uploads) world_cached)) = MetaOk p'
    /\ TotalSize index' = 3
    /\ ProjectInfo.Size p' = 3.
Proof.
  refine (UpdateFiles_projected_size_is_final_size example_Join example_sha1_sum
            example_dbhash_cmd no_io_fail example_storage
            (mkFilesChanges [ProjectFile.mk "b.txt" "" 3 0] ["a.txt"])
            (Some example_uploads) world_cached world_cached
            (snd (UpdateFiles example_Join example_sha1_sum example_dbhash_cmd
                    no_io_fail example_storage
                    (mkFilesChanges [ProjectFile.mk "b.txt" "" 3 0] ["a.txt"])
                    (Some example_uploads) world_cached))
            (mkFilesIndex (<["a.txt" := example_info]> ∅))
            [ProjectFile.mk "b.txt" "415a" 3 1000] eq_refl _ _ _).
  - intros r Hr. apply list_elem_of_singleton in Hr. subst r. reflexivity.
  - intros r f Hr Hf. apply list_elem_of_singleton in Hr, Hf. subst r f.
    split; [discriminate|reflexivity].
  - vm_compute. reflexivity.
Defined.

Lemma Create_result_witness :
  exists w' : World,
    Create no_io_fail example_meta world_new
    = (Some (ProjectInfo.mk "Roads" "roads.qgs" "EPSG:3857" "empty" 0 1000 0 false ""),
       None, w')
    /\ GetProjectInfo w'
       = (ProjectInfo.mk "Roads" "roads.qgs" "EPSG:3857" "empty" 0 1000 0 false "", None)
    /\ Create no_io_fail example_meta w' = (None, Some ErrProjectAlreadyExists, w').
Proof.
  destruct (proj1 (Create_result no_io_fail example_meta world_new
                     eq_refl eq_refl eq_refl eq_refl) eq_refl)
    as (info & w' & HC & -> & HG & _ & _ & HC2).
  exists w'. split; [exact HC|]. split; [exact HG|exact HC2].
Defined.

Lemma UpdateSettings_frame_witness :
  exists p' : ProjectInfo.t,
    project_json (snd (UpdateSettings no_io_fail example_settings example_world))
    = MetaOk p'
    /\ ProjectInfo.Title example_project = "Title"
    /\ ProjectInfo.Title p' = ""
    /\ ProjectInfo.State p' = "published"
    /\ ProjectInfo.Authentication p' = "owner".
Proof.
  destruct (UpdateSettings_frame no_io_fail example_settings example_world
              (snd (UpdateSettings no_io_fail example_settings example_world)))
    as (p & p' & _ & Hp' & _ & _ & Hst & Ht & Ha & _).
  - vm_compute. reflexivity.
  - exists p'. split; [exact Hp'|]. split; [reflexivity|].
    split; [exact Ht|]. split; [exact Hst|exact Ha].
Defined.

Lemma SaveThumbnail_frame_witness :
  exists p' : ProjectInfo.t,
    project_json (snd (SaveThumbnail no_io_fail (Reads "png") example_world))
    = MetaOk p'
    /\ ProjectInfo.Thumbnail p' = true
    /\ ProjectInfo.LastUpdate p' = 1000
    /\ ProjectInfo.State p' = "empty".
Proof.
  destruct (SaveThumbnail_frame no_io_fail (Reads "png") example_world
              (snd (SaveThumbnail no_io_fail (Reads "png") example_world)))
    as (p & p' & Hp & Hp' & Hth & Hl & _ & _ & _ & Hst & _).
  - vm_compute. reflexivity.
  - injection Hp as <-. exists p'. split; [exact Hp'|]. split; [exact Hth|].
    split; [exact Hl|exact Hst].
Defined.

Lemma operations_on_missing_project_witness :
  UpdateFiles example_Join example_sha1_sum example_dbhash_cmd no_io_fail
    example_storage example_batch (Some example_uploads) world_new
  = (Return None (Some ErrProjectNotExists), world_new)
  /\ RemoveFiles example_Join example_sha1_sum example_dbhash_cmd no_io_fail
       ["a.txt"] world_new
     = (Return None (Some ErrProjectNotExists), world_new)
  /\ ListProjectFiles example_Join example_sha1_sum example_dbhash_cmd no_io_fail
       true world_new
     = (Return None (Some ErrProjectNotExists), world_new).
Proof.
  destruct (operations_on_missing_project example_Join example_sha1_sum
              example_dbhash_cmd no_io_fail example_storage world_new example_batch
              (Some example_uploads) ["a.txt"] true example_meta example_settings
              (Reads "png") eq_refl)
    as (HU & HR & HL & _).
  split; [exact HU|]. split; [exact HR|exact HL].
Defined.

Lemma Delete_keeps_cached_index_witness :
  exists w1 info w2,
    DiskStorage_Delete example_Join no_io_fail world_cached = (None, w1)
    /\ CheckProjectExists w1 = false
    /\ Create no_io_fail example_meta w1 = (Some info, None, w2)
    /\ disk w2 = ∅
    /\ filesmap_json w2 = SnapAbsent
    /\ filesIndex example_Join example_sha1_sum example_dbhash_cmd no_io_fail w2
       = (Some (mkFilesIndex (<["a.txt" := example_info]> ∅)), None, w2).
Proof.
  exact (Delete_keeps_cached_index example_Join example_sha1_sum example_dbhash_cmd
           no_io_fail example_meta world_cached
           (mkFilesIndex (<["a.txt" := example_info]> ∅))
           eq_refl eq_refl eq_refl eq_refl eq_refl eq_refl).
Defined.

Lemma index_survives_expiry_witness :
  exists w' : World,
    filesIndex example_Join example_sha1_sum example_dbhash_cmd no_io_fail
      (OnEviction no_io_fail world_cached)
    = (Some (mkFilesIndex (<["a.txt" := example_info]> ∅)), None, w')
    /\ indexCache (OnEviction no_io_fail world_cached) = None
    /\ indexCache w' = Some (mkFilesIndex (<["a.txt" := example_info]> ∅))
    /\ checksum_calls w' = checksum_calls world_cached
    /\ disk w' = disk world_cached.
Proof.
  destruct (index_survives_expiry example_Join example_sha1_sum example_dbhash_cmd
              no_io_fail world_cached (mkFilesIndex (<["a.txt" := example_info]> ∅))
              eq_refl eq_refl eq_refl)
    as (w' & HF & Hn & Hc & Hcalls & Hd & Hv).
  - intros k v Hk. cbn [Index] in Hk.
    apply lookup_insert_Some in Hk as [[_ <-]|[_ Hk]].
    + split; split; vm_compute; discriminate.
    + by rewrite lookup_empty in Hk.
  - assert (Hvalid : map_Forall utf8_entry
                       (Index (mkFilesIndex (<["a.txt" := example_info]> ∅)))).
    { intros k v Hk. cbn [Index] in Hk.
      apply lookup_insert_Some in Hk as [[<- <-]|[_ Hk]].
      - split; reflexivity.
      - by rewrite lookup_empty in Hk. }
    rewrite (Hv Hvalid) in HF, Hc.
    exists w'. split; [exact HF|]. split; [exact Hn|]. split; [exact Hc|].
    split; [exact Hcalls|exact Hd].
Defined.

Lemma index_lost_when_eviction_cannot_save_witness :
  exists w' : World,
    filesIndex example_Join example_sha1_sum example_dbhash_cmd snapshot_fails
      (OnEviction snapshot_fails world_cached)
    = (Some (mkFilesIndex ∅), None, w')
    /\ checksum_calls w' = checksum_calls world_cached
    /\ disk w' = disk world_cached.
Proof.
  exact (index_lost_when_eviction_cannot_save example_Join example_sha1_sum
           example_dbhash_cmd snapshot_fails world_cached
           (mkFilesIndex (<["a.txt" := example_info]> ∅))
           eq_refl eq_refl eq_refl eq_refl eq_refl).
Defined.

(** With no limit configured, [UpdateFiles] would take the file. *)
Lemma CreateFile_size_limit_witness :
  CreateFile example_Join example_sha1_sum example_dbhash_cmd no_io_fail
    unlimited_storage example_CreateTemp "up" (Reads "x") 1 world_cached
  = (ProjectFile.mk "" "" 0 0, Some ErrProjectSize, world_cached)
  /\ disk world_cached = disk world_cached.
Proof.
  refine (CreateFile_size_limit example_Join example_sha1_sum example_dbhash_cmd
            no_io_fail unlimited_storage example_CreateTemp "up" (Reads "x") 1
            world_cached world_cached (mkFilesIndex (<["a.txt" := example_info]> ∅))
            eq_refl _).
  vm_compute. reflexivity.
Defined.

Lemma CreateFile_then_SaveFile_witness :
  exists finfo w1 w2,
    CreateFile example_Join example_sha1_sum example_dbhash_cmd no_io_fail
      example_storage example_CreateTemp "up" (Reads "xyz") 3 world_cached
    = (finfo, None, w1)
    /\ finfo = ProjectFile.mk ".temp/up1" "415a" 3 1000
    /\ SaveFile example_Join example_sha1_sum example_dbhash_cmd no_io_fail
         finfo "b.txt" w1 = (None, w2)
    /\ disk w2 = <["b.txt" := mkDiskFile "xyz" 1000]>
                   (delete ".temp/up1" (disk world_cached))
    /\ indexCache w2
       = Some (Set_ "b.txt" (FileInfo.mk "415a" 3 1000)
                 (mkFilesIndex (<["a.txt" := example_info]> ∅)))
    /\ project_json w2 = project_json world_cached
    /\ filesmap_json w2 = filesmap_json world_cached.
Proof.
  refine (CreateFile_then_SaveFile example_Join example_sha1_sum example_dbhash_cmd
            no_io_fail example_storage example_CreateTemp "up" "xyz" 3 "b.txt"
            world_cached world_cached (mkFilesIndex (<["a.txt" := example_info]> ∅))
            eq_refl _ eq_refl eq_refl eq_refl eq_refl).
  vm_compute. discriminate.
Defined.

Lemma RemoveFiles_directory_witness :
  exists w' : World,
    RemoveFiles example_Join example_sha1_sum example_dbhash_cmd no_io_fail
      ["a/b"] world_tree
    = (Return (Some (indexProjectFilesList (DeleteDir "a/b" example_index))) None, w')
    /\ disk w' !! "a/b/c.txt" = None
    /\ disk w' !! "a/bx" = Some (mkDiskFile "0123456789" 100)
    /\ Index (DeleteDir "a/b" example_index) !! "a/b/c.txt" = None
    /\ project_json w'
       = MetaOk (ProjectInfo.mk "Title" "map.qgs" "EPSG:4326" "empty" 20 50 1000 false "").
Proof.
  destruct (RemoveFiles_directory example_Join example_sha1_sum example_dbhash_cmd
              no_io_fail "a/b" world_tree world_tree example_project example_index
              eq_refl eq_refl eq_refl eq_refl eq_refl eq_refl)
    as (w' & HR & _ & Hd & Hp).
  exists w'. split; [exact HR|].
  split; [rewrite Hd; reflexivity|]. split; [rewrite Hd; reflexivity|].
  split; [vm_compute; reflexivity|]. rewrite Hp. vm_compute. reflexivity.
Defined.

Lemma uploaded_checksum_and_Checksum_witness :
  exists (index' : FilesIndex) (entry : FileInfo.t),
    indexCache (snd (UpdateFiles example_Join example_sha1_sum example_dbhash_cmd
                       no_io_fail example_storage
                       (mkFilesChanges [ProjectFile.mk "data.gpkg" "" 3 0] [])
                       (Some [NextFile "data.gpkg" (Reads "xyz")]) example_world))
    = Some index'
    /\ Index index' !! "data.gpkg" = Some entry
    /\ FileInfo.Hash entry = "415a"
    /\ fst (Checksum example_sha1_sum example_dbhash_cmd no_io_fail "data.gpkg"
              (snd (UpdateFiles example_Join example_sha1_sum example_dbhash_cmd
                      no_io_fail example_storage
                      (mkFilesChanges [ProjectFile.mk "data.gpkg" "" 3 0] [])
                      (Some [NextFile "data.gpkg" (Reads "xyz")]) example_world)))
       <> FileInfo.Hash entry.
Proof.
  destruct (uploaded_checksum_and_Checksum example_Join example_sha1_sum
              example_dbhash_cmd no_io_fail example_storage
              [ProjectFile.mk "data.gpkg" "" 3 0]
              (Some [NextFile "data.gpkg" (Reads "xyz")]) example_world
              (snd (UpdateFiles example_Join example_sha1_sum example_dbhash_cmd
                      no_io_fail example_storage
                      (mkFilesChanges [ProjectFile.mk "data.gpkg" "" 3 0] [])
                      (Some [NextFile "data.gpkg" (Reads "xyz")]) example_world))
              [ProjectFile.mk "data.gpkg" "415a" 3 1000] 0%nat
              (ProjectFile.mk "data.gpkg" "" 3 0))
    as (index' & entry & u & Hc & Hi & Hu & Hh & _ & Hg).
  - vm_compute. reflexivity.
  - reflexivity.
  - intros [|[|j]] f' Hj Hlt; [lia|discriminate Hj|discriminate Hj].
  - reflexivity.
  - injection Hu as <-. exists index', entry. split; [exact Hc|]. split; [exact Hi|].
    split; [exact Hh|]. apply Hg. reflexivity.
Defined.

Lemma UpdateFiles_update_and_remove_same_path_witness :
  exists index' : FilesIndex,
    indexCache (snd (UpdateFiles example_Join example_sha1_sum example_dbhash_cmd
                       no_io_fail example_storage
                       (mkFilesChanges [ProjectFile.mk "b.txt" "" 3 0] ["b.txt"])
                       (Some example_uploads) example_world)) = Some index'
    /\ Index index' !! "b.txt" = None
    /\ disk (snd (UpdateFiles example_Join example_sha1_sum example_dbhash_cmd
                    no_io_fail example_storage
                    (mkFilesChanges [ProjectFile.mk "b.txt" "" 3 0] ["b.txt"])
                    (Some example_uploads) example_world)) !! "b.txt" = None
    /\ calcNewSize (mkFilesIndex ∅)
         (mkFilesChanges [ProjectFile.mk "b.txt" "" 3 0] ["b.txt"]) = 3.
Proof.
  destruct (UpdateFiles_update_and_remove_same_path example_Join example_sha1_sum
              example_dbhash_cmd no_io_fail example_storage
              (ProjectFile.mk "b.txt" "" 3 0) (Some example_uploads) example_world
              (snd (UpdateFiles example_Join example_sha1_sum example_dbhash_cmd
                      no_io_fail example_storage
                      (mkFilesChanges [ProjectFile.mk "b.txt" "" 3 0] ["b.txt"])
                      (Some example_uploads) example_world))
              [])
    as (index0 & index' & w0 & _ & Hc & Hi & Hd & _).
  - vm_compute. reflexivity.
  - exists index'. split; [exact Hc|]. split; [exact Hi|]. split; [exact Hd|].
    vm_compute. reflexivity.
Defined.
